(** * DetailedDomain-Parser: chunked bulk loader and index builder

    A shallow embedding of [dataloader.py] and [faster_indexing.py].

    - Python integers are [Z]; Python floats are IEEE binary64 values,
      modelled with the standard library's [spec_float] operations at
      precision 53 and maximal exponent 1024.
    - The input file of the chunk planner is a list of bytes read through
      a file object with a cursor.
    - The storage engine, the file system calls of the loader and of the
      merger, and [print] are effects: every call goes to an environment
      that may answer with a value or raise, and is recorded in a trace. *)

From Stdlib Require Import String Ascii DecimalString.
From Stdlib Require Import ZArith List Bool Lia.
From Stdlib Require Import Floats.SpecFloat.
From Stdlib Require DecimalZ.
Import ListNotations.

Local Open Scope Z_scope.

(** ** Python results *)

(** Exceptions raised by the modelled code or by the environment. *)
Inductive Exn : Type :=
| ZeroDivisionError
| OverflowError
| ValueError
| TypeError
| OSError (msg : string)
| EngineError (msg : string).

Inductive Result (A : Type) : Type :=
| Ret (a : A)
| Raise (e : Exn).

Arguments Ret {A} a.
Arguments Raise {A} e.

(** ** Python floats (binary64) *)

Module PyFloat.

Definition prec : Z := 53.
Definition emax : Z := 1024.

Definition float := spec_float.

(** An integer seen as an exact (not yet rounded) binary value. *)
Definition exact (n : Z) : float :=
  match n with
  | Z0 => S754_zero false
  | Zpos p => S754_finite false p 0
  | Zneg p => S754_finite true p 0
  end.

(** [a / b] on two ints: the correctly rounded quotient;
    [ZeroDivisionError] on a zero divisor, [OverflowError] when the
    quotient is too large for a float. *)
Definition true_div (a b : Z) : Result float :=
  if b =? 0 then Raise ZeroDivisionError
  else match SFdiv prec emax (exact a) (exact b) with
       | S754_infinity _ => Raise OverflowError
       | q => Ret q
       end.

(** [float(n)]: round to nearest, ties to even; [OverflowError] when
    the int is too large to convert. *)
Definition of_int (n : Z) : Result float :=
  match binary_normalize prec emax n 0 false with
  | S754_infinity _ => Raise OverflowError
  | x => Ret x
  end.

(** [x * n] with [x] a float and [n] an int: [n] is converted first. *)
Definition mul_int (x : float) (n : Z) : Result float :=
  match of_int n with
  | Raise e => Raise e
  | Ret y => Ret (SFmul prec emax x y)
  end.

(** [int(x)]: truncation towards zero. *)
Definition to_int (x : float) : Result Z :=
  match x with
  | S754_zero _ => Ret 0
  | S754_finite s m e =>
      let a := if 0 <=? e then Z.shiftl (Zpos m) e
               else Z.shiftr (Zpos m) (- e) in
      Ret (if s then - a else a)
  | S754_infinity _ => Raise OverflowError
  | S754_nan => Raise ValueError
  end.

(** The literal [1.0]. *)
Definition one : float := S754_finite false 4503599627370496 (-52).

Definition ltb (x y : float) : bool := SFltb x y.

(** The sign bit, when the value has one. *)
Definition sign (x : float) : option bool :=
  match x with
  | S754_zero s | S754_infinity s | S754_finite s _ _ => Some s
  | S754_nan => None
  end.

(** A float that is zero, positive or not a number. *)
Definition not_negative (x : float) : Prop :=
  match sign x with
  | Some s => s = false
  | None => True
  end.

End PyFloat.

(** ** The input file as the planner reads it *)

Definition byte := Byte.byte.
Definition newline : byte := Byte.x0a.

Definition is_newline (bs : list byte) : bool :=
  match bs with
  | [b] => Byte.eqb b newline
  | _ => false
  end.

(** A file opened in ['rb'] mode: its bytes and the cursor. *)
Record FileObj : Type := mkFile { content : list byte; cursor : Z }.

Definition open_rb (data : list byte) : FileObj := mkFile data 0.

(** [f.seek(pos)] on a file just opened.  An offset below [-2^63] does
    not fit the offset type and the call raises [ValueError]; any other
    negative offset is refused by the OS.  The planner seeks below the
    file size only, so offsets of [2^63] and more do not arise. *)
Definition seek (f : FileObj) (pos : Z) : Result FileObj :=
  if pos <? - 2 ^ 63 then Raise ValueError
  else if pos <? 0 then Raise (OSError "Invalid argument")
  else Ret (mkFile (content f) pos).

(** [f.read(1)]: the byte under the cursor, or nothing at end of file. *)
Definition read1 (f : FileObj) : list byte * FileObj :=
  match nth_error (content f) (Z.to_nat (cursor f)) with
  | Some b => ([b], mkFile (content f) (cursor f + 1))
  | None => ([], f)
  end.

(** ** Chunk planner: [get_file_chunks] *)

Definition Chunk : Type := (Z * Z)%type.

(** The inner [while end_pos < file_size] loop that moves to the end of
    the line.  [None] when the iteration budget is exhausted. *)
Fixpoint scan_to_newline (fuel : nat) (f : FileObj) (file_size end_pos : Z)
  {struct fuel} : option (FileObj * Z) :=
  if end_pos <? file_size then
    match fuel with
    | O => None
    | S fuel' =>
        let '(char, f') := read1 f in
        let end_pos' := end_pos + 1 in
        if is_newline char then Some (f', end_pos')
        else scan_to_newline fuel' f' file_size end_pos'
    end
  else Some (f, end_pos).

(** The outer [while start_pos < file_size] loop. *)
Fixpoint plan_loop (fuel : nat) (f : FileObj) (file_size chunk_bytes : Z)
  (start_pos : Z) (chunks : list Chunk) {struct fuel}
  : option (Result (list Chunk)) :=
  if start_pos <? file_size then
    match fuel with
    | O => None
    | S fuel' =>
        let end_pos := Z.min (start_pos + chunk_bytes) file_size in
        if end_pos <? file_size then
          match seek f end_pos with
          | Raise e => Some (Raise e)
          | Ret f1 =>
              match scan_to_newline fuel' f1 file_size end_pos with
              | None => None
              | Some (f2, end_pos') =>
                  plan_loop fuel' f2 file_size chunk_bytes end_pos'
                    (chunks ++ [(start_pos, end_pos')])
              end
          end
        else
          plan_loop fuel' f file_size chunk_bytes end_pos
            (chunks ++ [(start_pos, end_pos)])
    end
  else Some (Ret chunks).

(** [chunk_bytes = int((file_size / total_rows) * chunk_size)]. *)
Definition chunk_bytes_of (file_size total_rows chunk_size : Z) : Result Z :=
  match PyFloat.true_div file_size total_rows with
  | Raise e => Raise e
  | Ret approx_bytes_per_row =>
      match PyFloat.mul_int approx_bytes_per_row chunk_size with
      | Raise e => Raise e
      | Ret x => PyFloat.to_int x
      end
  end.

Definition get_file_chunks_fuel (fuel : nat) (file : list byte)
  (total_rows chunk_size : Z) : option (Result (list Chunk)) :=
  let file_size := Z.of_nat (length file) in
  match chunk_bytes_of file_size total_rows chunk_size with
  | Raise e => Some (Raise e)
  | Ret chunk_bytes =>
      plan_loop fuel (open_rb file) file_size chunk_bytes 0 []
  end.

(** One loop iteration consumes at least one byte, so a budget of one
    more than the file size is never exhausted (see
    [plan_loop_enough_fuel]). *)
Definition get_file_chunks (file : list byte) (total_rows chunk_size : Z)
  : option (Result (list Chunk)) :=
  get_file_chunks_fuel (S (length file)) file total_rows chunk_size.

(** The bytes of [file] in the range [[s, e)]. *)
Definition byte_range (file : list byte) (c : Chunk) : list byte :=
  firstn (Z.to_nat (snd c - fst c)) (skipn (Z.to_nat (fst c)) file).

(** [chunks] walks from [lo] to [hi]: each range starts where the previous
    one ended, is not empty, and the last one ends at [hi]. *)
Fixpoint tiles (lo hi : Z) (chunks : list Chunk) : Prop :=
  match chunks with
  | [] => lo = hi
  | (s, e) :: rest => s = lo /\ s < e /\ tiles e hi rest
  end.

(** Every range of [chunks] that ends before the end of [file] ends
    just past a newline. *)
Definition newline_aligned (file : list byte) (chunks : list Chunk) : Prop :=
  forall c, In c chunks -> snd c < Z.of_nat (length file) ->
    nth_error file (Z.to_nat (snd c - 1)) = Some newline.

(** How many ranges of [chunks] contain the byte offset [x]. *)
Definition contains (x : Z) (c : Chunk) : bool :=
  (fst c <=? x) && (x <? snd c).

Definition count_containing (x : Z) (chunks : list Chunk) : nat :=
  length (filter (contains x) chunks).

(** ** Strings and paths *)

(** [str(n)] on an int. *)
Definition str (n : Z) : string := NilZero.string_of_int (Z.to_int n).

Fixpoint ends_with_slash (s : string) : bool :=
  match s with
  | EmptyString => false
  | String c EmptyString => Ascii.eqb c "/"%char
  | String _ s' => ends_with_slash s'
  end.

(** [os.path.join(a, b)] on a POSIX system. *)
Definition os_path_join (a b : string) : string :=
  (if prefix "/" b then b
   else if (a =? "") || ends_with_slash a then a ++ b
   else a ++ "/" ++ b)%string.

(** ** Row counting of the chunk loader *)

(** [data.count(b'\n')]. *)
Definition count_newlines (data : list byte) : Z :=
  Z.of_nat (length (filter (fun b => Byte.eqb b newline) data)).

(** [data[-1:]]: the last byte as a slice, empty for empty data. *)
Definition last_slice (data : list byte) : list byte :=
  skipn (length data - 1) data.

(** The row count of lines 132-135. *)
Definition count_rows (data : list byte) : Z :=
  let rows_in_chunk := count_newlines data in
  if negb (is_newline (last_slice data)) then rows_in_chunk + 1
  else rows_in_chunk.

Definition final_byte (data : list byte) : option byte :=
  nth_error data (length data - 1).

(** The row-count convention in the words of the specification: the
    number of newline bytes, plus one if the final byte is not a newline.
    Data without any byte has no final newline and counts one row. *)
Definition rows_by_convention (data : list byte) : Z :=
  Z.of_nat (count_occ Byte.byte_eq_dec data newline)
  + match final_byte data with
    | Some b => if Byte.eqb b newline then 0 else 1
    | None => 1
    end.

(** ** Effects: engine, file system and console *)

Inductive Value : Type :=
| VNone
| VBool (b : bool)
| VInt (n : Z)
| VBytes (data : list byte).

(** The SQL statements the two programs send to the engine.  Each
    constructor stands for one statement text of the source; the table
    schema and the fixed COPY options are not parameters. *)
Inductive Sql : Type :=
| PragmaMemoryLimit (memory_limit : string)
| CreateTableDomains
| CreateTableDomainsIfNotExists
| CopyDomainsFrom (path : string) (compression : option string)
| AttachTempDb (path : string)
| CountTempDomains
| InsertFromTempDomains
| DetachTempDb
| CreateSampleTable (sample_table table_name : string)
    (sample_size : PyFloat.float)
| CreateIndexIfNotExists (index_name table field : string)
| DropTable (table : string).

(** Calls into the environment.  A connection is named by the path of
    the database it was opened on, a file object by its path. *)
Inductive Call : Type :=
| DuckdbConnect (db_path : string)
| ConnExecute (db_path : string) (q : Sql)
| ConnClose (db_path : string)
| OpenFile (path mode : string)
| FileSeek (path : string) (pos : Z)
| FileRead (path : string) (size : Z)
| FileWrite (path : string) (data : list byte)
| OsRemove (path : string)
| OsPathExists (path : string)
| OsPathGetsize (path : string).

(** Lines written with [print]; elapsed times are left out. *)
Inductive Message : Type :=
| MsgChunkError (chunk_id : Z) (e : Exn)
| MsgMerging (position count : Z) (temp_db : string)
| MsgMergeError (temp_db : string) (e : Exn)
| MsgSplit (chunk_count : Z)
| MsgWorkers (workers : Z)
| MsgProcessed (rows_processed store_count : Z)
| MsgMergingDatabases
| MsgCreatingIndex (field : string)
| MsgCreatingFullIndex (field : string)
| MsgIndexCreated (field : string)
| MsgIndexError (field : string) (e : Exn).

Inductive Event : Type :=
| Called (c : Call) (r : Result Value)
| Printed (m : Message).

Definition Trace : Type := list Event.

(** An environment answers every call from its current state. *)
Record Env : Type := mkEnv {
  World : Type;
  respond : Call -> World -> World * Result Value
}.

Section Effects.

Variable E : Env.

(** A computation: from a state of the world to the new state, the
    events it produced and its outcome. *)
Definition M (A : Type) : Type :=
  World E -> World E * Trace * Result A.

Definition ret {A : Type} (a : A) : M A :=
  fun w => (w, [], Ret a).

Definition raise {A : Type} (e : Exn) : M A :=
  fun w => (w, [], Raise e).

Definition bind {A B : Type} (m : M A) (k : A -> M B) : M B :=
  fun w =>
    match m w with
    | (w1, t1, Ret a) =>
        let '(w2, t2, r) := k a w1 in (w2, t1 ++ t2, r)
    | (w1, t1, Raise e) => (w1, t1, Raise e)
    end.

Definition call (c : Call) : M Value :=
  fun w => let '(w1, r) := respond E c w in (w1, [Called c r], r).

Definition print (m : Message) : M unit :=
  fun w => (w, [Printed m], Ret tt).

(** [try: m except Exception as e: h e]. *)
Definition try_except {A : Type} (m : M A) (h : Exn -> M A) : M A :=
  fun w =>
    match m w with
    | (w1, t1, Ret a) => (w1, t1, Ret a)
    | (w1, t1, Raise e) =>
        let '(w2, t2, r) := h e w1 in (w2, t1 ++ t2, r)
    end.

(** [try: m finally: fin]; an exception of [fin] replaces the outcome
    of [m]. *)
Definition try_finally {A : Type} (m : M A) (fin : M unit) : M A :=
  fun w =>
    let '(w1, t1, r) := m w in
    match fin w1 with
    | (w2, t2, Ret _) => (w2, t1 ++ t2, r)
    | (w2, t2, Raise e) => (w2, t1 ++ t2, Raise e)
    end.

(** The value a call is expected to answer with.  The real calls answer
    with no other type; an environment that does is treated as one whose
    call raised. *)
Definition as_bytes (v : Value) : M (list byte) :=
  match v with VBytes d => ret d | _ => raise TypeError end.

Definition as_int (v : Value) : M Z :=
  match v with VInt n => ret n | _ => raise TypeError end.

Definition as_bool (v : Value) : M bool :=
  match v with VBool b => ret b | _ => raise TypeError end.

End Effects.

Arguments ret {E A} a.
Arguments raise {E A} e.
Arguments bind {E A B} m k.
Arguments call {E} c.
Arguments print {E} m.
Arguments try_except {E A} m h.
Arguments try_finally {E A} m fin.
Arguments as_bytes {E} v.
Arguments as_int {E} v.
Arguments as_bool {E} v.

Declare Scope py_scope.
Delimit Scope py_scope with py.
Notation "x <- m ;; k" := (bind m (fun x => k))
  (at level 61, m at next level, right associativity) : py_scope.
Notation "m ;; k" := (bind m (fun _ => k))
  (at level 61, right associativity) : py_scope.
Local Open Scope py_scope.

(** ** Chunk loader: [process_chunk] *)

Section Loader.

Variable E : Env.

(** Lines 118-121: the COMPRESSION option is added unless the
    compression is ['none'] or ['uncompressed']. *)
Definition copy_compression (compression : string) : option string :=
  if (negb (compression =? "none")
      && negb (compression =? "uncompressed"))%string
  then Some compression else None.

Definition chunk_db_path (temp_dir : string) (chunk_id : Z) : string :=
  os_path_join temp_dir ("chunk_" ++ str chunk_id ++ ".duckdb").

Definition chunk_csv_path (temp_dir : string) (chunk_id : Z) : string :=
  os_path_join temp_dir ("chunk_" ++ str chunk_id ++ ".csv").

(** The body of the [try] block, lines 127-142. *)
Definition extract_and_load (file_path temp_db_path temp_file : string)
  (start_pos end_pos : Z) (compression : string) : M E Z :=
  call (OpenFile file_path "rb") ;;
  call (FileSeek file_path start_pos) ;;
  v <- call (FileRead file_path (end_pos - start_pos)) ;;
  data <- as_bytes v ;;
  let rows_in_chunk := count_rows data in
  call (OpenFile temp_file "wb") ;;
  call (FileWrite temp_file data) ;;
  call (ConnExecute temp_db_path
          (CopyDomainsFrom temp_file (copy_compression compression))) ;;
  ret rows_in_chunk.

(** The [finally] block, lines 148-153. *)
Definition close_and_clean (temp_db_path temp_file : string) : M E unit :=
  call (ConnClose temp_db_path) ;;
  try_except (call (OsRemove temp_file) ;; ret tt) (fun _ => ret tt).

Definition process_chunk (chunk_info : Z * Chunk)
  (file_path temp_dir memory_limit compression : string)
  : M E (Z * string) :=
  let '(chunk_id, (start_pos, end_pos)) := chunk_info in
  let temp_db_path := chunk_db_path temp_dir chunk_id in
  call (DuckdbConnect temp_db_path) ;;
  call (ConnExecute temp_db_path (PragmaMemoryLimit memory_limit)) ;;
  call (ConnExecute temp_db_path CreateTableDomains) ;;
  let temp_file := chunk_csv_path temp_dir chunk_id in
  rows_in_chunk <-
    try_finally
      (try_except
         (extract_and_load file_path temp_db_path temp_file
            start_pos end_pos compression)
         (fun e => print (MsgChunkError chunk_id e) ;; ret 0))
      (close_and_clean temp_db_path temp_file) ;;
  ret (rows_in_chunk, temp_db_path).

End Loader.

(** ** Store merger: [merge_temp_databases] *)

Section Merger.

Variable E : Env.

(** Lines 200-204, after [total_rows] has been updated: an exception
    here reaches the same [except] clause, which leaves the updated
    total in place. *)
Definition detach_and_remove (db_path temp_db : string) (total_rows : Z)
  : M E Z :=
  try_except
    (call (ConnExecute db_path DetachTempDb) ;;
     call (OsRemove temp_db) ;;
     ret total_rows)
    (fun e => print (MsgMergeError temp_db e) ;; ret total_rows).

(** One iteration of the [for] loop, lines 181-207; the result is the
    value of [total_rows] after it. *)
Definition merge_one (db_path : string) (count : Z) (i : Z)
  (temp_db : string) (total_rows : Z) : M E Z :=
  try_except
    (v <- call (OsPathExists temp_db) ;;
     present <- as_bool v ;;
     small <- (if negb present then ret true
               else (s <- call (OsPathGetsize temp_db) ;;
                     size <- as_int s ;;
                     ret (size <? 1000))) ;;
     if small : bool then ret total_rows
     else
       (print (MsgMerging (i + 1) count temp_db) ;;
        call (ConnExecute db_path (AttachTempDb temp_db)) ;;
        r <- call (ConnExecute db_path CountTempDomains) ;;
        rows_to_add <- as_int r ;;
        call (ConnExecute db_path InsertFromTempDomains) ;;
        detach_and_remove db_path temp_db (total_rows + rows_to_add)))
    (fun e => print (MsgMergeError temp_db e) ;; ret total_rows).

Fixpoint merge_loop (db_path : string) (count : Z) (i : Z)
  (temp_dbs : list string) (total_rows : Z) : M E Z :=
  match temp_dbs with
  | [] => ret total_rows
  | temp_db :: rest =>
      total_rows' <- merge_one db_path count i temp_db total_rows ;;
      merge_loop db_path count (i + 1) rest total_rows'
  end.

Definition merge_temp_databases (db_path : string)
  (temp_dbs : list string) (memory_limit : string) : M E Z :=
  call (DuckdbConnect db_path) ;;
  call (ConnExecute db_path (PragmaMemoryLimit memory_limit)) ;;
  call (ConnExecute db_path CreateTableDomainsIfNotExists) ;;
  total_rows <-
    merge_loop db_path (Z.of_nat (length temp_dbs)) 0 temp_dbs 0 ;;
  call (ConnClose db_path) ;;
  ret total_rows.

End Merger.

(** ** The chunked branch of [main] *)

Section ChunkedMain.

Variable E : Env.

Record Args : Type := mkArgs {
  arg_file : string;
  arg_db_path : string;
  arg_workers : Z;
  arg_chunk_size : Z;
  arg_memory_limit : string;
  arg_compression : string;
  arg_temp_dir : string
}.

(** Line 254. *)
Definition total_rows : Z := 217038672.

(** [enumerate(chunks)]. *)
Fixpoint enumerate_from {A : Type} (i : Z) (l : list A) : list (Z * A) :=
  match l with
  | [] => []
  | x :: rest => (i, x) :: enumerate_from (i + 1) rest
  end.

(** The body of the [for] loop over the pool results, lines 290-292. *)
Definition collect (acc : Z * list string) (result : Z * string)
  : Z * list string :=
  let '(rows_processed, temp_dbs) := acc in
  let '(rows, temp_db) := result in
  (rows_processed + rows,
   if 0 <? rows then temp_dbs ++ [temp_db] else temp_dbs).

(** The worker pool.  The workers share nothing but the environment;
    they are run here one after the other, in the order [jobs] in which
    their results arrive, and an exception of a worker ends the loop. *)
Fixpoint pool_loop (args : Args) (jobs : list (Z * Chunk))
  (acc : Z * list string) : M E (Z * list string) :=
  match jobs with
  | [] => ret acc
  | job :: rest =>
      result <- process_chunk E job (arg_file args) (arg_temp_dir args)
                  (arg_memory_limit args) (arg_compression args) ;;
      pool_loop args rest (collect acc result)
  end.

(** Lines 268-299 for the chunk list [chunks]; [schedule] is the order
    in which the pool delivers the results.  The outcome is the pair
    [(rows_processed, rows_loaded)]: the sum of the loaders' row counts
    and the total returned by the merger. *)
Definition load_chunks (args : Args)
  (schedule : list (Z * Chunk) -> list (Z * Chunk))
  (chunks : list Chunk) : M E (Z * Z) :=
  print (MsgSplit (Z.of_nat (length chunks))) ;;
  let chunks_with_ids := enumerate_from 0 chunks in
  let workers := Z.min (arg_workers args) (Z.of_nat (length chunks)) in
  print (MsgWorkers workers) ;;
  (if workers <? 1 then raise ValueError else ret tt) ;;
  acc <- pool_loop args (schedule chunks_with_ids) (0, []) ;;
  let '(rows_processed, temp_dbs) := acc in
  print (MsgProcessed rows_processed (Z.of_nat (length temp_dbs))) ;;
  print MsgMergingDatabases ;;
  rows_loaded <- merge_temp_databases E (arg_db_path args) temp_dbs
                   (arg_memory_limit args) ;;
  ret (rows_processed, rows_loaded).

(** Lines 267-299 on the bytes [input] of the file [args.file]. *)
Definition main_chunked (args : Args)
  (schedule : list (Z * Chunk) -> list (Z * Chunk))
  (input : list byte) : option (M E (Z * Z)) :=
  match get_file_chunks input total_rows (arg_chunk_size args) with
  | None => None
  | Some (Raise e) => Some (raise e)
  | Some (Ret chunks) => Some (load_chunks args schedule chunks)
  end.

End ChunkedMain.

(** ** Index builder: [create_single_index] *)

Section IndexBuilder.

Variable E : Env.

Definition create_single_index (db_path memory_limit field : string)
  (sample_size : PyFloat.float) : M E unit :=
  let index_name := ("idx_" ++ field)%string in
  call (DuckdbConnect db_path) ;;
  call (ConnExecute db_path (PragmaMemoryLimit memory_limit)) ;;
  let table_name := "domains"%string in
  let sample_table := ("sample_" ++ field ++ "_table")%string in
  table_for_index <-
    (if PyFloat.ltb sample_size PyFloat.one then
       call (ConnExecute db_path
               (CreateSampleTable sample_table table_name sample_size)) ;;
       ret sample_table
     else ret table_name) ;;
  print (MsgCreatingIndex field) ;;
  try_except
    (call (ConnExecute db_path
             (CreateIndexIfNotExists index_name table_for_index field)) ;;
     (if PyFloat.ltb sample_size PyFloat.one then
        print (MsgCreatingFullIndex field) ;;
        call (ConnExecute db_path
                (CreateIndexIfNotExists index_name table_name field)) ;;
        call (ConnExecute db_path (DropTable sample_table)) ;;
        ret tt
      else ret tt) ;;
     print (MsgIndexCreated field))
    (fun e => print (MsgIndexError field e)) ;;
  call (ConnClose db_path) ;;
  ret tt.

End IndexBuilder.

(** ** Reading traces *)

Definition is_failure_report (ev : Event) : bool :=
  match ev with
  | Printed (MsgChunkError _ _) | Printed (MsgMergeError _ _) => true
  | _ => false
  end.

(** Some chunk or store reported a failure. *)
Definition failure_reported (t : Trace) : bool :=
  existsb is_failure_report t.

Definition call_raised (ev : Event) : bool :=
  match ev with
  | Called _ (Raise _) => true
  | _ => false
  end.

(** Some call into the environment raised. *)
Definition some_call_raised (t : Trace) : bool := existsb call_raised t.

(** The answer that makes the merger skip a store: the file does not
    exist, or it is smaller than 1000 bytes. *)
Definition is_skip_answer (ev : Event) : bool :=
  match ev with
  | Called (OsPathExists _) (Ret (VBool false)) => true
  | Called (OsPathGetsize _) (Ret (VInt size)) => size <? 1000
  | _ => false
  end.

Definition store_skipped (t : Trace) : bool := existsb is_skip_answer t.

(** A call of the loader's [try] block: extraction or bulk load. *)
Definition is_loader_step (c : Call) : bool :=
  match c with
  | OpenFile _ _ | FileSeek _ _ | FileRead _ _ | FileWrite _ _
  | ConnExecute _ (CopyDomainsFrom _ _) => true
  | _ => false
  end.

Definition loader_step_raised (t : Trace) : bool :=
  existsb (fun ev => match ev with
                     | Called c (Raise _) => is_loader_step c
                     | _ => false
                     end) t.

(** A call of the loader outside its [try] block raised: opening the
    store, the two set-up statements, or closing the connection. *)
Definition loader_frame_raised (t : Trace) : bool :=
  existsb (fun ev => match ev with
                     | Called c (Raise _) => negb (is_loader_step c)
                                             && match c with
                                                | OsRemove _ => false
                                                | _ => true
                                                end
                     | _ => false
                     end) t.

(** A step of the merge proper raised: attach, count or insert. *)
Definition merge_step_raised (t : Trace) : bool :=
  existsb (fun ev => match ev with
                     | Called (ConnExecute _ (AttachTempDb _)) (Raise _)
                     | Called (ConnExecute _ CountTempDomains) (Raise _)
                     | Called (ConnExecute _ InsertFromTempDomains) (Raise _)
                       => true
                     | _ => false
                     end) t.

(** The events before the first call of [os.remove]. *)
Fixpoint before_remove (t : Trace) : Trace :=
  match t with
  | [] => []
  | Called (OsRemove _) _ :: _ => []
  | ev :: rest => ev :: before_remove rest
  end.

(** The INSERT of the merge was executed without an error. *)
Definition insert_succeeded (t : Trace) : bool :=
  existsb (fun ev => match ev with
                     | Called (ConnExecute _ InsertFromTempDomains) (Ret _)
                       => true
                     | _ => false
                     end) t.

(** The byte strings the loaders read, in order. *)
Definition read_answers (t : Trace) : list (list byte) :=
  flat_map (fun ev => match ev with
                      | Called (FileRead _ _) (Ret (VBytes d)) => [d]
                      | _ => []
                      end) t.

(** The row counts the engine reported for the attached stores, in
    order. *)
Definition count_answers (t : Trace) : list Z :=
  flat_map (fun ev => match ev with
                      | Called (ConnExecute _ CountTempDomains) (Ret (VInt n))
                        => [n]
                      | _ => []
                      end) t.

(** The rows every loader copied into its store: the connection of
    each COPY the engine executed, with the row count, by the row
    convention, of the bytes read just before it. *)
Fixpoint loaded_rows (data : list byte) (t : Trace) : list (string * Z) :=
  match t with
  | [] => []
  | Called (FileRead _ _) (Ret (VBytes d)) :: rest => loaded_rows d rest
  | Called (ConnExecute store (CopyDomainsFrom _ _)) (Ret _) :: rest =>
      (store, rows_by_convention data) :: loaded_rows data rest
  | _ :: rest => loaded_rows data rest
  end.

(** The row count the engine reported for every merged store: each
    answer to the count, with the store attached just before it. *)
Fixpoint merged_counts (attached : string) (t : Trace)
  : list (string * Z) :=
  match t with
  | [] => []
  | Called (ConnExecute _ (AttachTempDb store)) _ :: rest =>
      merged_counts store rest
  | Called (ConnExecute _ CountTempDomains) (Ret (VInt n)) :: rest =>
      (attached, n) :: merged_counts attached rest
  | _ :: rest => merged_counts attached rest
  end.

(** A reported count and a loaded store do not contradict each other:
    they are about different stores, or the numbers are the same. *)
Definition count_agrees (merged loaded : string * Z) : bool :=
  negb (fst merged =? fst loaded)%string || (snd merged =? snd loaded).

(** For each merged store, the row count the engine reported is the
    row count of the bytes that were loaded into that store. *)
Definition counts_agree (t : Trace) : bool :=
  forallb (fun merged => forallb (count_agrees merged) (loaded_rows [] t))
    (merged_counts "" t).

(** The calls made, in order. *)
Definition calls (t : Trace) : list Call :=
  flat_map (fun ev => match ev with
                      | Called c _ => [c]
                      | Printed _ => []
                      end) t.

(** The statements sent to the engine, in order. *)
Definition statements (t : Trace) : list Sql :=
  flat_map (fun c => match c with
                     | ConnExecute _ q => [q]
                     | _ => []
                     end) (calls t).

Definition sum_Z (l : list Z) : Z := fold_right Z.add 0 l.

(** ** Example environments *)

(** An environment without state that answers by a fixed table. *)
Definition scripted (answer : Call -> Result Value) : Env :=
  mkEnv unit (fun c w => (w, answer c)).

(** Every store file has [size] bytes and [rows] rows, every read gives
    [data], and nothing fails. *)
Definition answer_ok (data : list byte) (size rows : Z) (c : Call)
  : Result Value :=
  match c with
  | FileRead _ _ => Ret (VBytes data)
  | OsPathExists _ => Ret (VBool true)
  | OsPathGetsize _ => Ret (VInt size)
  | ConnExecute _ CountTempDomains => Ret (VInt rows)
  | _ => Ret VNone
  end.

(** As [answer_ok], but the engine rejects every COPY. *)
Definition answer_copy_fails (data : list byte) (c : Call) : Result Value :=
  match c with
  | ConnExecute _ (CopyDomainsFrom _ _) =>
      Raise (EngineError "Invalid Input Error")
  | _ => answer_ok data 12288 1 c
  end.

(** As [answer_ok], but the engine cannot attach any store. *)
Definition answer_attach_fails (c : Call) : Result Value :=
  match c with
  | ConnExecute _ (AttachTempDb _) => Raise (EngineError "IO Error")
  | _ => answer_ok [] 12288 1 c
  end.

Definition example_args : Args :=
  mkArgs "domains.csv" "domains.duckdb" 4 250000 "8GB" "none" "./temp_dbs".

(** The one-line file [a;b\n]. *)
Definition one_line : list byte :=
  [Byte.x61; Byte.x3b; Byte.x62; Byte.x0a].

(** Three lines, the last one without a newline. *)
Definition three_lines : list byte :=
  [Byte.x61; Byte.x0a; Byte.x62; Byte.x62; Byte.x0a; Byte.x63].

(** Ten rows [ab], the last one without a newline. *)
Definition ten_rows : list byte :=
  concat (repeat [Byte.x61; Byte.x62; Byte.x0a] 9) ++ [Byte.x61; Byte.x62].

(** One run of the loader in which the engine rejects the COPY. *)
Definition run_copy_fails :=
  process_chunk (scripted (answer_copy_fails one_line)) (0, (0, 4))
    "domains.csv" "./temp_dbs" "8GB" "none" tt.

(** As [answer_copy_fails], but closing a connection fails as well. *)
Definition answer_copy_and_close_fail (data : list byte) (c : Call)
  : Result Value :=
  match c with
  | ConnClose _ => Raise (EngineError "Connection Error")
  | _ => answer_copy_fails data c
  end.

(** One run of the loader in which the engine rejects the COPY and then
    fails to close the connection. *)
Definition run_copy_and_close_fail :=
  process_chunk (scripted (answer_copy_and_close_fail one_line)) (0, (0, 4))
    "domains.csv" "./temp_dbs" "8GB" "none" tt.

(** One run of the loader in which nothing fails. *)
Definition run_loader_ok :=
  process_chunk (scripted (answer_ok three_lines 12288 3)) (0, (0, 6))
    "domains.csv" "./temp_dbs" "8GB" "none" tt.

(** One iteration of the merger on a store of 999 bytes. *)
Definition run_merge_small :=
  merge_one (scripted (answer_ok [] 999 5)) "domains.duckdb" 1 0
    "./temp_dbs/chunk_0.duckdb" 7 tt.

(** One iteration of the merger on a store the engine cannot attach. *)
Definition run_merge_attach_fails :=
  merge_one (scripted answer_attach_fails) "domains.duckdb" 1 0
    "./temp_dbs/chunk_0.duckdb" 7 tt.

(** The float [0.5]. *)
Definition one_half : PyFloat.float :=
  S754_finite false 4503599627370496 (-53).

(** One index build on a sample of one half. *)
Definition run_sampled_index :=
  create_single_index (scripted (answer_ok [] 12288 0)) "domains.duckdb"
    "8GB" "ip" one_half tt.

(** The pool delivers the results in submission order. *)
Definition in_order (jobs : list (Z * Chunk)) : list (Z * Chunk) := jobs.

(** Two lines [a;b\n], and arguments whose rows per chunk give a chunk
    width of two bytes on them. *)
Definition two_lines : list byte := one_line ++ one_line.

Definition two_chunk_args : Args :=
  mkArgs "domains.csv" "domains.duckdb" 4 54259668 "8GB" "none"
    "./temp_dbs".

(** The chunked load of the two lines, one line per chunk: every read
    gives one line and every store holds one row. *)
Definition run_pipeline_two_chunks :=
  load_chunks (scripted (answer_ok one_line 12288 1)) two_chunk_args
    in_order [(0, 4); (4, 8)] tt.

(** The chunked load of the one-line file when every store file has
    999 bytes. *)
Definition run_pipeline_small_store :=
  load_chunks (scripted (answer_ok one_line 999 1)) example_args in_order
    [(0, 4)] tt.


(** ** Further readings of planner results *)

(** The range [c] reaches past its tentative end [fst c + chunk_bytes]
    only as far as the first newline found from there: it ends at the end
    of the file or is longer than [chunk_bytes], and between the
    tentative end and its last byte there is no newline. *)
Definition overshoot_tight (file : list byte) (chunk_bytes : Z) (c : Chunk)
  : Prop :=
  (snd c = Z.of_nat (length file) \/ fst c + chunk_bytes < snd c)
  /\ forall k, fst c + chunk_bytes <= k < snd c - 1 ->
       nth_error file (Z.to_nat k) <> Some newline.

(** ** Further readings of loader and merger traces *)

(** What one run of the loader may call: the input file is only read,
    the scratch file is only written and removed, and the engine is only
    used through the connection to the loader's own store. *)
Definition loader_call_ok (file_path temp_db_path temp_file : string)
  (c : Call) : Prop :=
  match c with
  | DuckdbConnect p | ConnExecute p _ | ConnClose p => p = temp_db_path
  | OpenFile p mode =>
      (p = file_path /\ mode = "rb"%string)
      \/ (p = temp_file /\ mode = "wb"%string)
  | FileSeek p _ | FileRead p _ => p = file_path
  | FileWrite p _ | OsRemove p => p = temp_file
  | OsPathExists _ | OsPathGetsize _ => False
  end.

(** As [answer_ok], but closing a connection fails. *)
Definition answer_close_fails (data : list byte) (c : Call) : Result Value :=
  match c with
  | ConnClose _ => Raise (EngineError "Connection Error")
  | _ => answer_ok data 12288 1 c
  end.

(** One run of the loader in which closing the store fails. *)
Definition run_close_fails :=
  process_chunk (scripted (answer_close_fails one_line)) (0, (0, 4))
    "domains.csv" "./temp_dbs" "8GB" "none" tt.

(** The rows the merger appended in a run: for every INSERT that the
    engine executed without an error, the count it had answered last. *)
Fixpoint inserted_rows (pending : Z) (t : Trace) : Z :=
  match t with
  | [] => 0
  | Called (ConnExecute _ CountTempDomains) (Ret (VInt n)) :: rest =>
      inserted_rows n rest
  | Called (ConnExecute _ InsertFromTempDomains) (Ret _) :: rest =>
      pending + inserted_rows pending rest
  | _ :: rest => inserted_rows pending rest
  end.

(** What the merger may call: the engine through the connection to the
    target, and [os.path.exists], [os.path.getsize] and [os.remove] on
    the stores it was given. *)
Definition merger_call_ok (db_path : string) (temp_dbs : list string)
  (c : Call) : Prop :=
  match c with
  | DuckdbConnect p | ConnExecute p _ | ConnClose p => p = db_path
  | OsPathExists p | OsPathGetsize p | OsRemove p => In p temp_dbs
  | OpenFile _ _ | FileSeek _ _ | FileRead _ _ | FileWrite _ _ => False
  end.

(** As [answer_ok], but the engine cannot detach a store. *)
Definition answer_detach_fails (rows : Z) (c : Call) : Result Value :=
  match c with
  | ConnExecute _ DetachTempDb => Raise (EngineError "Catalog Error")
  | _ => answer_ok [] 12288 rows c
  end.

(** One iteration of the merger in which DETACH fails. *)
Definition run_merge_detach_fails :=
  merge_one (scripted (answer_detach_fails 5)) "domains.duckdb" 1 0
    "./temp_dbs/chunk_0.duckdb" 7 tt.

(** A merge of two stores, the first of which cannot be detached. *)
Definition run_merger_detach_fails :=
  merge_temp_databases (scripted (answer_detach_fails 5)) "domains.duckdb"
    ["./temp_dbs/chunk_0.duckdb"; "./temp_dbs/chunk_1.duckdb"]%string
    "8GB" tt.

(** A merge of one store when closing the target fails. *)
Definition run_merger_close_fails :=
  merge_temp_databases (scripted (answer_close_fails [])) "domains.duckdb"
    ["./temp_dbs/chunk_0.duckdb"%string] "8GB" tt.

(** ** The results of the pool *)

(** The results that [pool.imap_unordered] delivers for [jobs] (line
    289): [process_chunk] on every job, in the order of arrival; an
    exception of a worker ends the iteration. *)
Fixpoint imap_unordered (E : Env) (args : Args) (jobs : list (Z * Chunk))
  : M E (list (Z * string)) :=
  match jobs with
  | [] => ret []
  | job :: rest =>
      result <- process_chunk E job (arg_file args) (arg_temp_dir args)
                  (arg_memory_limit args) (arg_compression args) ;;
      results <- imap_unordered E args rest ;;
      ret (result :: results)
  end.

(** Two loaders, one after the other, on an engine that accepts
    everything. *)
Definition run_pool_ok :=
  pool_loop (scripted (answer_ok one_line 12288 1)) example_args
    [(0, (0, 4)); (1, (4, 8))] (0, []) tt.

(** ** Further readings of index builder traces *)

(** A call of the index builder outside its [try] block raised: opening
    the database, the memory limit, the creation of the sample table, or
    closing the connection. *)
Definition index_frame_raised (t : Trace) : bool :=
  existsb (fun ev => match ev with
                     | Called (DuckdbConnect _) (Raise _)
                     | Called (ConnExecute _ (PragmaMemoryLimit _)) (Raise _)
                     | Called (ConnExecute _ (CreateSampleTable _ _ _))
                         (Raise _)
                     | Called (ConnClose _) (Raise _) => true
                     | _ => false
                     end) t.

(** A statement of the index builder's [try] block raised: CREATE INDEX
    or DROP TABLE. *)
Definition index_step_raised (t : Trace) : bool :=
  existsb (fun ev => match ev with
                     | Called (ConnExecute _ (CreateIndexIfNotExists _ _ _))
                         (Raise _)
                     | Called (ConnExecute _ (DropTable _)) (Raise _) => true
                     | _ => false
                     end) t.

(** As [answer_ok], but the engine rejects every CREATE INDEX. *)
Definition answer_index_fails (c : Call) : Result Value :=
  match c with
  | ConnExecute _ (CreateIndexIfNotExists _ _ _) =>
      Raise (EngineError "Binder Error")
  | _ => answer_ok [] 12288 0 c
  end.

(** One index build on a sample in which CREATE INDEX fails. *)
Definition run_sampled_index_fails :=
  create_single_index (scripted answer_index_fails) "domains.duckdb"
    "8GB" "ip" one_half tt.

(** One index build without sampling. *)
Definition run_full_index :=
  create_single_index (scripted (answer_ok [] 12288 0)) "domains.duckdb"
    "8GB" "ip" PyFloat.one tt.

(** ** The remaining functions: more statements, calls and messages *)

(** Statements sent by [setup_database], [load_direct_copy],
    [create_indexes] and [optimize_index_creation] besides those of
    [Sql]. *)
Inductive MoreSql : Type :=
| PragmaThreads (thread_count : Z)
| PragmaEnableObjectCache
| PragmaCheckpointOnShutdown
| PragmaTempDirectory (dir : string)
| CountDomains
| AnalyzeDomains.

Inductive MoreCall : Type :=
| ConnExecuteMore (db_path : string) (q : MoreSql)
| CpuCount.

Inductive MoreMessage : Type :=
| MsgCreatingIndexes
| MsgRunningAnalyze
| MsgAnalyzeUnavailable
| MsgCreatingIndexesFor (total_rows : Z)
| MsgAnalyzeFailed (e : Exn)
| MsgAnalyzeFailureIsNormal
| MsgAllIndexesCreated
| MsgIndexCreationComplete
| MsgQueryPerformance.

(** An event of the loader, merger or single index build, or one of the
    further calls and messages. *)
Inductive MoreEvent : Type :=
| Old (ev : Event)
| MoreCalled (c : MoreCall) (r : Result Value)
| MorePrinted (m : MoreMessage).

(** An environment that also answers the further calls. *)
Record FullEnv : Type := mkFullEnv {
  base_env : Env;
  respond_more : MoreCall -> World base_env -> World base_env * Result Value
}.

Section MoreEffects.

Variable X : FullEnv.

Definition MM (A : Type) : Type :=
  World (base_env X) -> World (base_env X) * list MoreEvent * Result A.

Definition mret {A : Type} (a : A) : MM A :=
  fun w => (w, [], Ret a).

Definition mraise {A : Type} (e : Exn) : MM A :=
  fun w => (w, [], Raise e).

Definition mbind {A B : Type} (m : MM A) (k : A -> MM B) : MM B :=
  fun w =>
    match m w with
    | (w1, t1, Ret a) =>
        let '(w2, t2, r) := k a w1 in (w2, t1 ++ t2, r)
    | (w1, t1, Raise e) => (w1, t1, Raise e)
    end.

(** A computation of the first part, run in place. *)
Definition lift {A : Type} (m : M (base_env X) A) : MM A :=
  fun w => let '(w1, t, r) := m w in (w1, map Old t, r).

Definition call_more (c : MoreCall) : MM Value :=
  fun w => let '(w1, r) := respond_more X c w in (w1, [MoreCalled c r], r).

Definition print_more (m : MoreMessage) : MM unit :=
  fun w => (w, [MorePrinted m], Ret tt).

(** [try: m except: h e], also with a bare [except]. *)
Definition mtry_except {A : Type} (m : MM A) (h : Exn -> MM A) : MM A :=
  fun w =>
    match m w with
    | (w1, t1, Ret a) => (w1, t1, Ret a)
    | (w1, t1, Raise e) =>
        let '(w2, t2, r) := h e w1 in (w2, t1 ++ t2, r)
    end.

Definition mas_int (v : Value) : MM Z :=
  match v with VInt n => mret n | _ => mraise TypeError end.

End MoreEffects.

Arguments mret {X A} a.
Arguments mraise {X A} e.
Arguments mbind {X A B} m k.
Arguments lift {X A} m.
Arguments call_more {X} c.
Arguments print_more {X} m.
Arguments mtry_except {X A} m h.
Arguments mas_int {X} v.

Declare Scope more_scope.
Delimit Scope more_scope with more.
Notation "x <- m ;; k" := (mbind m (fun x => k))
  (at level 61, m at next level, right associativity) : more_scope.
Notation "m ;; k" := (mbind m (fun _ => k))
  (at level 61, right associativity) : more_scope.

Section MoreFunctions.

Variable X : FullEnv.

Local Open Scope more_scope.

(** [conn.execute] and friends of the first part, on the connection. *)
Definition execute (conn : string) (q : Sql) : MM X Value :=
  lift (call (ConnExecute conn q)).

Definition execute_more (conn : string) (q : MoreSql) : MM X Value :=
  call_more (ConnExecuteMore conn q).

(** [setup_database], lines 31-62 of [dataloader.py]. *)
Definition setup_database (db_path memory_limit : string) : MM X string :=
  lift (call (DuckdbConnect db_path)) ;;
  let conn := db_path in
  execute conn (PragmaMemoryLimit memory_limit) ;;
  v <- call_more CpuCount ;;
  cpu_count <- mas_int v ;;
  let thread_count := Z.max 1 (cpu_count / 2) in
  execute_more conn (PragmaThreads thread_count) ;;
  mtry_except
    (execute_more conn PragmaEnableObjectCache ;; mret tt)
    (fun _ => mret tt) ;;
  execute conn CreateTableDomainsIfNotExists ;;
  mret conn.

(** [load_direct_copy], lines 212-230. *)
Definition load_direct_copy (file_path db_path memory_limit
  compression : string) : MM X Z :=
  conn <- setup_database db_path memory_limit ;;
  execute conn (CopyDomainsFrom file_path (copy_compression compression)) ;;
  v <- execute_more conn CountDomains ;;
  row_count <- mas_int v ;;
  lift (call (ConnClose conn)) ;;
  mret row_count.

(** [create_indexes], lines 232-247. *)
Definition create_indexes (db_path : string) : MM X unit :=
  lift (call (DuckdbConnect db_path)) ;;
  let conn := db_path in
  print_more MsgCreatingIndexes ;;
  execute conn (CreateIndexIfNotExists "idx_domain" "domains" "domain") ;;
  execute conn (CreateIndexIfNotExists "idx_ip" "domains" "ip") ;;
  execute conn (CreateIndexIfNotExists "idx_country" "domains" "country") ;;
  print_more MsgRunningAnalyze ;;
  mtry_except
    (execute_more conn AnalyzeDomains ;; mret tt)
    (fun _ => print_more MsgAnalyzeUnavailable) ;;
  lift (call (ConnClose conn)) ;;
  mret tt.

(** The serial loop of [optimize_index_creation], lines 111-112. *)
Fixpoint index_each_field (db_path memory_limit : string)
  (fields : list string) (sample_size : PyFloat.float) : MM X unit :=
  match fields with
  | [] => mret tt
  | field :: rest =>
      lift (create_single_index (base_env X) db_path memory_limit field
              sample_size) ;;
      index_each_field db_path memory_limit rest sample_size
  end.

(** [optimize_index_creation], lines 77-129 of [faster_indexing.py].
    The processes of [parallel_index_creation] run concurrently; their
    joint effect is a parameter. *)
Variable parallel_index_creation :
  string -> string -> list string -> PyFloat.float -> MM X unit.

Definition optimize_index_creation (db_path memory_limit : string)
  (fields : list string) (parallel : bool) (sample_size : PyFloat.float)
  (skip_analyze : bool) : MM X unit :=
  lift (call (DuckdbConnect db_path)) ;;
  let conn := db_path in
  execute conn (PragmaMemoryLimit memory_limit) ;;
  mtry_except
    (execute_more conn PragmaCheckpointOnShutdown ;; mret tt)
    (fun _ => mret tt) ;;
  v <- execute_more conn CountDomains ;;
  total_rows <- mas_int v ;;
  print_more (MsgCreatingIndexesFor total_rows) ;;
  mtry_except
    (execute_more conn (PragmaTempDirectory "/tmp") ;;
     execute_more conn (PragmaThreads 8) ;;
     mret tt)
    (fun _ => mret tt) ;;
  lift (call (ConnClose conn)) ;;
  (if parallel then
     parallel_index_creation db_path memory_limit fields sample_size
   else index_each_field db_path memory_limit fields sample_size) ;;
  (if negb skip_analyze then
     print_more MsgRunningAnalyze ;;
     lift (call (DuckdbConnect db_path)) ;;
     mtry_except
       (execute_more conn AnalyzeDomains ;; mret tt)
       (fun e => print_more (MsgAnalyzeFailed e) ;;
                 print_more MsgAnalyzeFailureIsNormal) ;;
     lift (call (ConnClose conn)) ;;
     mret tt
   else mret tt) ;;
  print_more MsgAllIndexesCreated ;;
  print_more MsgIndexCreationComplete ;;
  print_more MsgQueryPerformance.

End MoreFunctions.

(** ** Reading the traces of the remaining functions *)

(** The statements sent to the engine, of both kinds, in order. *)
Definition all_statements (t : list MoreEvent) : list (Sql + MoreSql) :=
  flat_map (fun ev => match ev with
                      | Old (Called (ConnExecute _ q) _) => [inl q]
                      | MoreCalled (ConnExecuteMore _ q) _ => [inr q]
                      | _ => []
                      end) t.

(** The connections closed, in order. *)
Definition closed (t : list MoreEvent) : list string :=
  flat_map (fun ev => match ev with
                      | Old (Called (ConnClose p) _) => [p]
                      | _ => []
                      end) t.

(** [setup_database] cannot go on: a call other than the object cache
    pragma raised, or the processor count is no int. *)
Definition setup_failed (t : list MoreEvent) : bool :=
  existsb (fun ev => match ev with
                     | Old (Called _ (Raise _)) => true
                     | MoreCalled (ConnExecuteMore _ PragmaEnableObjectCache)
                         (Raise _) => false
                     | MoreCalled _ (Raise _) => true
                     | MoreCalled CpuCount (Ret (VInt _)) => false
                     | MoreCalled CpuCount (Ret _) => true
                     | _ => false
                     end) t.

(** A call other than ANALYZE raised. *)
Definition not_analyze_raised (t : list MoreEvent) : bool :=
  existsb (fun ev => match ev with
                     | Old (Called _ (Raise _)) => true
                     | MoreCalled (ConnExecuteMore _ AnalyzeDomains)
                         (Raise _) => false
                     | MoreCalled _ (Raise _) => true
                     | _ => false
                     end) t.

(** The index statements on the full table, in order, whatever their
    outcome. *)
Definition full_table_indexes (t : list MoreEvent) : list Sql :=
  flat_map (fun ev => match ev with
                      | Old (Called (ConnExecute _
                               (CreateIndexIfNotExists i "domains" f)) _)
                        => [CreateIndexIfNotExists i "domains" f]
                      | _ => []
                      end) t.

(** [optimize_index_creation] cannot go on: a call that is not caught
    raised (opening a connection, the memory limit, the row count,
    closing, or, inside a single index build, anything but CREATE INDEX
    and DROP TABLE), or the row count is no int. *)
Definition optimize_failed (t : list MoreEvent) : bool :=
  existsb (fun ev => match ev with
                     | Old (Called (ConnExecute _
                              (CreateIndexIfNotExists _ _ _)) (Raise _))
                     | Old (Called (ConnExecute _ (DropTable _)) (Raise _))
                       => false
                     | Old (Called _ (Raise _)) => true
                     | MoreCalled (ConnExecuteMore _ CountDomains) (Raise _)
                       => true
                     | MoreCalled (ConnExecuteMore _ CountDomains)
                         (Ret (VInt _)) => false
                     | MoreCalled (ConnExecuteMore _ CountDomains) (Ret _)
                       => true
                     | _ => false
                     end) t.

(** An environment without state for the further calls: [cpus]
    processors, [rows] rows in the target table. *)
Definition scripted_full (answer : Call -> Result Value)
  (more : MoreCall -> Result Value) : FullEnv :=
  mkFullEnv (scripted answer) (fun c w => (w, more c)).

Definition more_ok (cpus rows : Z) (c : MoreCall) : Result Value :=
  match c with
  | CpuCount => Ret (VInt cpus)
  | ConnExecuteMore _ CountDomains => Ret (VInt rows)
  | ConnExecuteMore _ _ => Ret VNone
  end.

(** As [more_ok], but the pragmas and ANALYZE are not available. *)
Definition more_old_engine (cpus rows : Z) (c : MoreCall) : Result Value :=
  match c with
  | CpuCount => Ret (VInt cpus)
  | ConnExecuteMore _ CountDomains => Ret (VInt rows)
  | ConnExecuteMore _ (PragmaThreads _) => Ret VNone
  | ConnExecuteMore _ _ => Raise (EngineError "Catalog Error")
  end.

(** A new engine on eight processors, and an old one on a single
    processor. *)
Definition new_engine : FullEnv :=
  scripted_full (answer_ok [] 12288 0) (more_ok 8 42).

Definition old_engine : FullEnv :=
  scripted_full (answer_ok [] 12288 0) (more_old_engine 1 42).

(** An engine that rejects the COPY. *)
Definition rejecting_engine : FullEnv :=
  scripted_full (answer_copy_fails []) (more_ok 8 42).

(** An engine that rejects every CREATE INDEX. *)
Definition no_index_engine : FullEnv :=
  scripted_full answer_index_fails (more_ok 8 42).

(** In the examples the concurrent index build does nothing. *)
Definition no_parallel (X : FullEnv) (db_path memory_limit : string)
  (fields : list string) (sample_size : PyFloat.float) : MM X unit :=
  mret tt.

(** The direct load cannot go on: a call other than the object cache
    pragma raised, or the processor count or the row count is no int. *)
Definition direct_load_failed (t : list MoreEvent) : bool :=
  setup_failed t
  || existsb (fun ev => match ev with
                        | MoreCalled (ConnExecuteMore _ CountDomains)
                            (Ret (VInt _)) => false
                        | MoreCalled (ConnExecuteMore _ CountDomains) (Ret _)
                          => true
                        | _ => false
                        end) t.

Definition run_setup_old_engine :=
  setup_database old_engine "domains.duckdb" "8GB" tt.

Definition run_direct_ok :=
  load_direct_copy new_engine "domains.csv" "domains.duckdb" "8GB" "gzip" tt.

Definition run_direct_rejected :=
  load_direct_copy rejecting_engine "domains.csv" "domains.duckdb" "8GB"
    "none" tt.

Definition run_create_indexes_old_engine :=
  create_indexes old_engine "domains.duckdb" tt.

Definition run_create_indexes_rejected :=
  create_indexes no_index_engine "domains.duckdb" tt.

Definition run_optimize_rejected :=
  optimize_index_creation no_index_engine (no_parallel no_index_engine)
    "domains.duckdb" "8GB" ["domain"; "ip"]%string false PyFloat.one false tt.

(** ** The field list of the index command *)

(** A Python [str] as the list of its code points. *)
Definition pystr : Type := list N.

Definition comma : N := 44%N.

(** [str.isspace] on one code point: the characters [str.strip] removes. *)
Definition isspace (c : N) : bool :=
  ((9 <=? c) && (c <=? 13) || (28 <=? c) && (c <=? 32)
   || (c =? 133) || (c =? 160) || (c =? 5760)
   || (8192 <=? c) && (c <=? 8202)
   || (c =? 8232) || (c =? 8233) || (c =? 8239) || (c =? 8287)
   || (c =? 12288))%N.

Fixpoint lstrip (s : pystr) : pystr :=
  match s with
  | c :: rest => if isspace c then lstrip rest else s
  | [] => []
  end.

Definition rstrip (s : pystr) : pystr := rev (lstrip (rev s)).

(** [s.strip()]. *)
Definition strip (s : pystr) : pystr := rstrip (lstrip s).

(** [s.split(sep)] for a separator of one character. *)
Fixpoint split_on (sep : N) (s : pystr) : list pystr :=
  match s with
  | [] => [[]]
  | c :: rest =>
      if (c =? sep)%N then [] :: split_on sep rest
      else match split_on sep rest with
           | first :: others => (c :: first) :: others
           | [] => [[c]]
           end
  end.

(** Line 135 of [faster_indexing.py]:
    [[field.strip() for field in args.fields.split(',')]]. *)
Definition parse_fields (fields : pystr) : list pystr :=
  map strip (split_on comma fields).

(** [sep.join(parts)]. *)
Fixpoint join (sep : N) (parts : list pystr) : pystr :=
  match parts with
  | [] => []
  | [p] => p
  | p :: rest => p ++ sep :: join sep rest
  end.
(** * Properties of the chunk planner *)

(** ** Seeking *)

Lemma seek_nonneg (f : FileObj) (pos : Z) :
  0 <= pos -> seek f pos = Ret (mkFile (content f) pos).
Proof.
  intros H. unfold seek.
  destruct (pos <? - 2 ^ 63) eqn:E1; [apply Z.ltb_lt in E1; lia|].
  destruct (pos <? 0) eqn:E2; [apply Z.ltb_lt in E2; lia | reflexivity].
Qed.

Lemma seek_negative (f : FileObj) (pos : Z) :
  pos < 0 ->
  seek f pos = Raise (if pos <? - 2 ^ 63 then ValueError
                      else OSError "Invalid argument").
Proof.
  intros H. unfold seek. destruct (pos <? - 2 ^ 63); [reflexivity|].
  destruct (pos <? 0) eqn:E; [reflexivity | apply Z.ltb_ge in E; lia].
Qed.

(** ** Walks of byte ranges *)

(** A walk from [lo] to [hi] goes forward. *)
Lemma tiles_le (chunks : list Chunk) :
  forall lo hi, tiles lo hi chunks -> lo <= hi.
Proof.
  induction chunks as [|[s e] rest IH]; simpl; intros lo hi H.
  - lia.
  - destruct H as (-> & Hlt & Ht). apply IH in Ht. lia.
Qed.

(** Every offset of the walked interval lies in exactly one range, and
    no other offset lies in any. *)
Lemma tiles_count (x : Z) (chunks : list Chunk) :
  forall lo hi, tiles lo hi chunks ->
    count_containing x chunks
      = if (lo <=? x) && (x <? hi) then 1%nat else 0%nat.
Proof.
  unfold count_containing.
  induction chunks as [|[s e] rest IH]; simpl; intros lo hi H.
  - subst hi. destruct (lo <=? x) eqn:A, (x <? lo) eqn:B; simpl; auto.
    apply Z.leb_le in A. apply Z.ltb_lt in B. lia.
  - destruct H as (-> & Hlt & Ht).
    pose proof (tiles_le _ _ _ Ht) as Hle.
    specialize (IH _ _ Ht). unfold contains at 1. simpl.
    destruct (lo <=? x) eqn:A, (x <? e) eqn:B, (x <? hi) eqn:C,
      (e <=? x) eqn:D; simpl in *; rewrite IH; auto;
      repeat match goal with
      | H : (_ <=? _) = true |- _ => apply Z.leb_le in H
      | H : (_ <=? _) = false |- _ => apply Z.leb_gt in H
      | H : (_ <? _) = true |- _ => apply Z.ltb_lt in H
      | H : (_ <? _) = false |- _ => apply Z.ltb_ge in H
      end; lia.
Qed.

Lemma firstn_plus {A : Type} (a b : nat) :
  forall l : list A,
    firstn (a + b) l = firstn a l ++ firstn b (skipn a l).
Proof.
  induction a as [|a IH]; intros l; simpl; auto.
  destruct l as [|x l]; simpl.
  - now rewrite firstn_nil.
  - now rewrite IH.
Qed.

(** The ranges of a walk are non-empty and lie inside it. *)
Lemma tiles_bounds (chunks : list Chunk) :
  forall lo hi, tiles lo hi chunks ->
    forall c, In c chunks -> lo <= fst c /\ fst c < snd c /\ snd c <= hi.
Proof.
  induction chunks as [|[s e] rest IH]; simpl; intros lo hi H c Hin.
  - contradiction.
  - destruct H as (-> & Hlt & Ht).
    pose proof (tiles_le _ _ _ Ht) as Hle.
    destruct Hin as [<-|Hin]; simpl; [lia|].
    specialize (IH _ _ Ht c Hin). lia.
Qed.

(** In a walk, a range that is not the last one ends before [hi]. *)
Lemma tiles_not_last (chunks : list Chunk) :
  forall lo hi i c, tiles lo hi chunks ->
    nth_error chunks i = Some c -> (S i < length chunks)%nat ->
    In c chunks /\ snd c < hi.
Proof.
  induction chunks as [|[s e] rest IH]; simpl; intros lo hi i c H Hn Hi.
  - lia.
  - destruct H as (-> & Hlt & Ht). destruct i as [|i]; simpl in Hn.
    + injection Hn as <-. split; auto. simpl.
      destruct rest as [|[s' e'] rest']; simpl in *; [lia|].
      destruct Ht as (-> & Hlt' & Ht'). apply tiles_le in Ht'. lia.
    + destruct (IH _ _ _ _ Ht Hn) as [Hin Hlt']; [lia|]. auto.
Qed.

Section PlannerFacts.

Variable file : list byte.

Let file_size := Z.of_nat (length file).

(** The line scan stops inside the file, past at least one byte when
    it started before the end, and right after a newline when it
    stopped before the end. *)
Lemma scan_to_newline_spec (fuel : nat) :
  forall (f : FileObj) (end_pos : Z),
    content f = file -> cursor f = end_pos -> 0 <= end_pos ->
    file_size - end_pos <= Z.of_nat fuel ->
    exists f' end_pos',
      scan_to_newline fuel f file_size end_pos = Some (f', end_pos')
      /\ content f' = file
      /\ end_pos <= end_pos' <= Z.max end_pos file_size
      /\ (end_pos < file_size -> end_pos < end_pos')
      /\ (end_pos < file_size -> end_pos' < file_size ->
          nth_error file (Z.to_nat (end_pos' - 1)) = Some newline).
Proof.
  induction fuel as [|fuel IH]; intros [data pos] end_pos Hc Hp H0 Hfuel;
    simpl in Hc, Hp; subst data pos; simpl.
  - destruct (end_pos <? file_size) eqn:E.
    + apply Z.ltb_lt in E. lia.
    + exists (mkFile file end_pos), end_pos. apply Z.ltb_ge in E.
      split; [reflexivity|]. split; [reflexivity|]. lia.
  - destruct (end_pos <? file_size) eqn:E.
    2:{ exists (mkFile file end_pos), end_pos. apply Z.ltb_ge in E.
        split; [reflexivity|]. split; [reflexivity|]. lia. }
    apply Z.ltb_lt in E.
    unfold read1. simpl.
    destruct (nth_error file (Z.to_nat end_pos)) as [b|] eqn:Hn.
    2:{ apply nth_error_None in Hn. unfold file_size in E. lia. }
    simpl is_newline.
    destruct (Byte.eqb b newline) eqn:Hb.
    + exists (mkFile file (end_pos + 1)), (end_pos + 1).
      apply Byte.byte_dec_bl in Hb. subst b.
      split; [reflexivity|]. split; [reflexivity|]. split; [lia|].
      split; [lia|]. intros _ _.
      replace (end_pos + 1 - 1) with end_pos by lia. exact Hn.
    + destruct (IH (mkFile file (end_pos + 1)) (end_pos + 1))
        as (f' & e' & Hs & Hc' & Hle & Hin & Hnl); simpl; auto; try lia.
      exists f', e'. rewrite Hs.
      split; [reflexivity|]. split; [assumption|]. split; [lia|].
      split; [lia|]. intros _ He'. apply Hnl; lia.
Qed.

(** With a non-negative chunk width the outer loop returns, having
    appended ranges that walk from the cursor to the end of the file. *)
Lemma plan_loop_enough_fuel (chunk_bytes : Z) (fuel : nat) :
  0 <= chunk_bytes ->
  forall (f : FileObj) (start_pos : Z) (acc : list Chunk),
    content f = file -> 0 <= start_pos <= file_size ->
    file_size - start_pos < Z.of_nat fuel ->
    exists new,
      plan_loop fuel f file_size chunk_bytes start_pos acc
        = Some (Ret (acc ++ new))
      /\ tiles start_pos file_size new
      /\ newline_aligned file new.
Proof.
  intros Hcb.
  induction fuel as [|fuel IH]; intros f start_pos acc Hc Hs Hfuel.
  - lia.
  - simpl. destruct (start_pos <? file_size) eqn:E.
    2:{ apply Z.ltb_ge in E. exists []. rewrite app_nil_r.
        repeat split; simpl; try lia. intros c []. }
    apply Z.ltb_lt in E.
    destruct (Z.min (start_pos + chunk_bytes) file_size <? file_size) eqn:E2.
    + apply Z.ltb_lt in E2.
      set (end_pos := Z.min (start_pos + chunk_bytes) file_size) in *.
      rewrite seek_nonneg by lia.
      destruct (scan_to_newline_spec fuel (mkFile (content f) end_pos) end_pos)
        as (f2 & e' & Hscan & Hc2 & Hle & Hin & Hnl); simpl; auto; try lia.
      rewrite Hscan. specialize (Hin E2).
      destruct (IH f2 e' (acc ++ [(start_pos, e')])) as (new & Hp & Ht & Ha);
        auto; try lia.
      exists ((start_pos, e') :: new).
      rewrite Hp, <- app_assoc. simpl.
      split; [reflexivity|]. split; [repeat split; auto; lia|].
      intros c [<-|Hin']; simpl; auto.
    + apply Z.ltb_ge in E2.
      assert (Hend : Z.min (start_pos + chunk_bytes) file_size = file_size)
        by lia.
      rewrite Hend.
      destruct (IH f file_size (acc ++ [(start_pos, file_size)]))
        as (new & Hp & Ht & Ha); auto; try lia.
      exists ((start_pos, file_size) :: new).
      rewrite Hp, <- app_assoc. simpl.
      split; [reflexivity|]. split; [repeat split; auto; lia|].
      intros c [<-|Hin']; simpl; auto; lia.
Qed.

(** Gluing the byte ranges of a walk gives back the walked bytes. *)
Lemma tiles_concat (chunks : list Chunk) :
  forall lo hi, tiles lo hi chunks -> 0 <= lo ->
    concat (map (byte_range file) chunks)
      = firstn (Z.to_nat (hi - lo)) (skipn (Z.to_nat lo) file).
Proof.
  induction chunks as [|[s e] rest IH]; simpl; intros lo hi H Hlo.
  - subst hi. rewrite Z.sub_diag. reflexivity.
  - destruct H as (-> & Hlt & Ht).
    pose proof (tiles_le _ _ _ Ht) as Hle.
    rewrite (IH _ _ Ht) by lia. unfold byte_range. simpl.
    replace (Z.to_nat (hi - lo))
      with (Z.to_nat (e - lo) + Z.to_nat (hi - e))%nat by lia.
    rewrite firstn_plus. f_equal.
    rewrite skipn_skipn. do 2 f_equal. lia.
Qed.

End PlannerFacts.

(** ** The chunk width is never negative for positive arguments *)

Section ChunkWidth.

Import PyFloat.

Lemma binary_round_aux_sign (s : bool) (m e : Z) (l : location) :
  sign (binary_round_aux prec emax s m e l) = Some s
  \/ sign (binary_round_aux prec emax s m e l) = None.
Proof.
  unfold binary_round_aux.
  destruct (shr_fexp prec emax m e l) as [mrs' e'].
  destruct (shr_fexp prec emax _ e' loc_Exact) as [mrs'' e''].
  destruct (shr_m mrs''); simpl; auto.
  destruct (e'' <=? _); simpl; auto.
Qed.

Lemma binary_round_aux_not_negative (m e : Z) (l : location) :
  not_negative (binary_round_aux prec emax false m e l).
Proof.
  unfold not_negative.
  destruct (binary_round_aux_sign false m e l) as [-> | ->]; auto.
Qed.

Lemma true_div_not_negative (a b : Z) (q : float) :
  0 <= a -> 0 < b -> true_div a b = Ret q -> not_negative q.
Proof.
  intros Ha Hb. unfold true_div.
  destruct (b =? 0) eqn:E; [discriminate|].
  destruct b as [|pb|pb]; try lia.
  destruct a as [|pa|pa]; try lia; simpl exact.
  - simpl. intros [= <-]. reflexivity.
  - unfold SFdiv.
    destruct (SFdiv_core_binary prec emax (Z.pos pa) 0 (Z.pos pb) 0)
      as [[mz ez] lz].
    simpl xorb.
    pose proof (binary_round_aux_not_negative mz ez lz) as Hn.
    destruct (binary_round_aux prec emax false mz ez lz);
      intros [= <-]; exact Hn.
Qed.

Lemma of_int_not_negative (n : Z) (y : float) :
  0 < n -> of_int n = Ret y -> not_negative y.
Proof.
  intros Hn. unfold of_int, binary_normalize.
  destruct n as [|p|p]; try lia.
  unfold binary_round.
  destruct (shl_align _ _ _) as [mz ez].
  pose proof (binary_round_aux_not_negative (Z.pos mz) ez loc_Exact) as H.
  destruct (binary_round_aux prec emax false (Z.pos mz) ez loc_Exact);
    intros [= <-]; exact H.
Qed.

Lemma SFmul_not_negative (x y : float) :
  not_negative x -> not_negative y ->
  not_negative (SFmul prec emax x y).
Proof.
  unfold not_negative.
  destruct x as [sx|sx| |sx mx ex], y as [sy|sy| |sy my ey]; simpl;
    intros Hx Hy; subst; simpl; auto.
  apply binary_round_aux_not_negative.
Qed.

Lemma to_int_not_negative (x : float) (n : Z) :
  not_negative x -> to_int x = Ret n -> 0 <= n.
Proof.
  unfold not_negative.
  destruct x as [s|s| |s m e]; simpl; intros Hs; try discriminate.
  - intros [= <-]. lia.
  - subst s. intros [= <-].
    destruct (0 <=? e) eqn:E.
    + apply Z.shiftl_nonneg. lia.
    + apply Z.shiftr_nonneg. lia.
Qed.

Lemma chunk_bytes_of_nonneg (file_size total_rows chunk_size cb : Z) :
  0 <= file_size -> 0 < total_rows -> 0 < chunk_size ->
  chunk_bytes_of file_size total_rows chunk_size = Ret cb ->
  0 <= cb.
Proof.
  intros Hf Ht Hc. unfold chunk_bytes_of.
  destruct (true_div file_size total_rows) as [q|] eqn:Hq; [|discriminate].
  unfold mul_int.
  destruct (of_int chunk_size) as [y|] eqn:Hy; [|discriminate].
  intros H. apply (to_int_not_negative _ _ (SFmul_not_negative q y
    (true_div_not_negative _ _ _ Hf Ht Hq)
    (of_int_not_negative _ _ Hc Hy)) H).
Qed.

Lemma chunk_bytes_of_zero_rows (file_size chunk_size : Z) :
  chunk_bytes_of file_size 0 chunk_size = Raise ZeroDivisionError.
Proof. reflexivity. Qed.

End ChunkWidth.

(** ** The planner as a whole *)

Lemma get_file_chunks_fuel_spec (file : list byte) (total_rows chunk_size : Z)
  (cb : Z) (fuel : nat) :
  0 < total_rows -> 0 < chunk_size ->
  chunk_bytes_of (Z.of_nat (length file)) total_rows chunk_size = Ret cb ->
  (length file < fuel)%nat ->
  exists chunks,
    get_file_chunks_fuel fuel file total_rows chunk_size = Some (Ret chunks)
    /\ tiles 0 (Z.of_nat (length file)) chunks
    /\ newline_aligned file chunks.
Proof.
  intros Ht Hc Hcb Hfuel. unfold get_file_chunks_fuel. rewrite Hcb.
  assert (0 <= cb) as Hnn
    by (eapply chunk_bytes_of_nonneg; [| | |exact Hcb]; lia).
  destruct (plan_loop_enough_fuel file cb fuel Hnn (open_rb file) 0 [])
    as (new & Hp & Htl & Hal); simpl; auto; try lia.
  exists new. simpl in Hp. auto.
Qed.

Lemma get_file_chunks_spec (file : list byte) (total_rows chunk_size : Z)
  (chunks : list Chunk) :
  0 < total_rows -> 0 < chunk_size ->
  get_file_chunks file total_rows chunk_size = Some (Ret chunks) ->
  tiles 0 (Z.of_nat (length file)) chunks /\ newline_aligned file chunks.
Proof.
  intros Ht Hc H.
  destruct (chunk_bytes_of (Z.of_nat (length file)) total_rows chunk_size)
    as [cb|e] eqn:Hcb.
  - destruct (get_file_chunks_fuel_spec file total_rows chunk_size cb
                (S (length file)) Ht Hc Hcb) as (chunks' & Hg & Htl & Hal);
      [lia|].
    unfold get_file_chunks in H. rewrite Hg in H. injection H as <-. auto.
  - unfold get_file_chunks, get_file_chunks_fuel in H. rewrite Hcb in H.
    discriminate.
Qed.

(** C1. For positive expected row count and rows-per-chunk, the chunk
    list returned by [get_file_chunks] partitions [[0, file_size)]: the
    ranges are non-empty and follow one another from offset 0 to the file
    size, every offset of the file lies in exactly one range (and no
    other offset in any), and the concatenation of the byte ranges in
    list order is the file. *)
Theorem C1_chunks_partition_file (file : list byte)
  (total_rows chunk_size : Z) (chunks : list Chunk) :
  0 < total_rows -> 0 < chunk_size ->
  get_file_chunks file total_rows chunk_size = Some (Ret chunks) ->
  tiles 0 (Z.of_nat (length file)) chunks
  /\ (forall x, count_containing x chunks
        = if (0 <=? x) && (x <? Z.of_nat (length file)) then 1%nat else 0%nat)
  /\ concat (map (byte_range file) chunks) = file.
Proof.
  intros Ht Hc H.
  destruct (get_file_chunks_spec file total_rows chunk_size chunks Ht Hc H)
    as [Htl _].
  split; [exact Htl|]. split.
  - intros x. apply (tiles_count x chunks _ _ Htl).
  - rewrite (tiles_concat file chunks _ _ Htl) by lia.
    simpl. rewrite Z.sub_0_r, Nat2Z.id. apply firstn_all.
Qed.

(** C2. Every chunk returned by [get_file_chunks] except the last ends
    right after a newline byte of the file. *)
Theorem C2_inner_chunks_end_after_newline (file : list byte)
  (total_rows chunk_size : Z) (chunks : list Chunk) (i : nat) (c : Chunk) :
  0 < total_rows -> 0 < chunk_size ->
  get_file_chunks file total_rows chunk_size = Some (Ret chunks) ->
  nth_error chunks i = Some c -> (S i < length chunks)%nat ->
  0 < snd c /\ nth_error file (Z.to_nat (snd c - 1)) = Some newline.
Proof.
  intros Ht Hc H Hn Hi.
  destruct (get_file_chunks_spec file total_rows chunk_size chunks Ht Hc H)
    as [Htl Hal].
  destruct (tiles_not_last chunks _ _ _ _ Htl Hn Hi) as [Hin Hlt].
  split; [|apply Hal; assumption].
  pose proof (tiles_bounds chunks _ _ Htl c Hin). lia.
Qed.

(** The result of the planner does not depend on the iteration budget
    once the budget suffices. *)
Lemma scan_to_newline_mono (fuel : nat) :
  forall f file_size end_pos r,
    scan_to_newline fuel f file_size end_pos = Some r ->
    forall fuel', (fuel <= fuel')%nat ->
      scan_to_newline fuel' f file_size end_pos = Some r.
Proof.
  induction fuel as [|fuel IH]; intros f fs e r H fuel' Hle.
  - simpl in H. destruct fuel'; simpl; destruct (e <? fs); congruence.
  - destruct fuel' as [|fuel']; [lia|]. simpl in *.
    destruct (e <? fs); [|assumption].
    destruct (read1 f) as [char f'].
    destruct (is_newline char); [assumption|].
    apply (IH _ _ _ _ H). lia.
Qed.

Lemma plan_loop_mono (fuel : nat) :
  forall f file_size chunk_bytes start_pos acc r,
    plan_loop fuel f file_size chunk_bytes start_pos acc = Some r ->
    forall fuel', (fuel <= fuel')%nat ->
      plan_loop fuel' f file_size chunk_bytes start_pos acc = Some r.
Proof.
  induction fuel as [|fuel IH]; intros f fs cb s acc r H fuel' Hle.
  - simpl in H. destruct fuel'; simpl; destruct (s <? fs); congruence.
  - destruct fuel' as [|fuel']; [lia|]. simpl in *.
    destruct (s <? fs); [|assumption].
    destruct (Z.min (s + cb) fs <? fs).
    + destruct (seek f (Z.min (s + cb) fs)) as [f1|e]; [|assumption].
      destruct (scan_to_newline fuel f1 fs (Z.min (s + cb) fs))
        as [[f2 e']|] eqn:Hs; [|discriminate].
      rewrite (scan_to_newline_mono _ _ _ _ _ Hs fuel') by lia.
      apply (IH _ _ _ _ _ _ H). lia.
    + apply (IH _ _ _ _ _ _ H). lia.
Qed.

(** The model of the planner never exhausts its budget, whatever the
    arguments. *)
Lemma get_file_chunks_total (file : list byte) (total_rows chunk_size : Z) :
  get_file_chunks file total_rows chunk_size <> None.
Proof.
  unfold get_file_chunks, get_file_chunks_fuel. cbv zeta.
  destruct (chunk_bytes_of _ _ _) as [cb|e]; [|discriminate].
  destruct (Z_le_gt_dec 0 cb) as [Hcb|Hcb].
  - destruct (plan_loop_enough_fuel file cb (S (length file)) Hcb
                (open_rb file) 0 []) as (new & Hp & _);
      [reflexivity | lia | lia |].
    rewrite Hp. discriminate.
  - simpl. destruct (0 <? Z.of_nat (length file)) eqn:E; [|discriminate].
    apply Z.ltb_lt in E.
    replace (Z.min cb (Z.of_nat (length file))) with cb by lia.
    destruct (cb <? Z.of_nat (length file)) eqn:E2.
    + rewrite seek_negative by lia. discriminate.
    + apply Z.ltb_ge in E2. lia.
Qed.

(** C4 (as amended). With an expected row count of zero the planner
    fails, for every file and rows-per-chunk, with the division error of
    the width computation, before the file is read and before any chunk
    is produced. *)
Theorem C4_zero_rows_division_error (file : list byte) (chunk_size : Z) :
  get_file_chunks file 0 chunk_size = Some (Raise ZeroDivisionError).
Proof. reflexivity. Qed.

(** C4 fails as stated: a negative expected row count is not rejected.
    On the empty file the planner returns the empty chunk list. *)
Lemma C4_negative_rows_accepted :
  -1 <= 0 /\ get_file_chunks [] (-1) 250000 = Some (Ret []).
Proof. split; [lia | reflexivity]. Qed.

(** C10 (as amended). For every file and positive expected row count and
    rows-per-chunk for which the chunk width is computed (the float
    arithmetic does not overflow), the planner returns a chunk list, the
    same for every iteration budget above the file size; the width may
    be zero. *)
Theorem C10_planner_terminates (file : list byte)
  (total_rows chunk_size cb : Z) (fuel : nat) :
  0 < total_rows -> 0 < chunk_size ->
  chunk_bytes_of (Z.of_nat (length file)) total_rows chunk_size = Ret cb ->
  (length file < fuel)%nat ->
  exists chunks,
    get_file_chunks_fuel fuel file total_rows chunk_size = Some (Ret chunks)
    /\ get_file_chunks file total_rows chunk_size = Some (Ret chunks).
Proof.
  intros Ht Hc Hcb Hfuel.
  destruct (get_file_chunks_fuel_spec file total_rows chunk_size cb
              (S (length file)) Ht Hc Hcb) as (chunks & Hg & _); [lia|].
  exists chunks. split; [|exact Hg].
  unfold get_file_chunks_fuel in *. rewrite Hcb in *.
  apply (plan_loop_mono _ _ _ _ _ _ _ Hg). lia.
Qed.

(** C10 fails as stated: a rows-per-chunk too large for a float makes
    the width computation raise, and no chunk list is returned. *)
Lemma C10_overflow_no_chunks :
  0 < 1 /\ 0 < 10 ^ 400
  /\ get_file_chunks one_line 1 (10 ^ 400) = Some (Raise OverflowError).
Proof. split; [lia|]. split; [lia|]. vm_compute. reflexivity. Qed.

(** Scenario A of the specification: ten rows, no trailing newline,
    three rows per chunk. *)
Example scenario_a :
  get_file_chunks ten_rows 10 3
    = Some (Ret [(0, 9); (9, 18); (18, 27); (27, 29)])
  /\ map (fun c => count_rows (byte_range ten_rows c))
       [(0, 9); (9, 18); (18, 27); (27, 29)] = [3; 3; 3; 1].
Proof. split; reflexivity. Qed.

(** Scenario B of the specification: the empty file has no chunk. *)
Example scenario_b : get_file_chunks [] 10 3 = Some (Ret []).
Proof. reflexivity. Qed.

Lemma C1_witness :
  tiles 0 6 [(0, 2); (2, 5); (5, 6)]
  /\ (forall x, count_containing x [(0, 2); (2, 5); (5, 6)]
        = if (0 <=? x) && (x <? 6) then 1%nat else 0%nat)
  /\ concat (map (byte_range three_lines) [(0, 2); (2, 5); (5, 6)])
     = three_lines.
Proof.
  apply (C1_chunks_partition_file three_lines 6 1); [lia | lia | reflexivity].
Defined.

Lemma C2_witness :
  0 < 5 /\ nth_error three_lines (Z.to_nat (5 - 1)) = Some newline.
Proof.
  apply (C2_inner_chunks_end_after_newline three_lines 6 1
           [(0, 2); (2, 5); (5, 6)] 1 (2, 5));
    [lia | lia | reflexivity | reflexivity | simpl; lia].
Defined.

Lemma C10_witness :
  exists chunks,
    get_file_chunks_fuel 9 three_lines 400 2 = Some (Ret chunks)
    /\ get_file_chunks three_lines 400 2 = Some (Ret chunks).
Proof.
  apply (C10_planner_terminates three_lines 400 2 0 9);
    [lia | lia | reflexivity | simpl; lia].
Defined.

(** * Properties of the effectful code *)

(** ** Running computations *)

Section MonadFacts.

Variable E : Env.

Lemma bind_inv {A B : Type} (m : M E A) (k : A -> M E B)
  (w w' : World E) (t : Trace) (r : Result B) :
  bind m k w = (w', t, r) ->
  (exists e, m w = (w', t, Raise e) /\ r = Raise e)
  \/ (exists w1 t1 a t2,
        m w = (w1, t1, Ret a) /\ k a w1 = (w', t2, r) /\ t = t1 ++ t2).
Proof.
  unfold bind. destruct (m w) as [[w1 t1] [a|e]].
  - destruct (k a w1) as [[w2 t2] r2] eqn:Hk. intros [= <- <- <-].
    right. exists w1, t1, a, t2. auto.
  - intros [= <- <- <-]. left. exists e. auto.
Qed.

Lemma bind_ret_inv {A B : Type} (m : M E A) (k : A -> M E B)
  (w w' : World E) (t : Trace) (b : B) :
  bind m k w = (w', t, Ret b) ->
  exists w1 t1 a t2,
    m w = (w1, t1, Ret a) /\ k a w1 = (w', t2, Ret b) /\ t = t1 ++ t2.
Proof.
  intros H. apply bind_inv in H.
  destruct H as [(e & _ & He) | H]; [discriminate | exact H].
Qed.

End MonadFacts.

(** ** Reading traces piecewise *)

Lemma failure_reported_app (t1 t2 : Trace) :
  failure_reported (t1 ++ t2) = failure_reported t1 || failure_reported t2.
Proof. apply existsb_app. Qed.

Lemma store_skipped_app (t1 t2 : Trace) :
  store_skipped (t1 ++ t2) = store_skipped t1 || store_skipped t2.
Proof. apply existsb_app. Qed.

(** ** The row count of the loader *)

Lemma count_newlines_count_occ (data : list byte) :
  count_newlines data = Z.of_nat (count_occ Byte.byte_eq_dec data newline).
Proof.
  unfold count_newlines. f_equal.
  induction data as [|b data IH]; simpl; auto.
  destruct (Byte.byte_eq_dec b newline) as [->|Hne].
  - simpl. now rewrite IH.
  - destruct (Byte.eqb b newline) eqn:Hb.
    + apply Byte.byte_dec_bl in Hb. contradiction.
    + exact IH.
Qed.

Lemma last_slice_final_byte (data : list byte) :
  last_slice data = match final_byte data with
                    | Some b => [b]
                    | None => []
                    end.
Proof.
  unfold last_slice, final_byte.
  destruct data as [|b d]; [reflexivity|].
  destruct (@exists_last _ (b :: d)) as (l & x & Heq); [discriminate|].
  rewrite Heq, length_app. simpl length.
  replace (length l + 1 - 1)%nat with (length l) by lia.
  rewrite skipn_app, skipn_all, Nat.sub_diag, nth_error_app2 by lia.
  rewrite Nat.sub_diag. reflexivity.
Qed.

(** The count of lines 132-135 is the convention of the specification. *)
Lemma count_rows_convention (data : list byte) :
  count_rows data = rows_by_convention data.
Proof.
  unfold count_rows, rows_by_convention.
  rewrite count_newlines_count_occ, last_slice_final_byte.
  destruct (final_byte data) as [b|]; simpl.
  - destruct (Byte.eqb b newline); simpl; lia.
  - reflexivity.
Qed.

Lemma count_rows_positive (data : list byte) : 0 < count_rows data.
Proof.
  rewrite count_rows_convention. unfold rows_by_convention, final_byte.
  destruct (nth_error data (length data - 1)) as [b|] eqn:Hn; [|lia].
  destruct (Byte.eqb b newline) eqn:Hb; [|lia].
  apply Byte.byte_dec_bl in Hb. subst b.
  apply nth_error_In in Hn.
  apply (count_occ_In Byte.byte_eq_dec) in Hn. lia.
Qed.

(** ** Symbolic execution *)

(** Split on the answer of the next call, on the shape of an answered
    value, or on a test. *)
Ltac run_step :=
  match goal with
  | |- context [respond ?E ?c ?w] =>
      let w' := fresh "w" in
      let v := fresh "v" in
      let e := fresh "e" in
      destruct (respond E c w) as [w' [v|e]]; cbn
  | |- context [match ?v with VNone => _ | _ => _ end] =>
      is_var v; destruct v; cbn
  | |- context [if ?b then _ else _] =>
      is_var b; destruct b; cbn
  | |- context [negb ?b] =>
      is_var b; destruct b; cbn
  | |- context [if (?n <? 1000) then _ else _] =>
      destruct (n <? 1000) eqn:?; cbn
  end.

Ltac run_all := cbn; repeat run_step.

(** Close the goals left by [run_all], which speak about explicit
    traces. *)
Ltac in_trace :=
  cbn; repeat match goal with
              | |- _ \/ _ => first [left; reflexivity | right]
              end;
  try reflexivity.

Ltac trace_facts :=
  cbn;
  repeat match goal with
         | H : false = true |- _ => discriminate H
         | H : true = false |- _ => discriminate H
         | H : Ret _ = Raise _ |- _ => discriminate H
         | H : Raise _ = Ret _ |- _ => discriminate H
         | H : False |- _ => destruct H
         | H : _ \/ _ |- _ => destruct H
         | H : _ = _ |- _ => discriminate H
         | H : _ = ?c |- _ => is_var c; subst c
         | H : (_ <? _) = _ |- _ => rewrite H in *; clear H; cbn
         | |- _ /\ _ => split
         | |- forall _, _ => intro
         | |- ~ _ => intro
         | |- exists t0 res, ?l = t0 ++ [Called _ res] =>
             exists (removelast l); eexists; reflexivity
         | |- In _ _ => solve [in_trace]
         | |- _ \/ _ => solve [in_trace]
         | |- exists _, _ => eexists
         | |- _ = _ => reflexivity
         end.

(** ** Chunk loader *)

Section LoaderFacts.

Variable E : Env.

(** Everything the later proofs need to know about one run of the
    loader. *)
Lemma process_chunk_run (chunk_id start_pos end_pos : Z)
  (file_path temp_dir memory_limit compression : string)
  (w w' : World E) (t : Trace) (r : Result (Z * string)) :
  process_chunk E (chunk_id, (start_pos, end_pos)) file_path temp_dir
    memory_limit compression w = (w', t, r) ->
  count_answers t = []
  /\ store_skipped t = false
  /\ (loader_frame_raised t = false ->
      exists rows,
        r = Ret (rows, chunk_db_path temp_dir chunk_id)
        /\ (loader_step_raised t = true ->
            rows = 0
            /\ exists e, In (Printed (MsgChunkError chunk_id e)) t)
        /\ (exists t0 res,
              t = t0 ++ [Called (OsRemove (chunk_csv_path temp_dir chunk_id))
                           res])
        /\ (failure_reported t = false ->
            exists data, read_answers t = [data] /\ rows = count_rows data))
  /\ (forall x, r = Ret x -> loader_frame_raised t = false).
Proof.
  unfold process_chunk, extract_and_load, close_and_clean.
  set (db := chunk_db_path temp_dir chunk_id). clearbody db.
  set (csv := chunk_csv_path temp_dir chunk_id). clearbody csv.
  unfold bind, call, try_finally, try_except, print, ret, as_bytes, raise.
  run_all; intros [= <- <- <-]; trace_facts.
Qed.

(** A run of the loader that returns without a failure report copied
    the rows it returns into its store, and asked the engine for no
    count. *)
Lemma process_chunk_loaded (chunk_id start_pos end_pos : Z)
  (file_path temp_dir memory_limit compression : string)
  (w w' : World E) (t : Trace) (rows : Z) (store : string) :
  process_chunk E (chunk_id, (start_pos, end_pos)) file_path temp_dir
    memory_limit compression w = (w', t, Ret (rows, store)) ->
  failure_reported t = false ->
  (forall attached rest,
     merged_counts attached (t ++ rest) = merged_counts attached rest)
  /\ exists data,
       rows = count_rows data
       /\ forall d rest,
            loaded_rows d (t ++ rest)
            = (store, rows_by_convention data) :: loaded_rows data rest.
Proof.
  unfold process_chunk, extract_and_load, close_and_clean.
  set (db := chunk_db_path temp_dir chunk_id). clearbody db.
  set (csv := chunk_csv_path temp_dir chunk_id). clearbody csv.
  unfold bind, call, try_finally, try_except, print, ret, as_bytes, raise.
  run_all; intros [= <- <- <- <-] Hok; cbn in Hok; try discriminate Hok;
    (split; [intros; reflexivity|]);
    eexists; (split; [reflexivity|]); intros; reflexivity.
Qed.

End LoaderFacts.

(** C5 (as amended). When the loader returns without having reported a
    failure (the range was read, the scratch file written and the COPY
    executed), its row count is the number of newline bytes of the bytes
    it read, plus one if their final byte is not a newline. *)
Theorem C5_rows_loaded_by_convention (E : Env)
  (chunk_id start_pos end_pos : Z)
  (file_path temp_dir memory_limit compression : string)
  (w w' : World E) (t : Trace) (rows : Z) (store : string) :
  process_chunk E (chunk_id, (start_pos, end_pos)) file_path temp_dir
    memory_limit compression w = (w', t, Ret (rows, store)) ->
  failure_reported t = false ->
  exists data, read_answers t = [data] /\ rows = rows_by_convention data.
Proof.
  intros Hrun Hok.
  destruct (process_chunk_run E _ _ _ _ _ _ _ _ _ _ _ Hrun)
    as (_ & _ & Hret & Hframe).
  destruct (Hret (Hframe _ eq_refl)) as (rows' & [= -> _] & _ & _ & Hrows).
  destruct (Hrows Hok) as (data & Hread & ->).
  exists data. split; [exact Hread | apply count_rows_convention].
Qed.

Lemma C5_witness :
  exists data,
    read_answers (snd (fst run_loader_ok)) = [data]
    /\ 3 = rows_by_convention data.
Proof.
  apply (C5_rows_loaded_by_convention
           (scripted (answer_ok three_lines 12288 3)) 0 0 6
           "domains.csv" "./temp_dbs" "8GB" "none" tt tt
           (snd (fst run_loader_ok)) 3 "./temp_dbs/chunk_0.duckdb");
    reflexivity.
Defined.

(** C5 fails as stated: the range is read, three bytes and a newline,
    but the engine rejects the COPY, and the loader returns zero rows. *)
Lemma C5_read_ok_but_zero_rows :
  read_answers (snd (fst run_copy_fails)) = [one_line]
  /\ snd run_copy_fails = Ret (0, "./temp_dbs/chunk_0.duckdb"%string)
  /\ rows_by_convention one_line = 1.
Proof. repeat split. Qed.

(** C6 (as amended). When the calls outside the [try] block (opening
    the store, its two set-up statements, closing the connection) do not
    raise, a failure of any step of extraction or bulk load is caught:
    the loader returns zero rows with the path of the intermediate store
    and has printed the error; the last action of the loader, failure or
    not, is the call that removes the scratch file, whose own failure is
    swallowed; and the caller does not add the store of a zero-row
    result to the list it merges. *)
Theorem C6_loader_failure_is_local (E : Env)
  (chunk_id start_pos end_pos : Z)
  (file_path temp_dir memory_limit compression : string)
  (w w' : World E) (t : Trace) (r : Result (Z * string)) :
  process_chunk E (chunk_id, (start_pos, end_pos)) file_path temp_dir
    memory_limit compression w = (w', t, r) ->
  loader_frame_raised t = false ->
  exists rows,
    r = Ret (rows, chunk_db_path temp_dir chunk_id)
    /\ (loader_step_raised t = true ->
        rows = 0
        /\ (exists e, In (Printed (MsgChunkError chunk_id e)) t)
        /\ forall acc,
             snd (collect acc (rows, chunk_db_path temp_dir chunk_id))
             = snd acc)
    /\ exists t0 res,
         t = t0 ++ [Called (OsRemove (chunk_csv_path temp_dir chunk_id)) res].
Proof.
  intros Hrun Hframe.
  destruct (process_chunk_run E _ _ _ _ _ _ _ _ _ _ _ Hrun)
    as (_ & _ & Hret & _).
  destruct (Hret Hframe) as (rows & -> & Hfail & Hlast & _).
  exists rows. split; [reflexivity|]. split; [|exact Hlast].
  intros Hstep. destruct (Hfail Hstep) as [-> Hprint].
  split; [reflexivity|]. split; [exact Hprint|].
  intros [rows_processed temp_dbs]. reflexivity.
Qed.

Lemma C6_witness :
  exists rows,
    snd run_copy_fails = Ret (rows, chunk_db_path "./temp_dbs" 0)
    /\ (loader_step_raised (snd (fst run_copy_fails)) = true ->
        rows = 0
        /\ (exists e, In (Printed (MsgChunkError 0 e))
                        (snd (fst run_copy_fails)))
        /\ forall acc,
             snd (collect acc (rows, chunk_db_path "./temp_dbs" 0))
             = snd acc)
    /\ exists t0 res,
         snd (fst run_copy_fails)
         = t0 ++ [Called (OsRemove (chunk_csv_path "./temp_dbs" 0)) res].
Proof.
  apply (C6_loader_failure_is_local
           (scripted (answer_copy_fails one_line)) 0 0 4
           "domains.csv" "./temp_dbs" "8GB" "none" tt tt);
    reflexivity.
Defined.

(** C6 fails as stated: the engine rejects the COPY, which is caught and
    printed, but closing the connection fails as well.  The loader then
    raises instead of returning zero rows, and the scratch file is never
    removed. *)
Lemma C6_close_failure_escapes :
  loader_step_raised (snd (fst run_copy_and_close_fail)) = true
  /\ In (Printed (MsgChunkError 0 (EngineError "Invalid Input Error")))
       (snd (fst run_copy_and_close_fail))
  /\ snd run_copy_and_close_fail = Raise (EngineError "Connection Error")
  /\ calls (snd (fst run_copy_and_close_fail))
     = [ DuckdbConnect "./temp_dbs/chunk_0.duckdb";
         ConnExecute "./temp_dbs/chunk_0.duckdb" (PragmaMemoryLimit "8GB");
         ConnExecute "./temp_dbs/chunk_0.duckdb" CreateTableDomains;
         OpenFile "domains.csv" "rb";
         FileSeek "domains.csv" 0;
         FileRead "domains.csv" 4;
         OpenFile "./temp_dbs/chunk_0.csv" "wb";
         FileWrite "./temp_dbs/chunk_0.csv" one_line;
         ConnExecute "./temp_dbs/chunk_0.duckdb"
           (CopyDomainsFrom "./temp_dbs/chunk_0.csv" None);
         ConnClose "./temp_dbs/chunk_0.duckdb" ].
Proof.
  split; [reflexivity|]. split; [vm_compute; tauto|].
  split; reflexivity.
Qed.

(** ** Store merger *)

Section MergerFacts.

Variable E : Env.

(** Everything the later proofs need to know about one iteration of
    the merge loop. *)
Lemma merge_one_run (db_path temp_db : string) (count i total_rows : Z)
  (w w' : World E) (t : Trace) (r : Result Z) :
  merge_one E db_path count i temp_db total_rows w = (w', t, r) ->
  read_answers t = []
  /\ (exists total_rows', r = Ret total_rows')
  /\ (store_skipped t = true ->
      r = Ret total_rows
      /\ failure_reported t = false
      /\ statements t = []
      /\ forall c, In c (calls t) ->
           c = OsPathExists temp_db \/ c = OsPathGetsize temp_db)
  /\ (merge_step_raised t = true ->
      r = Ret total_rows
      /\ (exists e, In (Printed (MsgMergeError temp_db e)) t)
      /\ ~ In (OsRemove temp_db) (calls t))
  /\ (In (OsRemove temp_db) (calls t) ->
      insert_succeeded (before_remove t) = true
      /\ exists n, count_answers t = [n] /\ r = Ret (total_rows + n))
  /\ (failure_reported t = false -> store_skipped t = false ->
      r = Ret (total_rows + sum_Z (count_answers t))).
Proof.
  unfold merge_one, detach_and_remove.
  unfold bind, call, try_except, print, ret, as_bool, as_int, raise.
  run_all; intros [= <- <- <-]; trace_facts.
  all: try (f_equal; lia).
Qed.

(** An iteration that neither reports a failure nor skips its store
    attached the store and added the count the engine reported. *)
Lemma merge_one_counts (db_path temp_db : string) (count i total_rows : Z)
  (w w' : World E) (t : Trace) (total_rows' : Z) :
  merge_one E db_path count i temp_db total_rows w
    = (w', t, Ret total_rows') ->
  failure_reported t = false -> store_skipped t = false ->
  (forall d rest, loaded_rows d (t ++ rest) = loaded_rows d rest)
  /\ exists n,
       total_rows' = total_rows + n
       /\ forall attached rest,
            merged_counts attached (t ++ rest)
            = (temp_db, n) :: merged_counts temp_db rest.
Proof.
  unfold merge_one, detach_and_remove.
  unfold bind, call, try_except, print, ret, as_bool, as_int, raise.
  run_all; intros [= <- <- <-] Hok Hns; cbn in Hok, Hns;
    try discriminate Hok; try discriminate Hns;
    try (rewrite Heqb in Hns; discriminate Hns);
    (split; [intros; reflexivity|]);
    eexists; (split; [reflexivity|]); intros; reflexivity.
Qed.

Lemma merge_loop_cons (db_path temp_db : string) (rest : list string)
  (count i total_rows total_rows' : Z) (w w1 : World E) (t1 : Trace) :
  merge_one E db_path count i temp_db total_rows w
    = (w1, t1, Ret total_rows') ->
  merge_loop E db_path count i (temp_db :: rest) total_rows w
    = let '(w2, t2, r2) :=
        merge_loop E db_path count (i + 1) rest total_rows' w1 in
      (w2, t1 ++ t2, r2).
Proof.
  intros H. simpl. unfold bind at 1. rewrite H. reflexivity.
Qed.

End MergerFacts.

(** C7. A store whose file is missing, or smaller than 1000 bytes, is
    skipped: the iteration ends without an exception and without a
    failure report, sends no statement to the engine (no ATTACH, no
    INSERT), calls nothing but [os.path.exists] and [os.path.getsize],
    leaves [total_rows] as it was, and the loop goes on with the next
    store. *)
Theorem C7_unviable_store_is_skipped (E : Env) (db_path temp_db : string)
  (count i total_rows : Z) (w w1 : World E) (t1 : Trace) (r1 : Result Z) :
  merge_one E db_path count i temp_db total_rows w = (w1, t1, r1) ->
  store_skipped t1 = true ->
  r1 = Ret total_rows
  /\ failure_reported t1 = false
  /\ statements t1 = []
  /\ (forall c, In c (calls t1) ->
        c = OsPathExists temp_db \/ c = OsPathGetsize temp_db)
  /\ forall rest,
       merge_loop E db_path count i (temp_db :: rest) total_rows w
       = let '(w2, t2, r2) :=
           merge_loop E db_path count (i + 1) rest total_rows w1 in
         (w2, t1 ++ t2, r2).
Proof.
  intros Hrun Hskip.
  destruct (merge_one_run E _ _ _ _ _ _ _ _ _ Hrun)
    as (_ & _ & Hs & _).
  destruct (Hs Hskip) as (-> & Hrep & Hst & Hcalls).
  repeat split; auto.
  intros rest. apply merge_loop_cons. exact Hrun.
Qed.

Lemma C7_witness :
  snd run_merge_small = Ret 7
  /\ failure_reported (snd (fst run_merge_small)) = false
  /\ statements (snd (fst run_merge_small)) = []
  /\ (forall c, In c (calls (snd (fst run_merge_small))) ->
        c = OsPathExists "./temp_dbs/chunk_0.duckdb"
        \/ c = OsPathGetsize "./temp_dbs/chunk_0.duckdb")
  /\ forall rest,
       merge_loop (scripted (answer_ok [] 999 5)) "domains.duckdb" 1 0
         ("./temp_dbs/chunk_0.duckdb"%string :: rest) 7 tt
       = let '(w2, t2, r2) :=
           merge_loop (scripted (answer_ok [] 999 5)) "domains.duckdb" 1
             (0 + 1) rest 7 (fst (fst run_merge_small)) in
         (w2, snd (fst run_merge_small) ++ t2, r2).
Proof.
  apply (C7_unviable_store_is_skipped (scripted (answer_ok [] 999 5))
           "domains.duckdb" "./temp_dbs/chunk_0.duckdb" 1 0 7 tt);
    reflexivity.
Defined.

(** C8. When ATTACH, the row count or INSERT raises for a store, the
    error is caught and printed, [total_rows] is left as it was, the
    file of the store is not removed, and the loop goes on with the
    next store.  In every iteration, if the file of the store is
    removed then the INSERT had succeeded before the removal and the
    counted rows were added to [total_rows]. *)
Theorem C8_failed_store_is_kept (E : Env) (db_path temp_db : string)
  (count i total_rows : Z) (w w1 : World E) (t1 : Trace) (r1 : Result Z) :
  merge_one E db_path count i temp_db total_rows w = (w1, t1, r1) ->
  (merge_step_raised t1 = true ->
   r1 = Ret total_rows
   /\ (exists e, In (Printed (MsgMergeError temp_db e)) t1)
   /\ ~ In (OsRemove temp_db) (calls t1)
   /\ forall rest,
        merge_loop E db_path count i (temp_db :: rest) total_rows w
        = let '(w2, t2, r2) :=
            merge_loop E db_path count (i + 1) rest total_rows w1 in
          (w2, t1 ++ t2, r2))
  /\ (In (OsRemove temp_db) (calls t1) ->
      insert_succeeded (before_remove t1) = true
      /\ exists n, count_answers t1 = [n] /\ r1 = Ret (total_rows + n)).
Proof.
  intros Hrun.
  destruct (merge_one_run E _ _ _ _ _ _ _ _ _ Hrun)
    as (_ & _ & _ & Hfail & Hrm & _).
  split; [|exact Hrm].
  intros Hraised. destruct (Hfail Hraised) as (-> & Hprint & Hkeep).
  repeat split; auto.
  intros rest. apply merge_loop_cons. exact Hrun.
Qed.

Lemma C8_witness :
  (merge_step_raised (snd (fst run_merge_attach_fails)) = true ->
   snd run_merge_attach_fails = Ret 7
   /\ (exists e, In (Printed (MsgMergeError "./temp_dbs/chunk_0.duckdb" e))
                   (snd (fst run_merge_attach_fails)))
   /\ ~ In (OsRemove "./temp_dbs/chunk_0.duckdb")
          (calls (snd (fst run_merge_attach_fails)))
   /\ forall rest,
        merge_loop (scripted answer_attach_fails) "domains.duckdb" 1 0
          ("./temp_dbs/chunk_0.duckdb"%string :: rest) 7 tt
        = let '(w2, t2, r2) :=
            merge_loop (scripted answer_attach_fails) "domains.duckdb" 1
              (0 + 1) rest 7 (fst (fst run_merge_attach_fails)) in
          (w2, snd (fst run_merge_attach_fails) ++ t2, r2))
  /\ (In (OsRemove "./temp_dbs/chunk_0.duckdb")
        (calls (snd (fst run_merge_attach_fails))) ->
      insert_succeeded (before_remove (snd (fst run_merge_attach_fails)))
      = true
      /\ exists n,
           count_answers (snd (fst run_merge_attach_fails)) = [n]
           /\ snd run_merge_attach_fails = Ret (7 + n)).
Proof.
  apply (C8_failed_store_is_kept (scripted answer_attach_fails)
           "domains.duckdb" "./temp_dbs/chunk_0.duckdb" 1 0 7 tt);
    reflexivity.
Defined.

(** ** Index builder *)

(** C9. With a sample size below [1.0], and when no call into the engine
    raises, the index builder sends exactly these statements, in this
    order: the memory limit, the creation of the temporary sample table
    from [domains], the index on the sample table, the index of the same
    name on the full table [domains], and the drop of the sample table;
    then it returns. *)
Theorem C9_sampled_index_statements (E : Env)
  (db_path memory_limit field : string) (sample_size : PyFloat.float)
  (w w' : World E) (t : Trace) (r : Result unit) :
  PyFloat.ltb sample_size PyFloat.one = true ->
  create_single_index E db_path memory_limit field sample_size w
    = (w', t, r) ->
  some_call_raised t = false ->
  r = Ret tt
  /\ statements t =
       [ PragmaMemoryLimit memory_limit;
         CreateSampleTable ("sample_" ++ field ++ "_table") "domains"
           sample_size;
         CreateIndexIfNotExists ("idx_" ++ field)
           ("sample_" ++ field ++ "_table") field;
         CreateIndexIfNotExists ("idx_" ++ field) "domains" field;
         DropTable ("sample_" ++ field ++ "_table") ].
Proof.
  intros Hlt. unfold create_single_index. rewrite Hlt.
  set (idx := ("idx_" ++ field)%string). clearbody idx.
  set (sample := ("sample_" ++ field ++ "_table")%string). clearbody sample.
  unfold bind, call, try_except, print, ret.
  run_all; intros [= <- <- <-]; trace_facts.
Qed.

Lemma C9_witness :
  snd run_sampled_index = Ret tt
  /\ statements (snd (fst run_sampled_index)) =
       [ PragmaMemoryLimit "8GB";
         CreateSampleTable ("sample_" ++ "ip" ++ "_table") "domains" one_half;
         CreateIndexIfNotExists ("idx_" ++ "ip")
           ("sample_" ++ "ip" ++ "_table") "ip";
         CreateIndexIfNotExists ("idx_" ++ "ip") "domains" "ip";
         DropTable ("sample_" ++ "ip" ++ "_table") ].
Proof.
  apply (C9_sampled_index_statements (scripted (answer_ok [] 12288 0))
           "domains.duckdb" "8GB" "ip" one_half tt tt);
    reflexivity.
Defined.

(** ** The chunked pipeline *)

Section PipelineFacts.

Variable E : Env.

Lemma call_inv (c : Call) (w w' : World E) (t : Trace) (r : Result Value) :
  call c w = (w', t, r) -> t = [Called c r].
Proof.
  unfold call. destruct (respond E c w) as [w1 r1].
  now intros [= <- <- <-].
Qed.

(** Without a failure report, the pool hands on the store of every
    job, after the rows it counts were copied into it, and asks the
    engine for no count. *)
Lemma pool_loop_run (args : Args) (jobs : list (Z * Chunk)) :
  forall (acc acc' : Z * list string) (w w' : World E) (t : Trace),
    pool_loop E args jobs acc w = (w', t, Ret acc') ->
    failure_reported t = false ->
    (forall attached rest,
       merged_counts attached (t ++ rest) = merged_counts attached rest)
    /\ exists loaded,
         fst acc' = fst acc + sum_Z (map snd loaded)
         /\ snd acc' = snd acc ++ map fst loaded
         /\ forall d rest, exists d',
              loaded_rows d (t ++ rest) = loaded ++ loaded_rows d' rest.
Proof.
  induction jobs as [|[chunk_id [start_pos end_pos]] rest IH];
    intros acc acc' w w' t Hrun Hok.
  - simpl in Hrun. injection Hrun as <- <- <-.
    split; [reflexivity|]. exists []. simpl.
    rewrite app_nil_r. split; [lia|]. split; [reflexivity|].
    intros d tl. now exists d.
  - simpl in Hrun. apply bind_ret_inv in Hrun.
    destruct Hrun as (w1 & t1 & [rows store] & t2 & H1 & H2 & ->).
    rewrite failure_reported_app in Hok.
    apply orb_false_elim in Hok. destruct Hok as [Hok1 Hok2].
    destruct (process_chunk_loaded E _ _ _ _ _ _ _ _ _ _ _ _ H1 Hok1)
      as (Hm1 & data & Hrows & Hl1).
    destruct (IH _ _ _ _ _ H2 Hok2) as (Hm2 & loaded & Hsum & Hdbs & Hl2).
    split.
    + intros attached tl. rewrite <- app_assoc, Hm1. apply Hm2.
    + exists ((store, rows) :: loaded).
      pose proof (count_rows_positive data) as Hpos.
      destruct acc as [rows_processed temp_dbs]. simpl in Hsum, Hdbs.
      destruct (0 <? rows) eqn:Epos; [|apply Z.ltb_ge in Epos; lia].
      simpl. split; [lia|]. split.
      * rewrite Hdbs, <- app_assoc. reflexivity.
      * intros d tl. rewrite <- app_assoc, Hl1.
        destruct (Hl2 data tl) as (d' & ->). exists d'.
        rewrite Hrows, count_rows_convention. reflexivity.
Qed.

(** Without a failure report and without a skipped store, the merge
    loop attaches every store of its list and adds up the counts the
    engine reported for them. *)
Lemma merge_loop_run (db_path : string) (count : Z)
  (temp_dbs : list string) :
  forall (i total_rows total_rows' : Z) (w w' : World E) (t : Trace),
    merge_loop E db_path count i temp_dbs total_rows w
      = (w', t, Ret total_rows') ->
    failure_reported t = false -> store_skipped t = false ->
    (forall d rest, loaded_rows d (t ++ rest) = loaded_rows d rest)
    /\ exists merged,
         map fst merged = temp_dbs
         /\ total_rows' = total_rows + sum_Z (map snd merged)
         /\ forall attached rest, exists attached',
              merged_counts attached (t ++ rest)
              = merged ++ merged_counts attached' rest.
Proof.
  induction temp_dbs as [|temp_db rest IH];
    intros i total total' w w' t Hrun Hok Hns.
  - simpl in Hrun. injection Hrun as <- <- <-.
    split; [reflexivity|]. exists []. simpl.
    split; [reflexivity|]. split; [lia|].
    intros attached tl. now exists attached.
  - simpl in Hrun. apply bind_ret_inv in Hrun.
    destruct Hrun as (w1 & t1 & mid & t2 & H1 & H2 & ->).
    rewrite failure_reported_app in Hok.
    apply orb_false_elim in Hok. destruct Hok as [Hok1 Hok2].
    rewrite store_skipped_app in Hns.
    apply orb_false_elim in Hns. destruct Hns as [Hns1 Hns2].
    destruct (merge_one_counts E _ _ _ _ _ _ _ _ _ H1 Hok1 Hns1)
      as (Hl1 & n & -> & Hm1).
    destruct (IH _ _ _ _ _ _ H2 Hok2 Hns2)
      as (Hl2 & merged & Hdbs & -> & Hm2).
    split.
    + intros d tl. rewrite <- app_assoc, Hl1. apply Hl2.
    + exists ((temp_db, n) :: merged). simpl.
      split; [now rewrite Hdbs|]. split; [lia|].
      intros attached tl. rewrite <- app_assoc, Hm1.
      destruct (Hm2 temp_db tl) as (attached' & ->). now exists attached'.
Qed.

Lemma merge_temp_databases_run (db_path memory_limit : string)
  (temp_dbs : list string) (w w' : World E) (t : Trace) (total_rows : Z) :
  merge_temp_databases E db_path temp_dbs memory_limit w
    = (w', t, Ret total_rows) ->
  failure_reported t = false -> store_skipped t = false ->
  (forall d, loaded_rows d t = [])
  /\ exists merged,
       map fst merged = temp_dbs
       /\ total_rows = sum_Z (map snd merged)
       /\ forall attached, merged_counts attached t = merged.
Proof.
  unfold merge_temp_databases. intros Hrun.
  apply bind_ret_inv in Hrun.
  destruct Hrun as (w1 & t1 & v1 & ta & H1 & Hrun & ->).
  apply call_inv in H1. subst t1.
  apply bind_ret_inv in Hrun.
  destruct Hrun as (w2 & t2 & v2 & tb & H2 & Hrun & ->).
  apply call_inv in H2. subst t2.
  apply bind_ret_inv in Hrun.
  destruct Hrun as (w3 & t3 & v3 & tc & H3 & Hrun & ->).
  apply call_inv in H3. subst t3.
  apply bind_ret_inv in Hrun.
  destruct Hrun as (w4 & t4 & total & td & H4 & Hrun & ->).
  apply bind_ret_inv in Hrun.
  destruct Hrun as (w5 & t5 & v5 & te & H5 & Hrun & ->).
  apply call_inv in H5. subst t5.
  injection Hrun as <- <- <-.
  rewrite !failure_reported_app, !store_skipped_app.
  cbn. rewrite !orb_false_r. intros Hok Hns.
  destruct (merge_loop_run _ _ _ _ _ _ _ _ _ H4 Hok Hns)
    as (Hl & merged & Hdbs & Hsum & Hm).
  split.
  - intros d. rewrite Hl. reflexivity.
  - exists merged. split; [exact Hdbs|]. split; [lia|].
    intros attached.
    destruct (Hm attached [Called (ConnClose db_path) (Ret v5)])
      as (attached' & ->).
    cbn. apply app_nil_r.
Qed.

Lemma print_inv (m : Message) (w w' : World E) (t : Trace)
  (r : Result unit) :
  print m w = (w', t, r) -> t = [Printed m].
Proof. unfold print. now intros [= <- <- <-]. Qed.

(** A run of the chunked load without a failure report and without a
    skipped store: the merger was asked to count exactly the stores the
    loaders copied rows into, in the same order; the rows processed are
    the rows copied, and the rows loaded the counts reported. *)
Lemma load_chunks_run (args : Args)
  (schedule : list (Z * Chunk) -> list (Z * Chunk))
  (chunks : list Chunk) (w w' : World E) (t : Trace)
  (rows_processed rows_loaded : Z) :
  load_chunks E args schedule chunks w
    = (w', t, Ret (rows_processed, rows_loaded)) ->
  failure_reported t = false -> store_skipped t = false ->
  map fst (merged_counts "" t) = map fst (loaded_rows [] t)
  /\ rows_processed = sum_Z (map snd (loaded_rows [] t))
  /\ rows_loaded = sum_Z (map snd (merged_counts "" t)).
Proof.
  unfold load_chunks. intros Hrun.
  apply bind_ret_inv in Hrun.
  destruct Hrun as (w1 & t1 & [] & ta & H1 & Hrun & ->).
  apply print_inv in H1. subst t1.
  apply bind_ret_inv in Hrun.
  destruct Hrun as (w2 & t2 & [] & tb & H2 & Hrun & ->).
  apply print_inv in H2. subst t2.
  apply bind_ret_inv in Hrun.
  destruct Hrun as (w3 & t3 & [] & tc & H3 & Hrun & ->).
  assert (t3 = []) as ->.
  { destruct (_ <? 1); [discriminate|]. now injection H3 as <- <-. }
  apply bind_ret_inv in Hrun.
  destruct Hrun as (w4 & t4 & [rp temp_dbs] & td & H4 & Hrun & ->).
  apply bind_ret_inv in Hrun.
  destruct Hrun as (w5 & t5 & [] & te & H5 & Hrun & ->).
  apply print_inv in H5. subst t5.
  apply bind_ret_inv in Hrun.
  destruct Hrun as (w6 & t6 & [] & tf & H6 & Hrun & ->).
  apply print_inv in H6. subst t6.
  apply bind_ret_inv in Hrun.
  destruct Hrun as (w7 & t7 & rl & tg & H7 & Hrun & ->).
  injection Hrun as <- <- <- <-.
  rewrite !failure_reported_app, !store_skipped_app.
  cbn. rewrite !orb_false_r, app_nil_r. intros Hok Hns.
  apply orb_false_elim in Hok. destruct Hok as [Hok4 Hok7].
  apply orb_false_elim in Hns. destruct Hns as [_ Hns7].
  destruct (pool_loop_run _ _ _ _ _ _ _ H4 Hok4)
    as (Hm4 & loaded & Hsum4 & Hdbs4 & Hl4).
  destruct (merge_temp_databases_run _ _ _ _ _ _ _ H7 Hok7 Hns7)
    as (Hl7 & merged & Hdbs7 & Hsum7 & Hm7).
  simpl in Hsum4, Hdbs4.
  destruct (Hl4 [] (Printed (MsgProcessed rp (Z.of_nat (length temp_dbs)))
                      :: Printed MsgMergingDatabases :: t7)) as (d' & ->).
  rewrite Hm4. cbn. rewrite Hl7, Hm7, app_nil_r.
  split; [congruence|]. split; [exact Hsum4 | exact Hsum7].
Qed.

(** Two lists of counts over the same stores that agree store by store
    are the same list. *)
Lemma counts_agree_same_stores (merged loaded : list (string * Z)) :
  map fst merged = map fst loaded ->
  forallb (fun m => forallb (count_agrees m) loaded) merged = true ->
  merged = loaded.
Proof.
  revert loaded.
  induction merged as [|[s n] merged IH]; intros [|[s' r] loaded] Hst Hag;
    try discriminate; [reflexivity|].
  simpl in Hst. injection Hst as <- Hst.
  simpl in Hag. apply andb_prop in Hag. destruct Hag as [Hhd Htl].
  apply andb_prop in Hhd. destruct Hhd as [Hhd _].
  unfold count_agrees in Hhd. simpl in Hhd.
  rewrite String.eqb_refl in Hhd. simpl in Hhd.
  apply Z.eqb_eq in Hhd. subst r. f_equal.
  apply IH; [exact Hst|].
  apply forallb_forall. intros m Hin.
  rewrite forallb_forall in Htl. specialize (Htl m Hin).
  simpl in Htl. apply andb_prop in Htl. apply Htl.
Qed.

End PipelineFacts.

(** C3 (as amended). In a run of the chunked pipeline in which no chunk
    and no store reports a failure, no store is skipped as missing or
    smaller than 1000 bytes, and for each merged store the row count
    the engine reports is the count the row convention gives for the
    bytes that were loaded into that store: every store a loader copied
    rows into is counted by the merger, and the sum of the loaders' row
    counts equals the total returned by the merger. *)
Theorem C3_row_counts_reconcile (E : Env) (args : Args)
  (schedule : list (Z * Chunk) -> list (Z * Chunk)) (input : list byte)
  (m : M E (Z * Z)) (w w' : World E) (t : Trace)
  (rows_processed rows_loaded : Z) :
  main_chunked E args schedule input = Some m ->
  m w = (w', t, Ret (rows_processed, rows_loaded)) ->
  failure_reported t = false ->
  store_skipped t = false ->
  counts_agree t = true ->
  map fst (merged_counts "" t) = map fst (loaded_rows [] t)
  /\ rows_processed = sum_Z (map snd (loaded_rows [] t))
  /\ rows_processed = rows_loaded.
Proof.
  unfold main_chunked. intros Hm Hrun Hok Hns Hagree.
  destruct (get_file_chunks input total_rows (arg_chunk_size args))
    as [[chunks|e]|]; try discriminate.
  - injection Hm as <-.
    destruct (load_chunks_run E _ _ _ _ _ _ _ _ Hrun Hok Hns)
      as (Hst & -> & ->).
    split; [exact Hst|]. split; [reflexivity|].
    now rewrite (counts_agree_same_stores _ _ Hst Hagree).
  - injection Hm as <-. discriminate.
Qed.

Lemma C3_witness :
  map fst (merged_counts "" (snd (fst run_pipeline_two_chunks)))
    = map fst (loaded_rows [] (snd (fst run_pipeline_two_chunks)))
  /\ 2 = sum_Z (map snd (loaded_rows [] (snd (fst run_pipeline_two_chunks))))
  /\ 2 = 2.
Proof.
  apply (C3_row_counts_reconcile (scripted (answer_ok one_line 12288 1))
           two_chunk_args in_order two_lines
           (load_chunks (scripted (answer_ok one_line 12288 1))
              two_chunk_args in_order [(0, 4); (4, 8)])
           tt tt (snd (fst run_pipeline_two_chunks)) 2 2);
    reflexivity.
Defined.

(** C3 fails as stated: the loader counts one row and reports nothing,
    the store file has 999 bytes and the merger skips it without a
    report, so the merged total is zero. *)
Lemma C3_small_store_dropped_silently :
  main_chunked (scripted (answer_ok one_line 999 1)) example_args in_order
    one_line
  = Some (load_chunks (scripted (answer_ok one_line 999 1)) example_args
            in_order [(0, 4)])
  /\ snd run_pipeline_small_store = Ret (1, 0)
  /\ failure_reported (snd (fst run_pipeline_small_store)) = false.
Proof. repeat split. Qed.

(** * Further properties *)

(** ** Chunk planner: size and shape of the chunks *)

Lemma scan_to_newline_no_newline (file : list byte) (fuel : nat) :
  forall (f f' : FileObj) (end_pos end_pos' : Z),
    content f = file -> cursor f = end_pos -> 0 <= end_pos ->
    scan_to_newline fuel f (Z.of_nat (length file)) end_pos
      = Some (f', end_pos') ->
    forall k, end_pos <= k < end_pos' - 1 ->
      nth_error file (Z.to_nat k) <> Some newline.
Proof.
  induction fuel as [|fuel IH]; intros [data pos] f' e e' Hc Hp H0 Hs;
    simpl in Hc, Hp; subst data pos; simpl in Hs.
  - destruct (e <? _); [discriminate|]. injection Hs as <- <-. lia.
  - destruct (e <? _) eqn:E; [|injection Hs as <- <-; lia].
    unfold read1 in Hs. simpl in Hs.
    destruct (nth_error file (Z.to_nat e)) as [b|] eqn:Hn.
    + simpl is_newline in Hs. destruct (Byte.eqb b newline) eqn:Hb.
      * injection Hs as <- <-. lia.
      * intros k Hk. destruct (Z.eq_dec k e) as [->|Hne].
        -- rewrite Hn. intros [= ->]. now vm_compute in Hb.
        -- apply (IH (mkFile file (e + 1)) f' (e + 1) e' eq_refl eq_refl
                    ltac:(lia) Hs). lia.
    + apply Z.ltb_lt in E. apply nth_error_None in Hn. lia.
Qed.

Lemma scan_to_newline_result (fuel : nat) :
  forall (f f' : FileObj) (file_size end_pos end_pos' : Z),
    scan_to_newline fuel f file_size end_pos = Some (f', end_pos') ->
    content f' = content f
    /\ end_pos <= end_pos'
    /\ (end_pos < file_size -> end_pos < end_pos').
Proof.
  induction fuel as [|fuel IH]; intros f f' fs e e' Hs; simpl in Hs.
  - destruct (e <? fs) eqn:E; [discriminate|]. injection Hs as <- <-.
    apply Z.ltb_ge in E. repeat split; lia.
  - destruct (e <? fs) eqn:E.
    2:{ injection Hs as <- <-. apply Z.ltb_ge in E. repeat split; lia. }
    assert (Hcont : content (snd (read1 f)) = content f)
      by (unfold read1; destruct (nth_error _ _); reflexivity).
    destruct (read1 f) as [char f1]. simpl in Hcont.
    destruct (is_newline char).
    + injection Hs as <- <-. repeat split; auto; lia.
    + apply IH in Hs. destruct Hs as (Hc & Hle & _).
      repeat split; try lia. congruence.
Qed.

Lemma plan_loop_tight (file : list byte) (chunk_bytes : Z) (fuel : nat) :
  0 <= chunk_bytes ->
  forall (f : FileObj) (start_pos : Z) (acc chunks : list Chunk),
    content f = file -> 0 <= start_pos ->
    plan_loop fuel f (Z.of_nat (length file)) chunk_bytes start_pos acc
      = Some (Ret chunks) ->
    exists new,
      chunks = acc ++ new /\ Forall (overshoot_tight file chunk_bytes) new.
Proof.
  intros Hcb.
  induction fuel as [|fuel IH]; intros f s acc chunks Hc Hs Hrun;
    simpl in Hrun.
  - destruct (s <? _); [discriminate|]. injection Hrun as <-.
    exists []. now rewrite app_nil_r.
  - destruct (s <? _) eqn:E.
    2:{ injection Hrun as <-. exists []. now rewrite app_nil_r. }
    apply Z.ltb_lt in E.
    destruct (Z.min (s + chunk_bytes) (Z.of_nat (length file)) <? _) eqn:E2.
    + apply Z.ltb_lt in E2.
      assert (Hend : Z.min (s + chunk_bytes) (Z.of_nat (length file))
                     = s + chunk_bytes) by lia.
      rewrite Hend in *. rewrite seek_nonneg in Hrun by lia.
      destruct (scan_to_newline fuel _ _ _) as [[f2 e']|] eqn:Hscan;
        [|discriminate].
      destruct (scan_to_newline_result _ _ _ _ _ _ Hscan)
        as (Hc2 & Hle & Hin). simpl in Hc2.
      rewrite Hc in Hc2.
      destruct (IH f2 e' _ _ Hc2 ltac:(lia) Hrun) as (new & -> & Hall).
      exists ((s, e') :: new). rewrite <- app_assoc. split; [reflexivity|].
      constructor; [|exact Hall]. split; simpl.
      * right. specialize (Hin E2). lia.
      * apply (scan_to_newline_no_newline file fuel
                 (mkFile (content f) (s + chunk_bytes)) f2); simpl; auto; lia.
    + apply Z.ltb_ge in E2.
      assert (Hend : Z.min (s + chunk_bytes) (Z.of_nat (length file))
                     = Z.of_nat (length file)) by lia.
      rewrite Hend in *.
      destruct (IH f (Z.of_nat (length file)) _ _ Hc ltac:(lia) Hrun)
        as (new & -> & Hall).
      exists ((s, Z.of_nat (length file)) :: new).
      rewrite <- app_assoc. split; [reflexivity|].
      constructor; [|exact Hall]. split; simpl; [now left | intros k Hk; lia].
Qed.

Lemma get_file_chunks_tight (file : list byte)
  (total_rows chunk_size cb : Z) (chunks : list Chunk) :
  0 < total_rows -> 0 < chunk_size ->
  chunk_bytes_of (Z.of_nat (length file)) total_rows chunk_size = Ret cb ->
  get_file_chunks file total_rows chunk_size = Some (Ret chunks) ->
  0 <= cb /\ Forall (overshoot_tight file cb) chunks.
Proof.
  intros Ht Hc Hcb Hrun.
  assert (0 <= cb) as Hnn
    by (eapply chunk_bytes_of_nonneg; [| | |exact Hcb]; lia).
  split; [exact Hnn|].
  unfold get_file_chunks, get_file_chunks_fuel in Hrun. rewrite Hcb in Hrun.
  destruct (plan_loop_tight file cb _ Hnn (open_rb file) 0 [] chunks
              eq_refl (Z.le_refl 0) Hrun) as (new & -> & Hall).
  exact Hall.
Qed.

(** Whatever the estimate of the row width, a chunk never runs further
    than needed: past its tentative end ([chunk_bytes] after its start)
    it holds no newline before its last byte, and unless it ends the file
    it is longer than [chunk_bytes]. *)
Theorem planner_chunks_stop_at_first_newline (file : list byte)
  (total_rows chunk_size cb : Z) (chunks : list Chunk) (c : Chunk) :
  0 < total_rows -> 0 < chunk_size ->
  chunk_bytes_of (Z.of_nat (length file)) total_rows chunk_size = Ret cb ->
  get_file_chunks file total_rows chunk_size = Some (Ret chunks) ->
  In c chunks ->
  (snd c = Z.of_nat (length file) \/ fst c + cb < snd c)
  /\ forall k, fst c + cb <= k < snd c - 1 ->
       nth_error file (Z.to_nat k) <> Some newline.
Proof.
  intros Ht Hc Hcb Hrun Hin.
  destruct (get_file_chunks_tight _ _ _ _ _ Ht Hc Hcb Hrun) as [_ Hall].
  rewrite Forall_forall in Hall. exact (Hall c Hin).
Qed.

Lemma planner_chunks_stop_at_first_newline_witness :
  (snd (0, 9) = Z.of_nat (length ten_rows) \/ fst (0, 9) + 8 < snd (0, 9))
  /\ forall k, fst (0, 9) + 8 <= k < snd (0, 9) - 1 ->
       nth_error ten_rows (Z.to_nat k) <> Some newline.
Proof.
  apply (planner_chunks_stop_at_first_newline ten_rows 10 3 8
           [(0, 9); (9, 18); (18, 27); (27, 29)] (0, 9));
    [lia | lia | reflexivity | reflexivity | simpl; auto].
Defined.

Lemma tiles_length (chunks : list Chunk) :
  forall lo hi, tiles lo hi chunks -> Z.of_nat (length chunks) <= hi - lo.
Proof.
  induction chunks as [|[s e] rest IH]; simpl length; intros lo hi H.
  - simpl in H. lia.
  - destruct H as (-> & Hlt & Ht). apply IH in Ht. lia.
Qed.

Lemma tiles_tight_count (file : list byte) (cb : Z) (chunks : list Chunk) :
  0 <= cb ->
  forall lo, tiles lo (Z.of_nat (length file)) chunks ->
    Forall (overshoot_tight file cb) chunks ->
    chunks <> [] ->
    (Z.of_nat (length chunks) - 1) * (cb + 1) < Z.of_nat (length file) - lo.
Proof.
  intros Hcb.
  induction chunks as [|[s e] rest IH]; intros lo Ht Hall Hne.
  - contradiction.
  - destruct Ht as (-> & Hlt & Ht). inversion Hall as [|? ? Hc Hrest]; subst.
    destruct rest as [|c' rest'].
    + simpl in *. lia.
    + specialize (IH e Ht Hrest ltac:(discriminate)).
      pose proof (tiles_bounds _ _ _ Ht c' (or_introl eq_refl)) as Hb.
      destruct Hc as [[Hend | Hlong] _]; cbn [fst snd] in *; [lia|].
      cbn [length] in *. rewrite !Nat2Z.inj_succ in *.
      set (n := Z.of_nat (length rest')) in *.
      assert (0 <= n) by (unfold n; lia). nia.
Qed.

(** The number of chunks is bounded: there are no more chunks than
    bytes, and all chunks but the last are longer than [chunk_bytes], so
    one less than their number, times [chunk_bytes + 1], stays below the
    file size. *)
Theorem planner_chunk_count_bounded (file : list byte)
  (total_rows chunk_size cb : Z) (chunks : list Chunk) :
  0 < total_rows -> 0 < chunk_size ->
  chunk_bytes_of (Z.of_nat (length file)) total_rows chunk_size = Ret cb ->
  get_file_chunks file total_rows chunk_size = Some (Ret chunks) ->
  Z.of_nat (length chunks) <= Z.of_nat (length file)
  /\ (chunks <> [] ->
      (Z.of_nat (length chunks) - 1) * (cb + 1) < Z.of_nat (length file)).
Proof.
  intros Ht Hc Hcb Hrun.
  destruct (get_file_chunks_tight _ _ _ _ _ Ht Hc Hcb Hrun) as [Hnn Hall].
  destruct (get_file_chunks_spec _ _ _ _ Ht Hc Hrun) as [Htl _].
  split.
  - pose proof (tiles_length _ _ _ Htl). lia.
  - intros Hne.
    pose proof (tiles_tight_count file cb chunks Hnn 0 Htl Hall Hne). lia.
Qed.

Lemma planner_chunk_count_bounded_witness :
  Z.of_nat (length [(0, 9); (9, 18); (18, 27); (27, 29)])
    <= Z.of_nat (length ten_rows)
  /\ ([(0, 9); (9, 18); (18, 27); (27, 29)] <> [] ->
      (Z.of_nat (length [(0, 9); (9, 18); (18, 27); (27, 29)]) - 1) * (8 + 1)
      < Z.of_nat (length ten_rows)).
Proof.
  apply (planner_chunk_count_bounded ten_rows 10 3 8
           [(0, 9); (9, 18); (18, 27); (27, 29)]);
    [lia | lia | reflexivity | reflexivity].
Defined.

(** A non-empty file that is not longer than the chunk width is planned
    as one chunk, the whole file. *)
Theorem planner_small_file_one_chunk (file : list byte)
  (total_rows chunk_size cb : Z) (chunks : list Chunk) :
  0 < total_rows -> 0 < chunk_size ->
  chunk_bytes_of (Z.of_nat (length file)) total_rows chunk_size = Ret cb ->
  get_file_chunks file total_rows chunk_size = Some (Ret chunks) ->
  file <> [] -> Z.of_nat (length file) <= cb ->
  chunks = [(0, Z.of_nat (length file))].
Proof.
  intros Ht Hc Hcb Hrun Hne Hsmall.
  destruct (get_file_chunks_tight _ _ _ _ _ Ht Hc Hcb Hrun) as [Hnn Hall].
  destruct (get_file_chunks_spec _ _ _ _ Ht Hc Hrun) as [Htl _].
  destruct chunks as [|[s e] rest].
  - simpl in Htl. destruct file; [contradiction | discriminate].
  - pose proof (tiles_tight_count file cb _ Hnn 0 Htl Hall
                  ltac:(discriminate)) as Hbound.
    rewrite Z.sub_0_r in Hbound.
    destruct rest as [|c' rest'].
    + simpl in Htl. destruct Htl as (-> & _ & ->). reflexivity.
    + exfalso. cbn [length] in Hbound. rewrite !Nat2Z.inj_succ in Hbound.
      set (n := Z.of_nat (length rest')) in *.
      assert (0 <= n) by (unfold n; lia).
      assert (0 <= cb) by lia. nia.
Qed.

Lemma planner_small_file_one_chunk_witness :
  [(0, 6)] = [(0, Z.of_nat (length three_lines))].
Proof.
  apply (planner_small_file_one_chunk three_lines 1 1 6 [(0, 6)]);
    [lia | lia | reflexivity | reflexivity | discriminate | simpl; lia].
Defined.

(** When the width comes out negative (the row count and the rows per
    chunk have opposite signs), the planner fails on a non-empty file at
    its first seek, to a negative offset, before producing any chunk:
    with [ValueError] when the width is below [-2^63] and does not fit
    an offset, with the [OSError] of the operating system otherwise. *)
Theorem planner_negative_width_fails (file : list byte)
  (total_rows chunk_size cb : Z) :
  chunk_bytes_of (Z.of_nat (length file)) total_rows chunk_size = Ret cb ->
  cb < 0 -> file <> [] ->
  get_file_chunks file total_rows chunk_size
    = Some (Raise (if cb <? - 2 ^ 63 then ValueError
                   else OSError "Invalid argument")).
Proof.
  intros Hcb Hneg Hne.
  unfold get_file_chunks, get_file_chunks_fuel. rewrite Hcb.
  assert (0 < Z.of_nat (length file))
    by (destruct file; [contradiction | simpl; lia]).
  simpl. destruct (0 <? Z.of_nat (length file)) eqn:E;
    [|apply Z.ltb_ge in E; lia].
  replace (Z.min cb (Z.of_nat (length file))) with cb by lia.
  destruct (cb <? Z.of_nat (length file)) eqn:E2;
    [|apply Z.ltb_ge in E2; lia].
  rewrite seek_negative by lia. reflexivity.
Qed.

Lemma planner_negative_width_fails_witness :
  get_file_chunks one_line total_rows (- 10 ^ 30) = Some (Raise ValueError).
Proof.
  apply (planner_negative_width_fails one_line total_rows (- 10 ^ 30)
           (-18429895295341651034112));
    [reflexivity | lia | discriminate].
Defined.

(** The same failure with a width that fits an offset. *)
Example planner_small_negative_width :
  get_file_chunks one_line (-1) 1 = Some (Raise (OSError "Invalid argument")).
Proof. reflexivity. Qed.

(** ** Chunk planner and row counting together *)

Lemma count_newlines_app (a b : list byte) :
  count_newlines (a ++ b) = count_newlines a + count_newlines b.
Proof.
  unfold count_newlines. rewrite filter_app, length_app.
  apply Nat2Z.inj_add.
Qed.

Lemma last_slice_app (a b : list byte) :
  b <> [] -> last_slice (a ++ b) = last_slice b.
Proof.
  intros Hb. unfold last_slice. rewrite length_app, skipn_app.
  assert (0 < length b)%nat by (destruct b; [contradiction | simpl; lia]).
  rewrite skipn_all2 by lia. simpl. f_equal. lia.
Qed.

Lemma count_rows_app (a b : list byte) :
  b <> [] -> count_rows (a ++ b) = count_newlines a + count_rows b.
Proof.
  intros Hb. unfold count_rows.
  rewrite count_newlines_app, last_slice_app by exact Hb.
  destruct (negb (is_newline (last_slice b))); lia.
Qed.

(** The bytes of a range that ends right after a newline of the file
    count as many rows as they hold newlines. *)
Lemma count_rows_aligned_range (file : list byte) (s e : Z) :
  0 <= s < e -> e <= Z.of_nat (length file) ->
  nth_error file (Z.to_nat (e - 1)) = Some newline ->
  count_rows (byte_range file (s, e))
    = count_newlines (byte_range file (s, e)).
Proof.
  intros Hs He Hn. unfold count_rows.
  rewrite last_slice_final_byte. unfold final_byte, byte_range. simpl.
  assert (Hlen : length (firstn (Z.to_nat (e - s)) (skipn (Z.to_nat s) file))
                 = Z.to_nat (e - s)).
  { apply firstn_length_le. rewrite length_skipn. lia. }
  rewrite Hlen, nth_error_firstn.
  destruct (Nat.ltb_spec (Z.to_nat (e - s) - 1) (Z.to_nat (e - s)));
    [|lia].
  rewrite nth_error_skipn.
  replace (Z.to_nat s + (Z.to_nat (e - s) - 1))%nat
    with (Z.to_nat (e - 1)) by lia.
  rewrite Hn. reflexivity.
Qed.

Lemma tiles_rows (file : list byte) (chunks : list Chunk) :
  forall lo,
    tiles lo (Z.of_nat (length file)) chunks ->
    newline_aligned file chunks -> 0 <= lo -> chunks <> [] ->
    sum_Z (map (fun c => count_rows (byte_range file c)) chunks)
      = count_rows (skipn (Z.to_nat lo) file).
Proof.
  induction chunks as [|[s e] rest IH]; intros lo Ht Hal Hlo Hne.
  - contradiction.
  - destruct Ht as (-> & Hlt & Ht).
    pose proof (tiles_le _ _ _ Ht) as Hle.
    destruct rest as [|c' rest'].
    + simpl in Ht. subst e. simpl. unfold byte_range. simpl.
      rewrite firstn_all2 by (rewrite length_skipn; lia). lia.
    + pose proof (tiles_bounds _ _ _ Ht c' (or_introl eq_refl)) as Hb.
      assert (Hend : e < Z.of_nat (length file)) by lia.
      rewrite map_cons. cbn [sum_Z fold_right].
      change (fold_right Z.add 0
                (map (fun c => count_rows (byte_range file c)) (c' :: rest')))
        with (sum_Z (map (fun c => count_rows (byte_range file c))
                       (c' :: rest'))).
      rewrite (IH e Ht) by
        (try discriminate; try lia;
         intros c Hin; apply Hal; right; exact Hin).
      rewrite count_rows_aligned_range;
        [|lia|lia|apply (Hal (lo, e) (or_introl eq_refl) Hend)].
      replace (skipn (Z.to_nat lo) file)
        with (byte_range file (lo, e) ++ skipn (Z.to_nat e) file).
      2:{ unfold byte_range. simpl.
          replace (Z.to_nat e) with (Z.to_nat (e - lo) + Z.to_nat lo)%nat
            by lia.
          rewrite <- skipn_skipn. apply firstn_skipn. }
      rewrite count_rows_app; [reflexivity|].
      intros Hnil. apply (f_equal (@length byte)) in Hnil.
      rewrite length_skipn in Hnil. simpl in Hnil. lia.
Qed.

(** The rows are neither lost nor counted twice by the partition: for a
    non-empty file, the row counts the loader computes for the byte
    ranges of the planned chunks add up to the row count of the whole
    file. *)
Theorem planner_rows_add_up (file : list byte) (total_rows chunk_size : Z)
  (chunks : list Chunk) :
  0 < total_rows -> 0 < chunk_size ->
  get_file_chunks file total_rows chunk_size = Some (Ret chunks) ->
  file <> [] ->
  sum_Z (map (fun c => count_rows (byte_range file c)) chunks)
    = count_rows file.
Proof.
  intros Ht Hc Hrun Hne.
  destruct (get_file_chunks_spec _ _ _ _ Ht Hc Hrun) as [Htl Hal].
  apply (tiles_rows file chunks 0 Htl Hal (Z.le_refl 0)).
  intros ->. simpl in Htl. destruct file; [contradiction | discriminate].
Qed.

Lemma planner_rows_add_up_witness :
  sum_Z (map (fun c => count_rows (byte_range ten_rows c))
           [(0, 9); (9, 18); (18, 27); (27, 29)])
    = count_rows ten_rows.
Proof.
  apply (planner_rows_add_up ten_rows 10 3);
    [lia | lia | reflexivity | discriminate].
Defined.

(** ** Chunk loader: what escapes, what is touched *)

Lemma process_chunk_run_more (E : Env) (chunk_id start_pos end_pos : Z)
  (file_path temp_dir memory_limit compression : string)
  (w w' : World E) (t : Trace) (r : Result (Z * string)) :
  process_chunk E (chunk_id, (start_pos, end_pos)) file_path temp_dir
    memory_limit compression w = (w', t, r) ->
  (forall e, r = Raise e ->
     (In (Called (DuckdbConnect (chunk_db_path temp_dir chunk_id)) (Raise e)) t
      \/ In (Called (ConnExecute (chunk_db_path temp_dir chunk_id)
                       (PragmaMemoryLimit memory_limit)) (Raise e)) t
      \/ In (Called (ConnExecute (chunk_db_path temp_dir chunk_id)
                       CreateTableDomains) (Raise e)) t
      \/ In (Called (ConnClose (chunk_db_path temp_dir chunk_id)) (Raise e)) t)
     /\ ~ In (OsRemove (chunk_csv_path temp_dir chunk_id)) (calls t))
  /\ (forall rows store, r = Ret (rows, store) ->
        failure_reported t = true -> rows = 0)
  /\ (forall c, In c (calls t) ->
        loader_call_ok file_path (chunk_db_path temp_dir chunk_id)
          (chunk_csv_path temp_dir chunk_id) c).
Proof.
  unfold process_chunk, extract_and_load, close_and_clean.
  set (db := chunk_db_path temp_dir chunk_id). clearbody db.
  set (csv := chunk_csv_path temp_dir chunk_id). clearbody csv.
  unfold bind, call, try_finally, try_except, print, ret, as_bytes, raise.
  run_all; intros [= <- <- <-];
  ((split; [|split]);
    [ intros ? Hr;
      first [ discriminate Hr
            | injection Hr as <-; split;
              [ first [ left; solve [in_trace]
                      | right; left; solve [in_trace]
                      | right; right; left; solve [in_trace]
                      | right; right; right; solve [in_trace] ]
              | trace_facts ] ]
    | intros ? ? Hr Hf; cbn in Hf;
      first [ discriminate Hr | discriminate Hf
            | injection Hr as <- <-; reflexivity ]
    | intros ? Hin; cbn in Hin;
      repeat (destruct Hin as [<-|Hin]; [cbn; auto|]); destruct Hin ]).
Qed.

(** The loader lets an exception escape only when opening its store, one
    of the two set-up statements, or closing the connection raised; the
    removal of the scratch file has then not been attempted, so that a
    failing close after the extraction leaves the scratch file behind. *)
Theorem loader_raises_only_around_try (E : Env)
  (chunk_id start_pos end_pos : Z)
  (file_path temp_dir memory_limit compression : string)
  (w w' : World E) (t : Trace) (e : Exn) :
  process_chunk E (chunk_id, (start_pos, end_pos)) file_path temp_dir
    memory_limit compression w = (w', t, Raise e) ->
  (In (Called (DuckdbConnect (chunk_db_path temp_dir chunk_id)) (Raise e)) t
   \/ In (Called (ConnExecute (chunk_db_path temp_dir chunk_id)
                    (PragmaMemoryLimit memory_limit)) (Raise e)) t
   \/ In (Called (ConnExecute (chunk_db_path temp_dir chunk_id)
                    CreateTableDomains) (Raise e)) t
   \/ In (Called (ConnClose (chunk_db_path temp_dir chunk_id)) (Raise e)) t)
  /\ ~ In (OsRemove (chunk_csv_path temp_dir chunk_id)) (calls t).
Proof.
  intros Hrun.
  destruct (process_chunk_run_more E _ _ _ _ _ _ _ _ _ _ _ Hrun)
    as (Hraise & _ & _).
  exact (Hraise e eq_refl).
Qed.

Lemma loader_raises_only_around_try_witness :
  (In (Called (DuckdbConnect (chunk_db_path "./temp_dbs" 0))
         (Raise (EngineError "Connection Error"))) (snd (fst run_close_fails))
   \/ In (Called (ConnExecute (chunk_db_path "./temp_dbs" 0)
                    (PragmaMemoryLimit "8GB"))
            (Raise (EngineError "Connection Error")))
        (snd (fst run_close_fails))
   \/ In (Called (ConnExecute (chunk_db_path "./temp_dbs" 0)
                    CreateTableDomains)
            (Raise (EngineError "Connection Error")))
        (snd (fst run_close_fails))
   \/ In (Called (ConnClose (chunk_db_path "./temp_dbs" 0))
            (Raise (EngineError "Connection Error")))
        (snd (fst run_close_fails)))
  /\ ~ In (OsRemove (chunk_csv_path "./temp_dbs" 0))
         (calls (snd (fst run_close_fails))).
Proof.
  apply (loader_raises_only_around_try
           (scripted (answer_close_fails one_line)) 0 0 4
           "domains.csv" "./temp_dbs" "8GB" "none" tt tt);
    reflexivity.
Defined.

(** A row count of zero means exactly that a failure was caught and
    reported: a loader that returns without a report returns a positive
    count, also for a range without any byte. *)
Theorem loader_zero_rows_iff_failure (E : Env)
  (chunk_id start_pos end_pos : Z)
  (file_path temp_dir memory_limit compression : string)
  (w w' : World E) (t : Trace) (rows : Z) (store : string) :
  process_chunk E (chunk_id, (start_pos, end_pos)) file_path temp_dir
    memory_limit compression w = (w', t, Ret (rows, store)) ->
  (rows = 0 <-> failure_reported t = true) /\ 0 <= rows.
Proof.
  intros Hrun.
  destruct (process_chunk_run_more E _ _ _ _ _ _ _ _ _ _ _ Hrun)
    as (_ & Hzero & _).
  destruct (process_chunk_run E _ _ _ _ _ _ _ _ _ _ _ Hrun)
    as (_ & _ & Hret & Hframe).
  destruct (Hret (Hframe _ eq_refl)) as (rows' & [= <- _] & _ & _ & Hrows).
  destruct (failure_reported t) eqn:Hf.
  - rewrite (Hzero _ _ eq_refl eq_refl). repeat split; auto. lia.
  - destruct (Hrows eq_refl) as (data & _ & ->).
    pose proof (count_rows_positive data).
    repeat split; try lia; try discriminate.
Qed.

Lemma loader_zero_rows_iff_failure_witness :
  (0 = 0 <-> failure_reported (snd (fst run_copy_fails)) = true) /\ 0 <= 0.
Proof.
  apply (loader_zero_rows_iff_failure
           (scripted (answer_copy_fails one_line)) 0 0 4
           "domains.csv" "./temp_dbs" "8GB" "none" tt tt
           (snd (fst run_copy_fails)) 0 "./temp_dbs/chunk_0.duckdb");
    reflexivity.
Defined.

(** A run of the loader only reads the input file, only writes and
    removes its own scratch file, and reaches the engine only through
    the connection to its own store; it never removes a store and never
    asks for the existence or the size of a file. *)
Theorem loader_touches_only_its_files (E : Env)
  (chunk_id start_pos end_pos : Z)
  (file_path temp_dir memory_limit compression : string)
  (w w' : World E) (t : Trace) (r : Result (Z * string)) (c : Call) :
  process_chunk E (chunk_id, (start_pos, end_pos)) file_path temp_dir
    memory_limit compression w = (w', t, r) ->
  In c (calls t) ->
  loader_call_ok file_path (chunk_db_path temp_dir chunk_id)
    (chunk_csv_path temp_dir chunk_id) c.
Proof.
  intros Hrun Hin.
  destruct (process_chunk_run_more E _ _ _ _ _ _ _ _ _ _ _ Hrun)
    as (_ & _ & Hcalls).
  exact (Hcalls c Hin).
Qed.

Lemma loader_touches_only_its_files_witness :
  loader_call_ok "domains.csv" (chunk_db_path "./temp_dbs" 0)
    (chunk_csv_path "./temp_dbs" 0) (OsRemove "./temp_dbs/chunk_0.csv").
Proof.
  apply (loader_touches_only_its_files
           (scripted (answer_ok three_lines 12288 3)) 0 0 6
           "domains.csv" "./temp_dbs" "8GB" "none" tt tt
           (snd (fst run_loader_ok)) (snd run_loader_ok));
    [reflexivity | cbn; auto 20].
Defined.

(** ** Names of scratch files and stores *)

Lemma append_inj_l (a x y : string) :
  (a ++ x = a ++ y)%string -> x = y.
Proof.
  induction a as [|ch a IH]; simpl; intros H; [exact H|].
  injection H as H. exact (IH H).
Qed.

Lemma string_length_append (x y : string) :
  String.length (x ++ y) = (String.length x + String.length y)%nat.
Proof. induction x as [|ch x IH]; simpl; auto. Qed.

Lemma append_inj_r (s x y : string) :
  (x ++ s = y ++ s)%string -> x = y.
Proof.
  revert y. induction x as [|ch x IH]; intros [|ch' y] H; simpl in H.
  - reflexivity.
  - apply (f_equal String.length) in H. simpl in H.
    rewrite string_length_append in H. lia.
  - apply (f_equal String.length) in H. simpl in H.
    rewrite string_length_append in H. lia.
  - injection H as -> H. f_equal. exact (IH _ H).
Qed.

(** The decimal text of an int determines it. *)
Lemma str_inj (n m : Z) : str n = str m -> n = m.
Proof.
  unfold str. intros H.
  assert (Hnil : forall z, Z.to_int z <> Decimal.Pos Decimal.Nil
                           /\ Z.to_int z <> Decimal.Neg Decimal.Nil).
  { intros z. split; intros Heq; pose proof (DecimalZ.of_to z) as Hz;
      rewrite Heq in Hz; cbn in Hz; subst z; vm_compute in Heq;
      discriminate Heq. }
  apply (f_equal NilZero.int_of_string) in H.
  rewrite !NilZero.isi in H by apply Hnil.
  injection H as H. exact (DecimalZ.to_int_inj _ _ H).
Qed.

Lemma string_append_assoc (a b c : string) :
  ((a ++ b) ++ c = a ++ b ++ c)%string.
Proof. induction a as [|ch a IH]; simpl; [reflexivity | now rewrite IH]. Qed.

(** A name that starts with [chunk_] is joined to the directory by
    putting a fixed prefix in front of it. *)
Lemma os_path_join_chunk (temp_dir : string) :
  exists dir, forall name,
    os_path_join temp_dir ("chunk_" ++ name) = (dir ++ "chunk_" ++ name)%string.
Proof.
  unfold os_path_join.
  destruct ((temp_dir =? "")%string || ends_with_slash temp_dir).
  - exists temp_dir. reflexivity.
  - exists (temp_dir ++ "/")%string. intros name.
    simpl. now rewrite string_append_assoc.
Qed.

Lemma duckdb_csv_suffix (x y : string) :
  (x ++ ".duckdb" <> y ++ ".csv")%string.
Proof.
  revert y. induction x as [|ch x IH]; intros [|ch' y] H; simpl in H.
  - discriminate H.
  - pose proof (f_equal String.length H) as Hlen. simpl in Hlen.
    rewrite string_length_append in Hlen. simpl in Hlen.
    destruct y as [|a [|b [|c y]]]; simpl in Hlen; try lia.
    discriminate H.
  - pose proof (f_equal String.length H) as Hlen. simpl in Hlen.
    rewrite string_length_append in Hlen. simpl in Hlen. lia.
  - injection H as _ H. exact (IH _ H).
Qed.

(** Workers do not collide on file names: two chunk ids with the same
    store path, or with the same scratch path, are equal, and no store
    path is a scratch path. *)
Theorem chunk_paths_do_not_collide (temp_dir : string) (i j : Z) :
  (chunk_db_path temp_dir i = chunk_db_path temp_dir j -> i = j)
  /\ (chunk_csv_path temp_dir i = chunk_csv_path temp_dir j -> i = j)
  /\ chunk_db_path temp_dir i <> chunk_csv_path temp_dir j.
Proof.
  unfold chunk_db_path, chunk_csv_path.
  destruct (os_path_join_chunk temp_dir) as (dir & Hjoin).
  rewrite !Hjoin.
  split; [|split]; intros H;
    apply append_inj_l in H; apply (append_inj_l "chunk_") in H.
  - apply append_inj_r in H. exact (str_inj _ _ H).
  - apply append_inj_r in H. exact (str_inj _ _ H).
  - exact (duckdb_csv_suffix _ _ H).
Qed.

(** ** Store merger: accounting and reach *)

Lemma merge_one_run_more (E : Env) (db_path temp_db : string)
  (count i total_rows : Z) (w w' : World E) (t : Trace) (r : Result Z) :
  merge_one E db_path count i temp_db total_rows w = (w', t, r) ->
  (exists added,
     r = Ret (total_rows + added)
     /\ forall pending rest,
          (forall a b, inserted_rows a rest = inserted_rows b rest) ->
          inserted_rows pending (t ++ rest) = added + inserted_rows 0 rest)
  /\ (forall e,
        In (Called (ConnExecute db_path DetachTempDb) (Raise e)) t ->
        (exists n, count_answers t = [n] /\ r = Ret (total_rows + n))
        /\ insert_succeeded t = true
        /\ In (Printed (MsgMergeError temp_db e)) t
        /\ ~ In (OsRemove temp_db) (calls t))
  /\ (forall c, In c (calls t) -> merger_call_ok db_path [temp_db] c).
Proof.
  unfold merge_one, detach_and_remove.
  unfold bind, call, try_except, print, ret, as_bool, as_int, raise.
  run_all; intros [= <- <- <-];
  ((split; [|split]);
    [ first [ exists 0; split; [f_equal; lia|];
              intros pending rest Hind; cbn;
              match goal with
              | |- inserted_rows ?p _ = _ => rewrite (Hind p 0); lia
              end
            | eexists; split; [reflexivity|];
              intros pending rest Hind; cbn;
              match goal with
              | |- ?n + inserted_rows ?n _ = _ => rewrite (Hind n 0); lia
              end ]
    | intros ? Hin; cbn in Hin;
      repeat (destruct Hin as [Hin|Hin]; [try discriminate Hin|]);
      first [ contradiction | injection Hin as <-; trace_facts ]
    | intros ? Hin; cbn in Hin;
      repeat (destruct Hin as [<-|Hin]; [cbn; auto|]); destruct Hin ]).
Qed.

Lemma calls_app (t1 t2 : Trace) : calls (t1 ++ t2) = calls t1 ++ calls t2.
Proof. apply flat_map_app. Qed.

Lemma merger_call_ok_mono (db_path : string) (l1 l2 : list string)
  (c : Call) :
  (forall p, In p l1 -> In p l2) ->
  merger_call_ok db_path l1 c -> merger_call_ok db_path l2 c.
Proof. intros Hsub. destruct c; simpl; auto. Qed.

Lemma merge_loop_run_more (E : Env) (db_path : string) (count : Z)
  (temp_dbs : list string) :
  forall (i total_rows : Z) (w w' : World E) (t : Trace) (r : Result Z),
    merge_loop E db_path count i temp_dbs total_rows w = (w', t, r) ->
    (exists added,
       r = Ret (total_rows + added)
       /\ forall pending rest,
            (forall a b, inserted_rows a rest = inserted_rows b rest) ->
            inserted_rows pending (t ++ rest) = added + inserted_rows 0 rest)
    /\ (forall c, In c (calls t) -> merger_call_ok db_path temp_dbs c).
Proof.
  induction temp_dbs as [|temp_db rest_dbs IH];
    intros i total w w' t r Hrun; simpl in Hrun.
  - injection Hrun as <- <- <-. split; [|intros c []].
    exists 0. split; [f_equal; lia|].
    intros pending rest Hind. simpl. rewrite (Hind pending 0). lia.
  - apply bind_inv in Hrun.
    destruct Hrun as [(e & H1 & ->) | (w1 & t1 & mid & t2 & H1 & H2 & ->)].
    + destruct (merge_one_run_more E _ _ _ _ _ _ _ _ _ H1)
        as ((added & Hr & _) & _). discriminate Hr.
    + destruct (merge_one_run_more E _ _ _ _ _ _ _ _ _ H1)
        as ((a1 & [= ->] & Hacc1) & _ & Hcalls1).
      destruct (IH _ _ _ _ _ _ H2) as ((a2 & -> & Hacc2) & Hcalls2).
      split.
      * exists (a1 + a2). split; [f_equal; lia|].
        intros pending rest Hind. rewrite <- app_assoc.
        rewrite Hacc1.
        -- rewrite (Hacc2 0 rest Hind). lia.
        -- intros a b. now rewrite (Hacc2 a rest Hind), (Hacc2 b rest Hind).
      * intros c Hin. rewrite calls_app in Hin. apply in_app_or in Hin.
        destruct Hin as [Hin|Hin].
        -- apply (merger_call_ok_mono db_path [temp_db]); [|auto].
           intros p [<-|[]]. now left.
        -- apply (merger_call_ok_mono db_path rest_dbs); [|auto].
           intros p Hp. now right.
Qed.

(** The total returned by the merger is the sum, over the INSERT
    statements that the engine executed without an error, of the row
    count it had answered for the attached store just before, whatever
    else failed during the run. *)
Theorem merger_total_is_inserted_rows (E : Env)
  (db_path memory_limit : string) (temp_dbs : list string)
  (w w' : World E) (t : Trace) (total : Z) :
  merge_temp_databases E db_path temp_dbs memory_limit w
    = (w', t, Ret total) ->
  total = inserted_rows 0 t.
Proof.
  unfold merge_temp_databases. intros Hrun.
  apply bind_ret_inv in Hrun.
  destruct Hrun as (w1 & t1 & v1 & ta & H1 & Hrun & ->).
  apply call_inv in H1. subst t1.
  apply bind_ret_inv in Hrun.
  destruct Hrun as (w2 & t2 & v2 & tb & H2 & Hrun & ->).
  apply call_inv in H2. subst t2.
  apply bind_ret_inv in Hrun.
  destruct Hrun as (w3 & t3 & v3 & tc & H3 & Hrun & ->).
  apply call_inv in H3. subst t3.
  apply bind_ret_inv in Hrun.
  destruct Hrun as (w4 & t4 & total4 & td & H4 & Hrun & ->).
  apply bind_ret_inv in Hrun.
  destruct Hrun as (w5 & t5 & v5 & te & H5 & Hrun & ->).
  apply call_inv in H5. subst t5.
  injection Hrun as <- <- <-.
  destruct (merge_loop_run_more E _ _ _ _ _ _ _ _ _ H4)
    as ((added & [= ->] & Hacc) & _).
  cbn. rewrite Hacc by reflexivity. simpl. lia.
Qed.

Lemma merger_total_is_inserted_rows_witness :
  10 = inserted_rows 0 (snd (fst run_merger_detach_fails)).
Proof.
  apply (merger_total_is_inserted_rows (scripted (answer_detach_fails 5))
           "domains.duckdb" "8GB"
           ["./temp_dbs/chunk_0.duckdb"; "./temp_dbs/chunk_1.duckdb"]%string
           tt tt);
    reflexivity.
Defined.

(** A failure of DETACH comes after the rows were appended: the counted
    rows are in [total_rows], the error is reported, and the file of the
    store is not removed.  A store kept on disk after a reported failure
    may thus already be merged. *)
Theorem merger_detach_failure_keeps_merged_store (E : Env)
  (db_path temp_db : string) (count i total_rows : Z)
  (w w1 : World E) (t1 : Trace) (r1 : Result Z) (e : Exn) :
  merge_one E db_path count i temp_db total_rows w = (w1, t1, r1) ->
  In (Called (ConnExecute db_path DetachTempDb) (Raise e)) t1 ->
  (exists n, count_answers t1 = [n] /\ r1 = Ret (total_rows + n))
  /\ insert_succeeded t1 = true
  /\ In (Printed (MsgMergeError temp_db e)) t1
  /\ ~ In (OsRemove temp_db) (calls t1).
Proof.
  intros Hrun Hin.
  destruct (merge_one_run_more E _ _ _ _ _ _ _ _ _ Hrun) as (_ & Hd & _).
  exact (Hd e Hin).
Qed.

Lemma merger_detach_failure_keeps_merged_store_witness :
  (exists n, count_answers (snd (fst run_merge_detach_fails)) = [n]
             /\ snd run_merge_detach_fails = Ret (7 + n))
  /\ insert_succeeded (snd (fst run_merge_detach_fails)) = true
  /\ In (Printed (MsgMergeError "./temp_dbs/chunk_0.duckdb"
                    (EngineError "Catalog Error")))
       (snd (fst run_merge_detach_fails))
  /\ ~ In (OsRemove "./temp_dbs/chunk_0.duckdb")
         (calls (snd (fst run_merge_detach_fails))).
Proof.
  apply (merger_detach_failure_keeps_merged_store
           (scripted (answer_detach_fails 5)) "domains.duckdb"
           "./temp_dbs/chunk_0.duckdb" 1 0 7 tt tt);
    [reflexivity | cbn; auto 20].
Defined.

(** The merger raises only when opening the target, one of its two
    set-up statements, or closing the connection raises: no failure on a
    store makes it raise. *)
Theorem merger_raises_only_around_loop (E : Env)
  (db_path memory_limit : string) (temp_dbs : list string)
  (w w' : World E) (t : Trace) (e : Exn) :
  merge_temp_databases E db_path temp_dbs memory_limit w
    = (w', t, Raise e) ->
  In (Called (DuckdbConnect db_path) (Raise e)) t
  \/ In (Called (ConnExecute db_path (PragmaMemoryLimit memory_limit))
           (Raise e)) t
  \/ In (Called (ConnExecute db_path CreateTableDomainsIfNotExists)
           (Raise e)) t
  \/ In (Called (ConnClose db_path) (Raise e)) t.
Proof.
  unfold merge_temp_databases. intros Hrun.
  apply bind_inv in Hrun.
  destruct Hrun as [(e1 & H1 & [= <-]) | (w1 & t1 & v1 & ta & H1 & Hrun & ->)];
    apply call_inv in H1; subst; [left; now left|].
  apply bind_inv in Hrun.
  destruct Hrun as [(e2 & H2 & [= <-]) | (w2 & t2 & v2 & tb & H2 & Hrun & ->)];
    apply call_inv in H2; subst; [right; left; right; now left|].
  apply bind_inv in Hrun.
  destruct Hrun as [(e3 & H3 & [= <-]) | (w3 & t3 & v3 & tc & H3 & Hrun & ->)];
    apply call_inv in H3; subst; [right; right; left; right; right; now left|].
  apply bind_inv in Hrun.
  destruct Hrun as [(e4 & H4 & [= <-]) | (w4 & t4 & v4 & td & H4 & Hrun & ->)].
  { destruct (merge_loop_run_more E _ _ _ _ _ _ _ _ _ H4)
      as ((added & Hr & _) & _). discriminate Hr. }
  apply bind_inv in Hrun.
  destruct Hrun as [(e5 & H5 & [= <-]) | (w5 & t5 & v5 & te & H5 & Hrun & ->)];
    apply call_inv in H5; subst.
  - right; right; right. apply in_or_app. right. apply in_or_app. right.
    apply in_or_app. right. apply in_or_app. right. now left.
  - discriminate Hrun.
Qed.

Lemma merger_raises_only_around_loop_witness :
  In (Called (DuckdbConnect "domains.duckdb")
        (Raise (EngineError "Connection Error")))
     (snd (fst run_merger_close_fails))
  \/ In (Called (ConnExecute "domains.duckdb" (PragmaMemoryLimit "8GB"))
           (Raise (EngineError "Connection Error")))
        (snd (fst run_merger_close_fails))
  \/ In (Called (ConnExecute "domains.duckdb" CreateTableDomainsIfNotExists)
           (Raise (EngineError "Connection Error")))
        (snd (fst run_merger_close_fails))
  \/ In (Called (ConnClose "domains.duckdb")
           (Raise (EngineError "Connection Error")))
        (snd (fst run_merger_close_fails)).
Proof.
  apply (merger_raises_only_around_loop (scripted (answer_close_fails []))
           "domains.duckdb" "8GB" ["./temp_dbs/chunk_0.duckdb"%string] tt tt);
    reflexivity.
Defined.

(** The merger reaches the engine only through the connection to the
    target, and asks for, measures and removes only stores of the list
    it was given; it opens, reads and writes no file itself. *)
Theorem merger_touches_only_its_stores (E : Env)
  (db_path memory_limit : string) (temp_dbs : list string)
  (w w' : World E) (t : Trace) (r : Result Z) (c : Call) :
  merge_temp_databases E db_path temp_dbs memory_limit w = (w', t, r) ->
  In c (calls t) ->
  merger_call_ok db_path temp_dbs c.
Proof.
  unfold merge_temp_databases. intros Hrun Hin.
  repeat match type of Hrun with
         | bind (call ?c0) _ _ = _ =>
             apply bind_inv in Hrun;
             destruct Hrun as [(? & H1 & ->) | (? & ? & ? & ? & H1 & Hrun & ->)];
             apply call_inv in H1; subst;
             [ cbn in Hin; destruct Hin as [<-|[]]; reflexivity
             | cbn [calls flat_map app] in Hin;
               destruct Hin as [<-|Hin]; [reflexivity|] ]
         end.
  apply bind_inv in Hrun.
  destruct Hrun as [(? & H4 & ->) | (? & t4 & ? & t5 & H4 & Hrun & ->)].
  - destruct (merge_loop_run_more E _ _ _ _ _ _ _ _ _ H4) as (_ & Hc).
    exact (Hc c Hin).
  - destruct (merge_loop_run_more E _ _ _ _ _ _ _ _ _ H4) as (_ & Hc).
    change (In c (calls (t4 ++ t5))) in Hin.
    rewrite calls_app in Hin. apply in_app_or in Hin.
    destruct Hin as [Hin|Hin]; [exact (Hc c Hin)|].
    apply bind_inv in Hrun.
    destruct Hrun as [(? & H5 & ->) | (? & ? & ? & ? & H5 & Hrun & ->)];
      apply call_inv in H5; subst.
    + cbn in Hin. destruct Hin as [<-|[]]. reflexivity.
    + injection Hrun as <- <- <-. cbn in Hin.
      destruct Hin as [<-|[]]. reflexivity.
Qed.

Lemma merger_touches_only_its_stores_witness :
  merger_call_ok "domains.duckdb"
    ["./temp_dbs/chunk_0.duckdb"; "./temp_dbs/chunk_1.duckdb"]%string
    (OsRemove "./temp_dbs/chunk_1.duckdb").
Proof.
  apply (merger_touches_only_its_stores
           (scripted (answer_ok [] 12288 5)) "domains.duckdb" "8GB"
           ["./temp_dbs/chunk_0.duckdb"; "./temp_dbs/chunk_1.duckdb"]%string
           tt tt
           (snd (fst (merge_temp_databases (scripted (answer_ok [] 12288 5))
                        "domains.duckdb"
                        ["./temp_dbs/chunk_0.duckdb";
                         "./temp_dbs/chunk_1.duckdb"]%string "8GB" tt)))
           (Ret 10));
    [reflexivity | cbn; auto 30].
Defined.

(** ** The worker pool and the chunked branch *)

Lemma process_chunk_returns (E : Env) (chunk_id start_pos end_pos : Z)
  (file_path temp_dir memory_limit compression : string)
  (w w' : World E) (t : Trace) (rows : Z) (store : string) :
  process_chunk E (chunk_id, (start_pos, end_pos)) file_path temp_dir
    memory_limit compression w = (w', t, Ret (rows, store)) ->
  store = chunk_db_path temp_dir chunk_id /\ 0 <= rows.
Proof.
  intros Hrun.
  destruct (process_chunk_run_more E _ _ _ _ _ _ _ _ _ _ _ Hrun)
    as (_ & Hzero & _).
  destruct (process_chunk_run E _ _ _ _ _ _ _ _ _ _ _ Hrun)
    as (_ & _ & Hret & Hframe).
  destruct (Hret (Hframe _ eq_refl)) as (rows' & [= <- ->] & _ & _ & Hrows).
  split; [reflexivity|].
  destruct (failure_reported t) eqn:Hf.
  - rewrite (Hzero _ _ eq_refl eq_refl). lia.
  - destruct (Hrows eq_refl) as (data & _ & ->).
    pose proof (count_rows_positive data). lia.
Qed.

(** When the pool has delivered all results, they are the results of
    [process_chunk] on the jobs; [rows_processed] is the sum of the row
    counts returned, none of them negative, and the list handed to the
    merger holds the stores of exactly the results with a positive
    count, in the order of arrival. *)
Theorem pool_collects_stores_with_rows (E : Env) (args : Args)
  (jobs : list (Z * Chunk)) :
  forall (acc acc' : Z * list string) (w w' : World E) (t : Trace),
    pool_loop E args jobs acc w = (w', t, Ret acc') ->
    exists results : list (Z * string),
      imap_unordered E args jobs w = (w', t, Ret results)
      /\ map snd results
         = map (fun job => chunk_db_path (arg_temp_dir args) (fst job)) jobs
      /\ Forall (fun result => 0 <= fst result) results
      /\ fst acc' = fst acc + sum_Z (map fst results)
      /\ snd acc'
         = snd acc
           ++ map snd (filter (fun result => 0 <? fst result) results).
Proof.
  induction jobs as [|[chunk_id [start_pos end_pos]] rest IH];
    intros acc acc' w w' t Hrun.
  - simpl in Hrun. injection Hrun as <- <- <-. exists [].
    simpl. rewrite app_nil_r. repeat split; auto. lia.
  - cbn [pool_loop] in Hrun. apply bind_ret_inv in Hrun.
    destruct Hrun as (w1 & t1 & [rows store] & t2 & H1 & H2 & ->).
    destruct (process_chunk_returns E _ _ _ _ _ _ _ _ _ _ _ _ H1)
      as [Hstore Hrows].
    destruct (IH _ _ _ _ _ H2)
      as (results & Hmap & Hstores & Hpos & Hsum & Hdbs).
    exists ((rows, store) :: results). split.
    + cbn [imap_unordered]. unfold bind at 1. rewrite H1.
      unfold bind at 1. rewrite Hmap. unfold ret.
      now rewrite app_nil_r.
    + subst store. destruct acc as [rows_processed temp_dbs]. simpl in *.
      split; [now rewrite Hstores|]. split; [constructor; auto|].
      split; [lia|].
      rewrite Hdbs. destruct (0 <? rows); simpl; [|reflexivity].
      now rewrite <- app_assoc.
Qed.

Lemma pool_collects_stores_with_rows_witness :
  exists results : list (Z * string),
    imap_unordered (scripted (answer_ok one_line 12288 1)) example_args
      [(0, (0, 4)); (1, (4, 8))] tt
    = (tt, snd (fst run_pool_ok), Ret results)
    /\ map snd results
       = map (fun job => chunk_db_path (arg_temp_dir example_args) (fst job))
           [(0, (0, 4)); (1, (4, 8))]
    /\ Forall (fun result => 0 <= fst result) results
    /\ fst (2, ["./temp_dbs/chunk_0.duckdb"; "./temp_dbs/chunk_1.duckdb"]%string)
       = fst (0, @nil string) + sum_Z (map fst results)
    /\ snd (2, ["./temp_dbs/chunk_0.duckdb"; "./temp_dbs/chunk_1.duckdb"]%string)
       = snd (0, @nil string)
         ++ map snd (filter (fun result => 0 <? fst result) results).
Proof.
  apply (pool_collects_stores_with_rows
           (scripted (answer_ok one_line 12288 1)) example_args
           [(0, (0, 4)); (1, (4, 8))] (0, [])
           (2, ["./temp_dbs/chunk_0.duckdb"; "./temp_dbs/chunk_1.duckdb"]%string)
           tt tt (snd (fst run_pool_ok)));
    reflexivity.
Defined.

(** On an empty input file the chunked branch never returns: the width
    computation overflows, or the planner yields no chunk and the pool,
    asked for no worker at all, raises.  No loader and no merger has
    run: nothing was sent to the engine, and no file was written or
    removed. *)
Theorem chunked_load_fails_on_empty_file (E : Env) (args : Args)
  (schedule : list (Z * Chunk) -> list (Z * Chunk)) :
  exists m,
    main_chunked E args schedule [] = Some m
    /\ forall w, exists e t, m w = (w, t, Raise e) /\ calls t = [].
Proof.
  unfold main_chunked, get_file_chunks, get_file_chunks_fuel. simpl.
  destruct (chunk_bytes_of 0 total_rows (arg_chunk_size args)) as [cb|e].
  - simpl. eexists. split; [reflexivity|]. intros w.
    exists ValueError. eexists. unfold load_chunks. simpl length.
    unfold bind, print, raise, ret. simpl.
    replace (Z.min (arg_workers args) 0 <? 1) with true
      by (symmetry; apply Z.ltb_lt; lia).
    split; reflexivity.
  - eexists. split; [reflexivity|]. intros w. exists e, [].
    split; reflexivity.
Qed.

(** ** Index builder: without sampling, and when a statement fails *)

Lemma create_single_index_run (E : Env)
  (db_path memory_limit field : string) (sample_size : PyFloat.float)
  (w w' : World E) (t : Trace) (r : Result unit) :
  create_single_index E db_path memory_limit field sample_size w
    = (w', t, r) ->
  (index_frame_raised t = false ->
   r = Ret tt
   /\ (exists t0 v, t = t0 ++ [Called (ConnClose db_path) (Ret v)])
   /\ (index_step_raised t = true ->
       (exists e, In (Printed (MsgIndexError field e)) t)
       /\ ~ In (Printed (MsgIndexCreated field)) t)
   /\ (index_step_raised t = false ->
       In (Printed (MsgIndexCreated field)) t))
  /\ (PyFloat.ltb sample_size PyFloat.one = false ->
      some_call_raised t = false ->
      statements t =
        [ PragmaMemoryLimit memory_limit;
          CreateIndexIfNotExists ("idx_" ++ field) "domains" field ])
  /\ (forall e,
        In (Called (ConnExecute db_path
                      (CreateIndexIfNotExists ("idx_" ++ field)
                         ("sample_" ++ field ++ "_table") field))
              (Raise e)) t ->
        statements t =
          [ PragmaMemoryLimit memory_limit;
            CreateSampleTable ("sample_" ++ field ++ "_table") "domains"
              sample_size;
            CreateIndexIfNotExists ("idx_" ++ field)
              ("sample_" ++ field ++ "_table") field ]).
Proof.
  unfold create_single_index.
  set (idx := ("idx_" ++ field)%string). clearbody idx.
  destruct (PyFloat.ltb sample_size PyFloat.one) eqn:Hlt.
  all: unfold bind, call, try_except, print, ret.
  all: run_all; intros [= <- <- <-].
  all: (split; [|split]);
    [ intros Hframe; cbn in Hframe;
      first [ discriminate Hframe
            | split; [reflexivity|];
              split; [ match goal with
                       | |- exists t0 v, ?l = t0 ++ [Called _ (Ret v)] =>
                           exists (removelast l); eexists; reflexivity
                       end |];
              split; intros Hstep; cbn in Hstep;
              first [ discriminate Hstep | trace_facts ] ]
    | intros Hno Hraised; cbn in Hraised;
      first [ discriminate Hno | discriminate Hraised | reflexivity ]
    | intros ? Hin; cbn in Hin;
      repeat (destruct Hin as [Hin|Hin]; [try discriminate Hin|]);
      first [ contradiction | reflexivity ] ].
Qed.

(** With a sample size that is not below [1.0] (also when it is not a
    number), and when no call raises, the index builder sends the memory
    limit and one CREATE INDEX on the full table, and nothing else: no
    sample table is created or dropped. *)
Theorem index_without_sampling (E : Env)
  (db_path memory_limit field : string) (sample_size : PyFloat.float)
  (w w' : World E) (t : Trace) (r : Result unit) :
  PyFloat.ltb sample_size PyFloat.one = false ->
  create_single_index E db_path memory_limit field sample_size w
    = (w', t, r) ->
  some_call_raised t = false ->
  statements t =
    [ PragmaMemoryLimit memory_limit;
      CreateIndexIfNotExists ("idx_" ++ field) "domains" field ].
Proof.
  intros Hlt Hrun Hno.
  destruct (create_single_index_run E _ _ _ _ _ _ _ _ Hrun) as (_ & H & _).
  exact (H Hlt Hno).
Qed.

Lemma index_without_sampling_witness :
  statements (snd (fst run_full_index)) =
    [ PragmaMemoryLimit "8GB";
      CreateIndexIfNotExists ("idx_" ++ "ip") "domains" "ip" ].
Proof.
  apply (index_without_sampling (scripted (answer_ok [] 12288 0))
           "domains.duckdb" "8GB" "ip" PyFloat.one tt tt
           (snd (fst run_full_index)) (snd run_full_index));
    reflexivity.
Defined.

(** A failure of CREATE INDEX or of DROP TABLE does not leave the index
    builder: when opening the database, the memory limit, the creation
    of the sample table and closing the connection do not raise, the
    builder returns, its last action is closing the connection, and it
    has printed the error instead of the completion message. *)
Theorem index_failure_is_caught (E : Env)
  (db_path memory_limit field : string) (sample_size : PyFloat.float)
  (w w' : World E) (t : Trace) (r : Result unit) :
  create_single_index E db_path memory_limit field sample_size w
    = (w', t, r) ->
  index_frame_raised t = false ->
  r = Ret tt
  /\ (exists t0 v, t = t0 ++ [Called (ConnClose db_path) (Ret v)])
  /\ (index_step_raised t = true ->
      (exists e, In (Printed (MsgIndexError field e)) t)
      /\ ~ In (Printed (MsgIndexCreated field)) t)
  /\ (index_step_raised t = false ->
      In (Printed (MsgIndexCreated field)) t).
Proof.
  intros Hrun Hframe.
  destruct (create_single_index_run E _ _ _ _ _ _ _ _ Hrun) as (H & _).
  exact (H Hframe).
Qed.

Lemma index_failure_is_caught_witness :
  snd run_sampled_index_fails = Ret tt
  /\ (exists t0 v,
        snd (fst run_sampled_index_fails)
        = t0 ++ [Called (ConnClose "domains.duckdb") (Ret v)])
  /\ (index_step_raised (snd (fst run_sampled_index_fails)) = true ->
      (exists e, In (Printed (MsgIndexError "ip" e))
                   (snd (fst run_sampled_index_fails)))
      /\ ~ In (Printed (MsgIndexCreated "ip"))
             (snd (fst run_sampled_index_fails)))
  /\ (index_step_raised (snd (fst run_sampled_index_fails)) = false ->
      In (Printed (MsgIndexCreated "ip"))
        (snd (fst run_sampled_index_fails))).
Proof.
  apply (index_failure_is_caught (scripted answer_index_fails)
           "domains.duckdb" "8GB" "ip" one_half tt tt);
    reflexivity.
Defined.

(** When the index on the sample table fails, the index on the full
    table is never attempted and the sample table is not dropped: the
    statements sent are the memory limit, the creation of the sample
    table and the failed CREATE INDEX. *)
Theorem sample_index_failure_skips_full_index (E : Env)
  (db_path memory_limit field : string) (sample_size : PyFloat.float)
  (w w' : World E) (t : Trace) (r : Result unit) (e : Exn) :
  create_single_index E db_path memory_limit field sample_size w
    = (w', t, r) ->
  In (Called (ConnExecute db_path
                (CreateIndexIfNotExists ("idx_" ++ field)
                   ("sample_" ++ field ++ "_table") field))
        (Raise e)) t ->
  statements t =
    [ PragmaMemoryLimit memory_limit;
      CreateSampleTable ("sample_" ++ field ++ "_table") "domains"
        sample_size;
      CreateIndexIfNotExists ("idx_" ++ field)
        ("sample_" ++ field ++ "_table") field ].
Proof.
  intros Hrun Hin.
  destruct (create_single_index_run E _ _ _ _ _ _ _ _ Hrun) as (_ & _ & H).
  exact (H e Hin).
Qed.

Lemma sample_index_failure_skips_full_index_witness :
  statements (snd (fst run_sampled_index_fails)) =
    [ PragmaMemoryLimit "8GB";
      CreateSampleTable ("sample_" ++ "ip" ++ "_table") "domains" one_half;
      CreateIndexIfNotExists ("idx_" ++ "ip")
        ("sample_" ++ "ip" ++ "_table") "ip" ].
Proof.
  apply (sample_index_failure_skips_full_index (scripted answer_index_fails)
           "domains.duckdb" "8GB" "ip" one_half tt tt
           (snd (fst run_sampled_index_fails)) (snd run_sampled_index_fails)
           (EngineError "Binder Error"));
    [reflexivity | cbn; auto 20].
Defined.

(** * The remaining functions *)

Ltac run_more_step :=
  match goal with
  | |- context [respond_more ?X ?c ?w] =>
      let w' := fresh "w" in
      let v := fresh "v" in
      let e := fresh "e" in
      destruct (respond_more X c w) as [w' [v|e]]; cbn
  | _ => run_step
  end.

Ltac run_more := cbn; repeat run_more_step.

Ltac unfold_more :=
  unfold execute, execute_more, mbind, lift, call_more, print_more,
    mtry_except, mret, mraise, mas_int, bind, call, try_except, print, ret.

Section MoreMonadFacts.

Variable X : FullEnv.

Lemma mbind_inv {A B : Type} (m : MM X A) (k : A -> MM X B)
  (w w' : World (base_env X)) (t : list MoreEvent) (r : Result B) :
  mbind m k w = (w', t, r) ->
  (exists e, m w = (w', t, Raise e) /\ r = Raise e)
  \/ (exists w1 t1 a t2,
        m w = (w1, t1, Ret a) /\ k a w1 = (w', t2, r) /\ t = t1 ++ t2).
Proof.
  unfold mbind. destruct (m w) as [[w1 t1] [a|e]].
  - destruct (k a w1) as [[w2 t2] r2] eqn:Hk. intros [= <- <- <-].
    right. exists w1, t1, a, t2. auto.
  - intros [= <- <- <-]. left. exists e. auto.
Qed.

End MoreMonadFacts.

(** ** [setup_database] *)

Lemma setup_database_run (X : FullEnv) (db_path memory_limit : string)
  (w w' : World (base_env X)) (t : list MoreEvent) (r : Result string) :
  setup_database X db_path memory_limit w = (w', t, r) ->
  (forall n r0,
     In (MoreCalled (ConnExecuteMore db_path (PragmaThreads n)) r0) t ->
     1 <= n)
  /\ (setup_failed t = false ->
      r = Ret db_path
      /\ exists t0 v,
           t = t0 ++ [Old (Called (ConnExecute db_path
                                     CreateTableDomainsIfNotExists) (Ret v))])
  /\ closed t = []
  /\ (forall x, r = Ret x -> setup_failed t = false).
Proof.
  unfold setup_database. unfold_more.
  run_more; intros [= <- <- <-];
  ((split; [|split; [|split]]);
    [ intros ? ? Hin; cbn in Hin;
      repeat (destruct Hin as [Hin|Hin]; [try discriminate Hin|]);
      first [ contradiction | injection Hin as <- _; lia ]
    | intros Hf; cbn in Hf;
      first [ discriminate Hf
            | split; [reflexivity|];
              match goal with
              | |- exists t0 v, ?l = t0 ++ [Old (Called _ (Ret v))] =>
                  exists (removelast l); eexists; reflexivity
              end ]
    | reflexivity
    | intros ? Hr; first [discriminate Hr | reflexivity] ]).
Qed.

(** Whatever number of processors the system reports, the engine is
    never asked for less than one thread. *)
Theorem setup_database_threads_at_least_one (X : FullEnv)
  (db_path memory_limit : string) (w w' : World (base_env X))
  (t : list MoreEvent) (r : Result string) (n : Z) (r0 : Result Value) :
  setup_database X db_path memory_limit w = (w', t, r) ->
  In (MoreCalled (ConnExecuteMore db_path (PragmaThreads n)) r0) t ->
  1 <= n.
Proof.
  intros Hrun Hin.
  destruct (setup_database_run X _ _ _ _ _ _ Hrun) as (H & _).
  exact (H n r0 Hin).
Qed.

Lemma setup_database_threads_at_least_one_witness : 1 <= 1.
Proof.
  apply (setup_database_threads_at_least_one old_engine "domains.duckdb"
           "8GB" tt tt (snd (fst run_setup_old_engine))
           (snd run_setup_old_engine) 1 (Ret VNone));
    [reflexivity | cbn; auto 10].
Defined.

(** The object cache is optional: when nothing but that pragma raises,
    [setup_database] returns the connection, still open, right after the
    creation of the table. *)
Theorem setup_database_object_cache_is_optional (X : FullEnv)
  (db_path memory_limit : string) (w w' : World (base_env X))
  (t : list MoreEvent) (r : Result string) :
  setup_database X db_path memory_limit w = (w', t, r) ->
  setup_failed t = false ->
  r = Ret db_path
  /\ closed t = []
  /\ exists t0 v,
       t = t0 ++ [Old (Called (ConnExecute db_path
                                 CreateTableDomainsIfNotExists) (Ret v))].
Proof.
  intros Hrun Hok.
  destruct (setup_database_run X _ _ _ _ _ _ Hrun) as (_ & H & Hc & _).
  destruct (H Hok) as [-> Hlast]. auto.
Qed.

Lemma setup_database_object_cache_is_optional_witness :
  snd run_setup_old_engine = Ret "domains.duckdb"%string
  /\ closed (snd (fst run_setup_old_engine)) = []
  /\ exists t0 v,
       snd (fst run_setup_old_engine)
       = t0 ++ [Old (Called (ConnExecute "domains.duckdb"
                               CreateTableDomainsIfNotExists) (Ret v))].
Proof.
  apply (setup_database_object_cache_is_optional old_engine "domains.duckdb"
           "8GB" tt tt);
    reflexivity.
Defined.

(** ** [load_direct_copy] *)

Lemma load_direct_copy_run (X : FullEnv)
  (file_path db_path memory_limit compression : string)
  (w w' : World (base_env X)) (t : list MoreEvent) (r : Result Z) :
  load_direct_copy X file_path db_path memory_limit compression w
    = (w', t, r) ->
  (forall n, r = Ret n ->
     In (MoreCalled (ConnExecuteMore db_path CountDomains) (Ret (VInt n))) t
     /\ closed t = [db_path])
  /\ (forall e, r = Raise e ->
        closed t = []
        \/ In (Old (Called (ConnClose db_path) (Raise e))) t)
  /\ (direct_load_failed t = false ->
      exists v threads,
        r = Ret v
        /\ all_statements t =
             [ inl (PragmaMemoryLimit memory_limit);
               inr (PragmaThreads threads);
               inr PragmaEnableObjectCache;
               inl CreateTableDomainsIfNotExists;
               inl (CopyDomainsFrom file_path (copy_compression compression));
               inr CountDomains ]
        /\ 1 <= threads).
Proof.
  unfold load_direct_copy, setup_database. unfold_more.
  set (opts := copy_compression compression). clearbody opts.
  run_more; intros [= <- <- <-];
  ((split; [|split]);
    [ intros ? Hr;
      first [ discriminate Hr
            | injection Hr as <-; split; [solve [in_trace] | reflexivity] ]
    | intros ? Hr;
      first [ discriminate Hr
            | injection Hr as <-;
              first [left; reflexivity | right; solve [in_trace]] ]
    | intros Hf; cbn in Hf;
      first [ discriminate Hf
            | eexists; eexists; split; [reflexivity|];
              split; [reflexivity | lia] ] ]).
Qed.

(** The direct loader counts no bytes itself: the row count it returns
    is the answer of the engine to the count over the target table, and
    when it returns it has closed its connection. *)
Theorem direct_load_returns_engine_count (X : FullEnv)
  (file_path db_path memory_limit compression : string)
  (w w' : World (base_env X)) (t : list MoreEvent) (n : Z) :
  load_direct_copy X file_path db_path memory_limit compression w
    = (w', t, Ret n) ->
  In (MoreCalled (ConnExecuteMore db_path CountDomains) (Ret (VInt n))) t
  /\ closed t = [db_path].
Proof.
  intros Hrun.
  destruct (load_direct_copy_run X _ _ _ _ _ _ _ _ Hrun) as (H & _).
  exact (H n eq_refl).
Qed.

Lemma direct_load_returns_engine_count_witness :
  In (MoreCalled (ConnExecuteMore "domains.duckdb" CountDomains)
        (Ret (VInt 42))) (snd (fst run_direct_ok))
  /\ closed (snd (fst run_direct_ok)) = ["domains.duckdb"%string].
Proof.
  apply (direct_load_returns_engine_count new_engine "domains.csv"
           "domains.duckdb" "8GB" "gzip" tt tt);
    reflexivity.
Defined.

(** The direct loader catches nothing and has no clean-up: when it
    raises, its connection has not been closed, unless it is the close
    that raised. *)
Theorem direct_load_failure_leaves_connection_open (X : FullEnv)
  (file_path db_path memory_limit compression : string)
  (w w' : World (base_env X)) (t : list MoreEvent) (e : Exn) :
  load_direct_copy X file_path db_path memory_limit compression w
    = (w', t, Raise e) ->
  closed t = [] \/ In (Old (Called (ConnClose db_path) (Raise e))) t.
Proof.
  intros Hrun.
  destruct (load_direct_copy_run X _ _ _ _ _ _ _ _ Hrun) as (_ & H & _).
  exact (H e eq_refl).
Qed.

Lemma direct_load_failure_leaves_connection_open_witness :
  closed (snd (fst run_direct_rejected)) = []
  \/ In (Old (Called (ConnClose "domains.duckdb")
                (Raise (EngineError "Invalid Input Error"))))
       (snd (fst run_direct_rejected)).
Proof.
  apply (direct_load_failure_leaves_connection_open rejecting_engine
           "domains.csv" "domains.duckdb" "8GB" "none" tt tt);
    reflexivity.
Defined.

(** When nothing but the object cache pragma fails, the direct loader
    returns after exactly these statements: memory limit, threads (at
    least one), object cache, creation of the table if absent, COPY of
    the whole input file with the compression option, and the count. *)
Theorem direct_load_statements (X : FullEnv)
  (file_path db_path memory_limit compression : string)
  (w w' : World (base_env X)) (t : list MoreEvent) (r : Result Z) :
  load_direct_copy X file_path db_path memory_limit compression w
    = (w', t, r) ->
  direct_load_failed t = false ->
  exists v threads,
    r = Ret v
    /\ all_statements t =
         [ inl (PragmaMemoryLimit memory_limit);
           inr (PragmaThreads threads);
           inr PragmaEnableObjectCache;
           inl CreateTableDomainsIfNotExists;
           inl (CopyDomainsFrom file_path (copy_compression compression));
           inr CountDomains ]
    /\ 1 <= threads.
Proof.
  intros Hrun Hok.
  destruct (load_direct_copy_run X _ _ _ _ _ _ _ _ Hrun) as (_ & _ & H).
  exact (H Hok).
Qed.

Lemma direct_load_statements_witness :
  exists v threads,
    snd run_direct_ok = Ret v
    /\ all_statements (snd (fst run_direct_ok)) =
         [ inl (PragmaMemoryLimit "8GB");
           inr (PragmaThreads threads);
           inr PragmaEnableObjectCache;
           inl CreateTableDomainsIfNotExists;
           inl (CopyDomainsFrom "domains.csv" (copy_compression "gzip"));
           inr CountDomains ]
    /\ 1 <= threads.
Proof.
  apply (direct_load_statements new_engine "domains.csv" "domains.duckdb"
           "8GB" "gzip" tt tt);
    reflexivity.
Defined.

(** ** [create_indexes] *)

Lemma create_indexes_run (X : FullEnv) (db_path : string)
  (w w' : World (base_env X)) (t : list MoreEvent) (r : Result unit) :
  create_indexes X db_path w = (w', t, r) ->
  (not_analyze_raised t = false ->
   r = Ret tt
   /\ closed t = [db_path]
   /\ all_statements t =
        [ inl (CreateIndexIfNotExists "idx_domain" "domains" "domain");
          inl (CreateIndexIfNotExists "idx_ip" "domains" "ip");
          inl (CreateIndexIfNotExists "idx_country" "domains" "country");
          inr AnalyzeDomains ]
   /\ (forall e,
         In (MoreCalled (ConnExecuteMore db_path AnalyzeDomains) (Raise e)) t
         -> In (MorePrinted MsgAnalyzeUnavailable) t))
  /\ (forall e q,
        In (Old (Called (ConnExecute db_path q) (Raise e))) t ->
        r = Raise e
        /\ closed t = []
        /\ ~ In (inr AnalyzeDomains) (all_statements t)
        /\ exists before, all_statements t = before ++ [inl q]).
Proof.
  unfold create_indexes. unfold_more.
  run_more; intros [= <- <- <-];
  (split;
    [ intros Hf; cbn in Hf;
      first [ discriminate Hf
            | split; [reflexivity|]; split; [reflexivity|];
              split; [reflexivity|];
              intros ? Hin; cbn in Hin;
              repeat (destruct Hin as [Hin|Hin]; [try discriminate Hin|]);
              first [ contradiction | solve [in_trace] ] ]
    | intros ? ? Hin; cbn in Hin;
      repeat (destruct Hin as [Hin|Hin]; [try discriminate Hin|]);
      first [ contradiction
            | injection Hin as <- <-;
              split; [reflexivity|]; split; [reflexivity|];
              split; [ cbn; intros Hx;
                       repeat (destruct Hx as [Hx|Hx];
                               [try discriminate Hx|]);
                       contradiction
                     | match goal with
                       | |- exists before, ?l = before ++ [_] =>
                           exists (removelast l); reflexivity
                       end ] ] ]).
Qed.

(** ANALYZE is optional: when nothing else raises, [create_indexes]
    returns with its connection closed, having sent the three index
    statements on [domain], [ip] and [country] in this order and then
    ANALYZE; a failure of ANALYZE only prints a note. *)
Theorem create_indexes_analyze_is_optional (X : FullEnv) (db_path : string)
  (w w' : World (base_env X)) (t : list MoreEvent) (r : Result unit) :
  create_indexes X db_path w = (w', t, r) ->
  not_analyze_raised t = false ->
  r = Ret tt
  /\ closed t = [db_path]
  /\ all_statements t =
       [ inl (CreateIndexIfNotExists "idx_domain" "domains" "domain");
         inl (CreateIndexIfNotExists "idx_ip" "domains" "ip");
         inl (CreateIndexIfNotExists "idx_country" "domains" "country");
         inr AnalyzeDomains ]
  /\ (forall e,
        In (MoreCalled (ConnExecuteMore db_path AnalyzeDomains) (Raise e)) t
        -> In (MorePrinted MsgAnalyzeUnavailable) t).
Proof.
  intros Hrun Hok.
  destruct (create_indexes_run X _ _ _ _ _ Hrun) as (H & _).
  exact (H Hok).
Qed.

Lemma create_indexes_analyze_is_optional_witness :
  snd run_create_indexes_old_engine = Ret tt
  /\ closed (snd (fst run_create_indexes_old_engine))
     = ["domains.duckdb"%string]
  /\ all_statements (snd (fst run_create_indexes_old_engine)) =
       [ inl (CreateIndexIfNotExists "idx_domain" "domains" "domain");
         inl (CreateIndexIfNotExists "idx_ip" "domains" "ip");
         inl (CreateIndexIfNotExists "idx_country" "domains" "country");
         inr AnalyzeDomains ]
  /\ (forall e,
        In (MoreCalled (ConnExecuteMore "domains.duckdb" AnalyzeDomains)
              (Raise e)) (snd (fst run_create_indexes_old_engine))
        -> In (MorePrinted MsgAnalyzeUnavailable)
             (snd (fst run_create_indexes_old_engine))).
Proof.
  apply (create_indexes_analyze_is_optional old_engine "domains.duckdb"
           tt tt);
    reflexivity.
Defined.

(** An index statement that fails ends [create_indexes] at once: the
    exception leaves the function, the failed statement is the last one
    sent, ANALYZE is not run and the connection is not closed. *)
Theorem create_indexes_stops_at_failed_index (X : FullEnv)
  (db_path : string) (w w' : World (base_env X)) (t : list MoreEvent)
  (r : Result unit) (e : Exn) (q : Sql) :
  create_indexes X db_path w = (w', t, r) ->
  In (Old (Called (ConnExecute db_path q) (Raise e))) t ->
  r = Raise e
  /\ closed t = []
  /\ ~ In (inr AnalyzeDomains) (all_statements t)
  /\ exists before, all_statements t = before ++ [inl q].
Proof.
  intros Hrun Hin.
  destruct (create_indexes_run X _ _ _ _ _ Hrun) as (_ & H).
  exact (H e q Hin).
Qed.

Lemma create_indexes_stops_at_failed_index_witness :
  snd run_create_indexes_rejected = Raise (EngineError "Binder Error")
  /\ closed (snd (fst run_create_indexes_rejected)) = []
  /\ ~ In (inr AnalyzeDomains)
         (all_statements (snd (fst run_create_indexes_rejected)))
  /\ exists before,
       all_statements (snd (fst run_create_indexes_rejected))
       = before
         ++ [inl (CreateIndexIfNotExists "idx_domain" "domains" "domain")].
Proof.
  apply (create_indexes_stops_at_failed_index no_index_engine
           "domains.duckdb" tt tt (snd (fst run_create_indexes_rejected))
           (snd run_create_indexes_rejected));
    [reflexivity | cbn; auto 10].
Defined.

(** ** [optimize_index_creation], serial mode *)

Lemma optimize_failed_app (t1 t2 : list MoreEvent) :
  optimize_failed (t1 ++ t2) = optimize_failed t1 || optimize_failed t2.
Proof. apply existsb_app. Qed.

Lemma full_table_indexes_app (t1 t2 : list MoreEvent) :
  full_table_indexes (t1 ++ t2)
  = full_table_indexes t1 ++ full_table_indexes t2.
Proof. apply flat_map_app. Qed.

Lemma lift_single_index_run (X : FullEnv)
  (db_path memory_limit field : string) (sample_size : PyFloat.float)
  (w w' : World (base_env X)) (t : list MoreEvent) (r : Result unit) :
  lift (create_single_index (base_env X) db_path memory_limit field
          sample_size) w = (w', t, r) ->
  PyFloat.ltb sample_size PyFloat.one = false ->
  optimize_failed t = false ->
  r = Ret tt
  /\ full_table_indexes t
     = [CreateIndexIfNotExists ("idx_" ++ field) "domains" field].
Proof.
  intros Hrun Hlt. revert Hrun.
  unfold lift, create_single_index. rewrite Hlt.
  unfold bind, call, try_except, print, ret.
  run_all; intros [= <- <- <-]; intros Hf; cbn in Hf;
    first [discriminate Hf | split; reflexivity].
Qed.

Lemma index_each_field_run (X : FullEnv) (db_path memory_limit : string)
  (sample_size : PyFloat.float) (fields : list string) :
  PyFloat.ltb sample_size PyFloat.one = false ->
  forall (w w' : World (base_env X)) (t : list MoreEvent) (r : Result unit),
    index_each_field X db_path memory_limit fields sample_size w
      = (w', t, r) ->
    optimize_failed t = false ->
    r = Ret tt
    /\ full_table_indexes t
       = map (fun field =>
                CreateIndexIfNotExists ("idx_" ++ field) "domains" field)
           fields.
Proof.
  intros Hlt.
  induction fields as [|field rest IH]; intros w w' t r Hrun Hok;
    simpl in Hrun.
  - injection Hrun as <- <- <-. split; reflexivity.
  - apply mbind_inv in Hrun.
    destruct Hrun as [(e & H1 & ->) | (w1 & t1 & [] & t2 & H1 & H2 & ->)].
    + destruct (lift_single_index_run X _ _ _ _ _ _ _ _ H1 Hlt Hok)
        as [Hr _]. discriminate Hr.
    + rewrite optimize_failed_app in Hok. apply orb_false_elim in Hok.
      destruct Hok as [Hok1 Hok2].
      destruct (lift_single_index_run X _ _ _ _ _ _ _ _ H1 Hlt Hok1)
        as [_ Hidx1].
      destruct (IH _ _ _ _ H2 Hok2) as [-> Hidx2].
      split; [reflexivity|].
      rewrite full_table_indexes_app, Hidx1, Hidx2. reflexivity.
Qed.

(** In serial mode without sampling, a failed index build does not stop
    the others: when no call outside the index statements fails, the
    function returns and an index on the full table has been attempted
    for every field, in the order of the list. *)
Theorem serial_build_attempts_every_field (X : FullEnv)
  (parallel_index_creation :
     string -> string -> list string -> PyFloat.float -> MM X unit)
  (db_path memory_limit : string) (fields : list string)
  (sample_size : PyFloat.float) (skip_analyze : bool)
  (w w' : World (base_env X)) (t : list MoreEvent) (r : Result unit) :
  optimize_index_creation X parallel_index_creation db_path memory_limit
    fields false sample_size skip_analyze w = (w', t, r) ->
  PyFloat.ltb sample_size PyFloat.one = false ->
  optimize_failed t = false ->
  r = Ret tt
  /\ full_table_indexes t
     = map (fun field =>
              CreateIndexIfNotExists ("idx_" ++ field) "domains" field)
         fields.
Proof.
  intros Hrun Hlt. revert Hrun.
  unfold optimize_index_creation. unfold_more.
  repeat first
    [ run_more_step
    | match goal with
      | |- context [index_each_field ?X0 ?a ?b ?c ?d ?w0] =>
          let Hmid := fresh "Hmid" in
          destruct (index_each_field X0 a b c d w0) as [[? ?] ?] eqn:Hmid;
          cbn
      | |- context [match ?r0 with Ret _ => _ | Raise _ => _ end] =>
          is_var r0; destruct r0 as [[]|?]; cbn
      end ].
  all: intros [= <- <- <-].
  all: unfold optimize_failed, full_table_indexes;
    rewrite ?existsb_app, ?flat_map_app; cbn;
    rewrite ?existsb_app, ?flat_map_app; cbn;
    rewrite ?orb_false_r, ?app_nil_r.
  all: intros Hf; try discriminate Hf.
  all: try (apply orb_false_elim in Hf; destruct Hf as [Hf Hf2];
            try discriminate Hf2).
  all: match goal with
       | Hmid : index_each_field _ _ _ _ _ _ = _ |- _ =>
           destruct (index_each_field_run X _ _ _ _ Hlt _ _ _ _ Hmid Hf)
             as [Hr Hidx];
           first [discriminate Hr | split; [reflexivity | exact Hidx]]
       end.
Qed.

Lemma serial_build_attempts_every_field_witness :
  snd run_optimize_rejected = Ret tt
  /\ full_table_indexes (snd (fst run_optimize_rejected))
     = map (fun field =>
              CreateIndexIfNotExists ("idx_" ++ field) "domains" field)
         ["domain"; "ip"]%string.
Proof.
  apply (serial_build_attempts_every_field no_index_engine
           (no_parallel no_index_engine) "domains.duckdb" "8GB"
           ["domain"; "ip"]%string PyFloat.one false tt tt);
    reflexivity.
Defined.

(** ** The field list of the index command *)

Lemma split_on_nonempty (sep : N) (s : pystr) : split_on sep s <> [].
Proof.
  destruct s as [|c rest]; simpl; [discriminate|].
  destruct (c =? sep)%N; [discriminate|].
  destruct (split_on sep rest); discriminate.
Qed.

Lemma split_on_length (sep : N) (s : pystr) :
  length (split_on sep s) = S (count_occ N.eq_dec s sep).
Proof.
  induction s as [|c rest IH]; simpl; [reflexivity|].
  destruct (N.eqb_spec c sep) as [-> | Hne].
  - destruct (N.eq_dec sep sep); [|contradiction]. simpl. now rewrite IH.
  - destruct (N.eq_dec c sep); [contradiction|].
    pose proof (split_on_nonempty sep rest).
    destruct (split_on sep rest); [contradiction|]. exact IH.
Qed.

Lemma split_on_no_sep (sep : N) (s : pystr) :
  Forall (fun part => ~ In sep part) (split_on sep s).
Proof.
  induction s as [|c rest IH]; simpl.
  - constructor; [intros [] | constructor].
  - destruct (N.eqb_spec c sep) as [-> | Hne].
    + constructor; [intros [] | exact IH].
    + destruct (split_on sep rest) as [|first others].
      * constructor; [|constructor]. intros [H | []]. contradiction.
      * inversion IH as [|? ? Hf Ho]; subst. constructor; [|exact Ho].
        intros [H | H]; [contradiction | now apply Hf].
Qed.

Lemma split_on_join (sep : N) (s : pystr) : join sep (split_on sep s) = s.
Proof.
  induction s as [|c rest IH]; simpl; [reflexivity|].
  pose proof (split_on_nonempty sep rest) as Hne.
  destruct (N.eqb_spec c sep) as [-> | Hc].
  - destruct (split_on sep rest) as [|first others]; [contradiction|].
    simpl. f_equal. exact IH.
  - destruct (split_on sep rest) as [|first others]; [contradiction|].
    destruct others; simpl in *; now rewrite <- IH.
Qed.

Lemma lstrip_sublist (s : pystr) : exists blanks,
  s = blanks ++ lstrip s /\ Forall (fun c => isspace c = true) blanks.
Proof.
  induction s as [|c rest (blanks & Heq & Hall)]; simpl.
  - exists []. split; [reflexivity | constructor].
  - destruct (isspace c) eqn:E.
    + exists (c :: blanks). split; [simpl; now f_equal | now constructor].
    + exists []. split; [reflexivity | constructor].
Qed.

Lemma lstrip_head (s : pystr) (c : N) :
  hd_error (lstrip s) = Some c -> isspace c = false.
Proof.
  induction s as [|d rest IH]; simpl; [discriminate|].
  destruct (isspace d) eqn:E; [exact IH|].
  simpl. intros [= <-]. exact E.
Qed.

Lemma strip_sublist (s : pystr) : exists before after,
  s = before ++ strip s ++ after
  /\ Forall (fun c => isspace c = true) before
  /\ Forall (fun c => isspace c = true) after.
Proof.
  destruct (lstrip_sublist s) as (before & Hs & Hb).
  destruct (lstrip_sublist (rev (lstrip s))) as (after & Hr & Ha).
  exists before, (rev after). split; [|split].
  - unfold strip, rstrip. rewrite <- rev_app_distr, <- Hr, rev_involutive.
    exact Hs.
  - exact Hb.
  - apply Forall_rev. exact Ha.
Qed.

Lemma strip_last (s : pystr) (c : N) :
  hd_error (rev (strip s)) = Some c -> isspace c = false.
Proof.
  unfold strip, rstrip. rewrite rev_involutive. apply lstrip_head.
Qed.

Lemma strip_head (s : pystr) (c : N) :
  hd_error (strip s) = Some c -> isspace c = false.
Proof.
  unfold strip, rstrip. intros H.
  destruct (lstrip_sublist (rev (lstrip s))) as (blanks & Heq & _).
  apply (f_equal (@rev N)) in Heq.
  rewrite rev_involutive, rev_app_distr in Heq.
  apply (lstrip_head s). rewrite Heq.
  destruct (rev (lstrip (rev (lstrip s)))); [discriminate | exact H].
Qed.

(** The field list has one more entry than the argument has commas; it is
    never empty, so an empty argument gives one field with an empty
    name. *)
Theorem parse_fields_count (fields : pystr) :
  length (parse_fields fields) = S (count_occ N.eq_dec fields comma).
Proof.
  unfold parse_fields. rewrite length_map. apply split_on_length.
Qed.

(** No field holds a comma, and no field begins or ends with a character
    that [str.strip] removes. *)
Theorem parse_fields_clean (fields : pystr) :
  Forall (fun field =>
            ~ In comma field
            /\ (forall c, hd_error field = Some c -> isspace c = false)
            /\ (forall c, hd_error (rev field) = Some c -> isspace c = false))
         (parse_fields fields).
Proof.
  unfold parse_fields. apply Forall_map.
  eapply Forall_impl; [|apply (split_on_no_sep comma fields)].
  intros part Hno. split; [|split].
  - intros Hin. apply Hno.
    destruct (strip_sublist part) as (before & after & Heq & _).
    rewrite Heq. apply in_or_app. right. apply in_or_app. now left.
  - apply strip_head.
  - apply strip_last.
Qed.

(** Nothing but blanks around a field is dropped: the argument is the
    fields, each between two runs of blanks, joined by commas. *)
Theorem parse_fields_drops_only_blanks (fields : pystr) :
  exists pieces,
    join comma pieces = fields
    /\ Forall2 (fun piece field =>
                  exists before after,
                    piece = before ++ field ++ after
                    /\ Forall (fun c => isspace c = true) before
                    /\ Forall (fun c => isspace c = true) after)
               pieces (parse_fields fields).
Proof.
  exists (split_on comma fields). split; [apply split_on_join|].
  unfold parse_fields.
  induction (split_on comma fields) as [|piece rest IH]; simpl;
    constructor; [apply strip_sublist | exact IH].
Qed.
